(** * secTrim: the paddle game with coins (main.cpp, coin.cpp, coin.h)

    A shallow embedding of the per-frame simulation of [main.cpp]: paddle
    movement, ball integration, wall and paddle collisions, the
    consecutive-hit rule, miss scoring, the speed boost timer, coin spawning
    and the coin loop.  The C++ [float] is IEEE-754 binary32, modelled with
    the Standard Library's [SpecFloat] at precision 24; [int] is modelled as
    [Z] (signed overflow is undefined behaviour in C++ and is never reached by
    the timers and coordinates of the game). *)

From Stdlib Require Import ZArith List Bool Lia.
From Stdlib Require Import Floats.SpecFloat.
From Stdlib Require Strings.String Strings.Ascii.
Import ListNotations.
Local Open Scope Z_scope.

(** ** Floating point *)

(** [float]: binary32, round to nearest even. *)
Module F32.
Definition prec : Z := 24.
Definition emax : Z := 128.
Definition float : Type := spec_float.

Definition zero : float := S754_zero false.
Definition add : float -> float -> float := SFadd prec emax.
Definition sub : float -> float -> float := SFsub prec emax.
Definition mul : float -> float -> float := SFmul prec emax.
Definition div : float -> float -> float := SFdiv prec emax.
Definition sqrt : float -> float := SFsqrt prec emax.
Definition abs : float -> float := SFabs.
Definition opp : float -> float := SFopp.
Definition ltb : float -> float -> bool := SFltb.
Definition leb : float -> float -> bool := SFleb.
Definition eqb : float -> float -> bool := SFeqb.

(** [static_cast<float>(n)] and the implicit int-to-float conversion. *)
Definition of_int (n : Z) : float := binary_normalize prec emax n 0 false.

(** A decimal literal [p/q] written with the [f] suffix: the nearest float. *)
Definition lit (p q : Z) : float := div (of_int p) (of_int q).

(** [static_cast<int>(f)] and the implicit float-to-int conversion:
    truncation toward zero.  Outside the range of [int] (and on NaN) C++
    leaves the result undefined; the x86 conversion yields [INT_MIN]. *)
Definition INT_MIN : Z := - 2 ^ 31.
Definition INT_MAX : Z := 2 ^ 31 - 1.
Definition to_int (f : float) : Z :=
  match f with
  | S754_zero _ => 0
  | S754_finite s m e =>
      let n := cond_Zopp s (match e with
                            | Zneg p => Z.shiftr (Zpos m) (Zpos p)
                            | _ => Z.shiftl (Zpos m) e
                            end) in
      if (INT_MIN <=? n) && (n <=? INT_MAX) then n else INT_MIN
  | _ => INT_MIN
  end.

(** [std::max(a, b)] is [(a < b) ? b : a]; [std::min(a, b)] is
    [(b < a) ? b : a]. *)
Definition max (a b : float) : float := if ltb a b then b else a.
Definition min (a b : float) : float := if ltb b a then b else a.

Definition is_nan (f : float) : bool :=
  match f with S754_nan => true | _ => false end.

(** The sign bit, as [std::signbit]; a NaN carries no sign here. *)
Definition signbit (f : float) : bool :=
  match f with
  | S754_zero s | S754_infinity s | S754_finite s _ _ => s
  | S754_nan => false
  end.
End F32.

(** [double]: binary64, used where the source mixes in [M_PI], [pow] and
    the [double] overload of [sqrt]. *)
Module F64.
Definition prec : Z := 53.
Definition emax : Z := 1024.
Definition double : Type := spec_float.

Definition add : double -> double -> double := SFadd prec emax.
Definition mul : double -> double -> double := SFmul prec emax.
Definition sqrt : double -> double := SFsqrt prec emax.

(** Widening a [float] is exact. *)
Definition of_f32 (f : F32.float) : double := f.

(** Narrowing on assignment to a [float] rounds to nearest even. *)
Definition to_f32 (d : double) : F32.float :=
  match d with
  | S754_finite s m e => binary_round F32.prec F32.emax s m e
  | _ => d
  end.

(** [M_PI] = 0x400921FB54442D18. *)
Definition M_PI : double := S754_finite false 7074237752028440 (-51).
End F64.

Definition float : Type := F32.float.

(** Float arithmetic is evaluated on demand only, never by [simpl] or
    [cbn]. *)
Arguments F32.add : simpl never.
Arguments F32.sub : simpl never.
Arguments F32.mul : simpl never.
Arguments F32.div : simpl never.
Arguments F32.sqrt : simpl never.
Arguments F32.abs : simpl never.
Arguments F32.opp : simpl never.
Arguments F32.ltb : simpl never.
Arguments F32.leb : simpl never.
Arguments F32.eqb : simpl never.
Arguments F32.of_int : simpl never.
Arguments F32.to_int : simpl never.
Arguments F32.lit : simpl never.
Arguments F32.max : simpl never.
Arguments F32.min : simpl never.
Arguments F64.add : simpl never.
Arguments F64.mul : simpl never.
Arguments F64.sqrt : simpl never.
Arguments F64.to_f32 : simpl never.

(** ** Constants of main.cpp and coin.cpp *)

Definition WINDOW_WIDTH : Z := 800.
Definition WINDOW_HEIGHT : Z := 600.

Definition BALL_DIAMETER : Z := 30.
Definition BALL_RADIUS : Z := Z.quot BALL_DIAMETER 2.
Definition INITIAL_BALL_SPEED : float := Eval vm_compute in F32.lit 40 10.
Definition BALL_BOOST_FACTOR : float := Eval vm_compute in F32.lit 12 10.
Definition BALL_BOOST_DURATION_FRAMES : Z := 30.

Definition PADDLE_WIDTH : Z := 20.
Definition PADDLE_HEIGHT : Z := 100.
Definition PADDLE_SPEED : float := Eval vm_compute in F32.lit 60 10.

Definition COIN_DRAW_SCALE : float := Eval vm_compute in F32.lit 8 10.
Definition COIN_APPEAR_INTERVAL_FRAMES : Z := 300.
Definition COIN_DURATION_FRAMES : Z := 600.

Definition DEFAULT_COIN_FRAME_WIDTH : Z := 32.
Definition DEFAULT_COIN_FRAME_HEIGHT : Z := 32.

(** The serve threshold [0.2f]. *)
Definition SERVE_TOLERANCE : float := Eval vm_compute in F32.lit 2 10.

(** The speed while boosted, [INITIAL_BALL_SPEED * BALL_BOOST_FACTOR]. *)
Definition BOOSTED_BALL_SPEED : float :=
  Eval vm_compute in F32.mul INITIAL_BALL_SPEED BALL_BOOST_FACTOR.

(** ** Game state *)

Record SDL_Rect : Type := mkRect {
  rect_x : Z;
  rect_y : Z;
  rect_w : Z;
  rect_h : Z
}.

Definition set_rect_y (v : Z) (r : SDL_Rect) : SDL_Rect :=
  mkRect (rect_x r) v (rect_w r) (rect_h r).

Record Coin : Type := mkCoin {
  coin_x : float;
  coin_y : float;
  coin_timer : Z
}.

(** [enum class LastHit { None, LeftPaddle, RightPaddle }]. *)
Module LastHit.
Inductive t : Type := None | LeftPaddle | RightPaddle.
End LastHit.
Definition LastHit : Type := LastHit.t.

(** The file-scope variables of main.cpp, and [rand_calls], the number of
    calls made to [rand()] so far. *)
Record State : Type := mkState {
  ball_x : float;
  ball_y : float;
  ball_dx : float;
  ball_dy : float;
  current_ball_speed : float;
  ball_boost_timer : Z;
  leftPaddle : SDL_Rect;
  rightPaddle : SDL_Rect;
  coins : list Coin;
  coin_spawn_timer : Z;
  left_score : Z;
  right_score : Z;
  last_ball_hit : LastHit;
  left_consecutive_hits : Z;
  right_consecutive_hits : Z;
  rand_calls : nat
}.

(** Assignment to one global: every other field is kept. *)
Definition set_ball_x (v : float) (s : State) : State :=
  mkState v (ball_y s) (ball_dx s) (ball_dy s) (current_ball_speed s)
  (ball_boost_timer s) (leftPaddle s) (rightPaddle s) (coins s)
  (coin_spawn_timer s) (left_score s) (right_score s) (last_ball_hit s)
  (left_consecutive_hits s) (right_consecutive_hits s) (rand_calls s).
Definition set_ball_y (v : float) (s : State) : State :=
  mkState (ball_x s) v (ball_dx s) (ball_dy s) (current_ball_speed s)
  (ball_boost_timer s) (leftPaddle s) (rightPaddle s) (coins s)
  (coin_spawn_timer s) (left_score s) (right_score s) (last_ball_hit s)
  (left_consecutive_hits s) (right_consecutive_hits s) (rand_calls s).
Definition set_ball_dx (v : float) (s : State) : State :=
  mkState (ball_x s) (ball_y s) v (ball_dy s) (current_ball_speed s)
  (ball_boost_timer s) (leftPaddle s) (rightPaddle s) (coins s)
  (coin_spawn_timer s) (left_score s) (right_score s) (last_ball_hit s)
  (left_consecutive_hits s) (right_consecutive_hits s) (rand_calls s).
Definition set_ball_dy (v : float) (s : State) : State :=
  mkState (ball_x s) (ball_y s) (ball_dx s) v (current_ball_speed s)
  (ball_boost_timer s) (leftPaddle s) (rightPaddle s) (coins s)
  (coin_spawn_timer s) (left_score s) (right_score s) (last_ball_hit s)
  (left_consecutive_hits s) (right_consecutive_hits s) (rand_calls s).
Definition set_current_ball_speed (v : float) (s : State) : State :=
  mkState (ball_x s) (ball_y s) (ball_dx s) (ball_dy s) v (ball_boost_timer
  s) (leftPaddle s) (rightPaddle s) (coins s) (coin_spawn_timer s)
  (left_score s) (right_score s) (last_ball_hit s) (left_consecutive_hits s)
  (right_consecutive_hits s) (rand_calls s).
Definition set_ball_boost_timer (v : Z) (s : State) : State :=
  mkState (ball_x s) (ball_y s) (ball_dx s) (ball_dy s) (current_ball_speed
  s) v (leftPaddle s) (rightPaddle s) (coins s) (coin_spawn_timer s)
  (left_score s) (right_score s) (last_ball_hit s) (left_consecutive_hits s)
  (right_consecutive_hits s) (rand_calls s).
Definition set_leftPaddle (v : SDL_Rect) (s : State) : State :=
  mkState (ball_x s) (ball_y s) (ball_dx s) (ball_dy s) (current_ball_speed
  s) (ball_boost_timer s) v (rightPaddle s) (coins s) (coin_spawn_timer s)
  (left_score s) (right_score s) (last_ball_hit s) (left_consecutive_hits s)
  (right_consecutive_hits s) (rand_calls s).
Definition set_rightPaddle (v : SDL_Rect) (s : State) : State :=
  mkState (ball_x s) (ball_y s) (ball_dx s) (ball_dy s) (current_ball_speed
  s) (ball_boost_timer s) (leftPaddle s) v (coins s) (coin_spawn_timer s)
  (left_score s) (right_score s) (last_ball_hit s) (left_consecutive_hits s)
  (right_consecutive_hits s) (rand_calls s).
Definition set_coins (v : list Coin) (s : State) : State :=
  mkState (ball_x s) (ball_y s) (ball_dx s) (ball_dy s) (current_ball_speed
  s) (ball_boost_timer s) (leftPaddle s) (rightPaddle s) v (coin_spawn_timer
  s) (left_score s) (right_score s) (last_ball_hit s) (left_consecutive_hits
  s) (right_consecutive_hits s) (rand_calls s).
Definition set_coin_spawn_timer (v : Z) (s : State) : State :=
  mkState (ball_x s) (ball_y s) (ball_dx s) (ball_dy s) (current_ball_speed
  s) (ball_boost_timer s) (leftPaddle s) (rightPaddle s) (coins s) v
  (left_score s) (right_score s) (last_ball_hit s) (left_consecutive_hits s)
  (right_consecutive_hits s) (rand_calls s).
Definition set_left_score (v : Z) (s : State) : State :=
  mkState (ball_x s) (ball_y s) (ball_dx s) (ball_dy s) (current_ball_speed
  s) (ball_boost_timer s) (leftPaddle s) (rightPaddle s) (coins s)
  (coin_spawn_timer s) v (right_score s) (last_ball_hit s)
  (left_consecutive_hits s) (right_consecutive_hits s) (rand_calls s).
Definition set_right_score (v : Z) (s : State) : State :=
  mkState (ball_x s) (ball_y s) (ball_dx s) (ball_dy s) (current_ball_speed
  s) (ball_boost_timer s) (leftPaddle s) (rightPaddle s) (coins s)
  (coin_spawn_timer s) (left_score s) v (last_ball_hit s)
  (left_consecutive_hits s) (right_consecutive_hits s) (rand_calls s).
Definition set_last_ball_hit (v : LastHit) (s : State) : State :=
  mkState (ball_x s) (ball_y s) (ball_dx s) (ball_dy s) (current_ball_speed
  s) (ball_boost_timer s) (leftPaddle s) (rightPaddle s) (coins s)
  (coin_spawn_timer s) (left_score s) (right_score s) v
  (left_consecutive_hits s) (right_consecutive_hits s) (rand_calls s).
Definition set_left_consecutive_hits (v : Z) (s : State) : State :=
  mkState (ball_x s) (ball_y s) (ball_dx s) (ball_dy s) (current_ball_speed
  s) (ball_boost_timer s) (leftPaddle s) (rightPaddle s) (coins s)
  (coin_spawn_timer s) (left_score s) (right_score s) (last_ball_hit s) v
  (right_consecutive_hits s) (rand_calls s).
Definition set_right_consecutive_hits (v : Z) (s : State) : State :=
  mkState (ball_x s) (ball_y s) (ball_dx s) (ball_dy s) (current_ball_speed
  s) (ball_boost_timer s) (leftPaddle s) (rightPaddle s) (coins s)
  (coin_spawn_timer s) (left_score s) (right_score s) (last_ball_hit s)
  (left_consecutive_hits s) v (rand_calls s).
Definition set_rand_calls (v : nat) (s : State) : State :=
  mkState (ball_x s) (ball_y s) (ball_dx s) (ball_dy s) (current_ball_speed
  s) (ball_boost_timer s) (leftPaddle s) (rightPaddle s) (coins s)
  (coin_spawn_timer s) (left_score s) (right_score s) (last_ball_hit s)
  (left_consecutive_hits s) (right_consecutive_hits s) v.

(** The globals as initialised at program start. *)
Definition initial_state : State :=
  {| ball_x := F32.div (F32.of_int WINDOW_WIDTH) (F32.lit 20 10);
     ball_y := F32.div (F32.of_int WINDOW_HEIGHT) (F32.lit 20 10);
     ball_dx := F32.lit 0 10;
     ball_dy := F32.lit 0 10;
     current_ball_speed := INITIAL_BALL_SPEED;
     ball_boost_timer := 0;
     leftPaddle := mkRect 0 (Z.quot (WINDOW_HEIGHT - PADDLE_HEIGHT) 2)
                          PADDLE_WIDTH PADDLE_HEIGHT;
     rightPaddle := mkRect (WINDOW_WIDTH - PADDLE_WIDTH)
                           (Z.quot (WINDOW_HEIGHT - PADDLE_HEIGHT) 2)
                           PADDLE_WIDTH PADDLE_HEIGHT;
     coins := [];
     coin_spawn_timer := 0;
     left_score := 0;
     right_score := 0;
     last_ball_hit := LastHit.None;
     left_consecutive_hits := 0;
     right_consecutive_hits := 0;
     rand_calls := 0%nat |}.

(** ** What the platform supplies

    [rand] is the sequence of values returned by successive calls of
    [rand()], [RAND_MAX] its bound, [sinf] and [cosf] the sine and cosine of
    a [float] angle as computed by the C library, and [coin_texture] the
    pixel size of the first loaded coin texture ([None] while
    [gCoinTextures] is empty). *)
Record Platform : Type := mkPlatform {
  rand : nat -> Z;
  RAND_MAX : Z;
  sinf : float -> float;
  cosf : float -> float;
  coin_texture : option (Z * Z)
}.

(** Input of one frame: the events delivered by [SDL_PollEvent] and the
    keyboard state. *)
Inductive Event : Type :=
| SDL_QUIT
| SDL_MOUSEBUTTONDOWN (mouseX mouseY : Z)
| SDL_OTHER.

Record Keys : Type := mkKeys {
  SDL_SCANCODE_W : bool;
  SDL_SCANCODE_S : bool;
  SDL_SCANCODE_UP : bool;
  SDL_SCANCODE_DOWN : bool
}.

Record Input : Type := mkInput {
  events : list Event;
  currentKeyStates : Keys
}.

(** What happened during one frame; [reflected_this_frame] is the local flag
    of the main loop, the other fields record which branch was taken. *)
Inductive Wall : Type := Bottom | Top.
Inductive Edge : Type := LeftEdge | RightEdge.

Record FrameLog : Type := mkLog {
  launched : bool;
  wall_touched : option Wall;
  paddle_struck : LastHit;
  edge_crossed : option Edge;
  reflected_this_frame : bool;
  coin_spawned : bool
}.

(** ** Collision utilities *)

(** [checkCircleRectCollision]. *)
Definition checkCircleRectCollision
    (circleX circleY : float) (circleRadius : Z) (rect : SDL_Rect) : bool :=
  let closestX :=
    F32.max (F32.of_int (rect_x rect))
            (F32.min circleX (F32.of_int (rect_x rect + rect_w rect))) in
  let closestY :=
    F32.max (F32.of_int (rect_y rect))
            (F32.min circleY (F32.of_int (rect_y rect + rect_h rect))) in
  let distanceX := F32.sub circleX closestX in
  let distanceY := F32.sub circleY closestY in
  F32.ltb (F32.add (F32.mul distanceX distanceX) (F32.mul distanceY distanceY))
          (F32.of_int (circleRadius * circleRadius)).

(** [SDL_HasIntersection] belongs to SDL, not to this repository; it is
    modelled after SDL's definition: an empty rectangle intersects nothing,
    otherwise the two spans must overlap on both axes. *)
Definition SDL_RectEmpty (r : SDL_Rect) : bool :=
  (rect_w r <=? 0) || (rect_h r <=? 0).

Definition spans_overlap (amin alen bmin blen : Z) : bool :=
  let amax := amin + alen in
  let bmax := bmin + blen in
  let lo := if bmin >? amin then bmin else amin in
  let hi := if bmax <? amax then bmax else amax in
  negb (hi <=? lo).

Definition SDL_HasIntersection (A B : SDL_Rect) : bool :=
  if SDL_RectEmpty A || SDL_RectEmpty B then false
  else spans_overlap (rect_x A) (rect_w A) (rect_x B) (rect_w B)
       && spans_overlap (rect_y A) (rect_h A) (rect_y B) (rect_h B).

(** [checkRectRectCollision]. *)
Definition checkRectRectCollision (rect1 rect2 : SDL_Rect) : bool :=
  SDL_HasIntersection rect1 rect2.

(** ** Paddle movement and clamping (main loop, "Paddle Movement") *)

(** [r.y -= PADDLE_SPEED] and [r.y += PADDLE_SPEED]: the [int] is converted
    to [float], the result truncated back. *)
Definition paddle_up (r : SDL_Rect) : SDL_Rect :=
  set_rect_y (F32.to_int (F32.sub (F32.of_int (rect_y r)) PADDLE_SPEED)) r.
Definition paddle_down (r : SDL_Rect) : SDL_Rect :=
  set_rect_y (F32.to_int (F32.add (F32.of_int (rect_y r)) PADDLE_SPEED)) r.

Definition move_paddle (up down : bool) (r : SDL_Rect) : SDL_Rect :=
  let r1 := if up then paddle_up r else r in
  if down then paddle_down r1 else r1.

Definition clamp_paddle (r : SDL_Rect) : SDL_Rect :=
  let r1 := if rect_y r <? 0 then set_rect_y 0 r else r in
  if rect_y r1 + PADDLE_HEIGHT >? WINDOW_HEIGHT
  then set_rect_y (WINDOW_HEIGHT - PADDLE_HEIGHT) r1 else r1.

Definition paddle_movement (k : Keys) (s : State) : State :=
  let l := move_paddle (SDL_SCANCODE_W k) (SDL_SCANCODE_S k) (leftPaddle s) in
  let r := move_paddle (SDL_SCANCODE_UP k) (SDL_SCANCODE_DOWN k) (rightPaddle s) in
  set_rightPaddle (clamp_paddle r) (set_leftPaddle (clamp_paddle l) s).

(** ** Ball movement and wall collisions *)

Definition ball_movement (s : State) : State :=
  let s1 := set_ball_x (F32.add (ball_x s) (F32.mul (ball_dx s) (current_ball_speed s))) s in
  set_ball_y (F32.add (ball_y s1) (F32.mul (ball_dy s1) (current_ball_speed s1))) s1.

(** Which wall test of the main loop fires, bottom first. *)
Definition wall_test (s : State) : option Wall :=
  if F32.ltb (F32.of_int WINDOW_HEIGHT) (F32.add (ball_y s) (F32.of_int BALL_RADIUS))
  then Some Bottom
  else if F32.ltb (F32.sub (ball_y s) (F32.of_int BALL_RADIUS)) (F32.of_int 0)
  then Some Top
  else None.

Definition wall_collisions (s : State) : State * bool :=
  match wall_test s with
  | Some Bottom =>
      (set_ball_dy (F32.opp (F32.abs (ball_dy s)))
         (set_ball_y (F32.of_int (WINDOW_HEIGHT - BALL_RADIUS)) s), true)
  | Some Top =>
      (set_ball_dy (F32.abs (ball_dy s))
         (set_ball_y (F32.of_int BALL_RADIUS) s), true)
  | None => (s, false)
  end.

(** ** Paddle collisions and the consecutive-hit rule *)

(** Which paddle test fires, left first ([else if] for the right one). *)
Definition paddle_test (s : State) : LastHit :=
  if F32.ltb (ball_dx s) (F32.of_int 0)
     && checkCircleRectCollision (ball_x s) (ball_y s) BALL_RADIUS (leftPaddle s)
  then LastHit.LeftPaddle
  else if F32.ltb (F32.of_int 0) (ball_dx s)
          && checkCircleRectCollision (ball_x s) (ball_y s) BALL_RADIUS (rightPaddle s)
  then LastHit.RightPaddle
  else LastHit.None.

(** Scoring Rule 1 for the left player. *)
Definition left_hit_rule (s : State) : State :=
  let s1 :=
    match last_ball_hit s with
    | LastHit.LeftPaddle =>
        let s' := set_left_consecutive_hits (left_consecutive_hits s + 1) s in
        if left_consecutive_hits s' >=? 2
        then set_left_consecutive_hits 0 (set_left_score (left_score s' + 1) s')
        else s'
    | _ => set_right_consecutive_hits 0 (set_left_consecutive_hits 1 s)
    end in
  set_last_ball_hit LastHit.LeftPaddle s1.

(** Scoring Rule 1 for the right player. *)
Definition right_hit_rule (s : State) : State :=
  let s1 :=
    match last_ball_hit s with
    | LastHit.RightPaddle =>
        let s' := set_right_consecutive_hits (right_consecutive_hits s + 1) s in
        if right_consecutive_hits s' >=? 2
        then set_right_consecutive_hits 0 (set_right_score (right_score s' + 1) s')
        else s'
    | _ => set_left_consecutive_hits 0 (set_right_consecutive_hits 1 s)
    end in
  set_last_ball_hit LastHit.RightPaddle s1.

Definition left_paddle_hit (s : State) : State :=
  let s1 := set_ball_x (F32.of_int (rect_x (leftPaddle s) + PADDLE_WIDTH + BALL_RADIUS)) s in
  let s2 := set_ball_dx (F32.abs (ball_dx s1)) s1 in
  left_hit_rule s2.

Definition right_paddle_hit (s : State) : State :=
  let s1 := set_ball_x (F32.of_int (rect_x (rightPaddle s) - BALL_RADIUS)) s in
  let s2 := set_ball_dx (F32.opp (F32.abs (ball_dx s1))) s1 in
  right_hit_rule s2.

Definition paddle_collisions (s : State) (reflected : bool) : State * bool :=
  match paddle_test s with
  | LastHit.LeftPaddle => (left_paddle_hit s, true)
  | LastHit.RightPaddle => (right_paddle_hit s, true)
  | LastHit.None => (s, reflected)
  end.

(** ** Boost logic *)

Definition boost_logic (reflected : bool) (s : State) : State :=
  let s1 :=
    if reflected
    then set_current_ball_speed BOOSTED_BALL_SPEED
           (set_ball_boost_timer BALL_BOOST_DURATION_FRAMES s)
    else s in
  if ball_boost_timer s1 >? 0 then
    let s2 := set_ball_boost_timer (ball_boost_timer s1 - 1) s1 in
    if ball_boost_timer s2 =? 0
    then set_current_ball_speed INITIAL_BALL_SPEED s2
    else s2
  else s1.

Section Game.

Variable pf : Platform.

(** ** coin.cpp: the rendered size of a coin *)

Definition getCoinRenderedWidth (scale : float) : Z :=
  match coin_texture pf with
  | None => F32.to_int (F32.mul (F32.of_int DEFAULT_COIN_FRAME_WIDTH) scale)
  | Some (originalWidth, _) => F32.to_int (F32.mul (F32.of_int originalWidth) scale)
  end.

Definition getCoinRenderedHeight (scale : float) : Z :=
  match coin_texture pf with
  | None => F32.to_int (F32.mul (F32.of_int DEFAULT_COIN_FRAME_HEIGHT) scale)
  | Some (_, originalHeight) => F32.to_int (F32.mul (F32.of_int originalHeight) scale)
  end.

Definition coinEffectiveWidth : Z := getCoinRenderedWidth COIN_DRAW_SCALE.
Definition coinEffectiveHeight : Z := getCoinRenderedHeight COIN_DRAW_SCALE.

(** ** The randomized serve *)

(** [static_cast<float>(rand()) / static_cast<float>(RAND_MAX) * 2.0f * M_PI],
    stored in a [float]: the last product is taken in [double]. *)
Definition random_angle (r : Z) : float :=
  F64.to_f32
    (F64.mul
       (F64.of_f32 (F32.mul (F32.div (F32.of_int r) (F32.of_int (RAND_MAX pf)))
                            (F32.lit 20 10)))
       F64.M_PI).

(** The loop condition of the [do ... while]. *)
Definition too_close_to_axis (angle : float) : bool :=
  F32.ltb (F32.abs (sinf pf angle)) SERVE_TOLERANCE
  || F32.ltb (F32.abs (cosf pf angle)) SERVE_TOLERANCE.

(** The [do ... while] loop, reading [rand()] from call number [n] on;
    [fuel] bounds the number of draws.  Returns the accepted angle and the
    number of the next call. *)
Fixpoint pick_angle (fuel : nat) (n : nat) : option (float * nat) :=
  match fuel with
  | O => None
  | S fuel' =>
      let angle := random_angle (rand pf n) in
      if too_close_to_axis angle
      then pick_angle fuel' (S n)
      else Some (angle, S n)
  end.

(** [ball_dx = cos(angle); ball_dy = sin(angle)] and the normalisation. *)
Definition serve_direction (angle : float) : float * float :=
  let dx := cosf pf angle in
  let dy := sinf pf angle in
  let magnitude := F32.sqrt (F32.add (F32.mul dx dx) (F32.mul dy dy)) in
  if negb (F32.eqb magnitude (F32.of_int 0))
  then (F32.div dx magnitude, F32.div dy magnitude)
  else (dx, dy).

Definition set_direction (d : float * float) (s : State) : State :=
  set_ball_dy (snd d) (set_ball_dx (fst d) s).

(** ** Event handling: the launch click *)

(** [sqrt(pow(mouseX - ball_x, 2) + pow(mouseY - ball_y, 2))] stored in a
    [float]; [pow] and [sqrt] work in [double], and the square of a [float]
    is exact there. *)
Definition click_distance (mouseX mouseY : Z) (s : State) : float :=
  let ex := F64.of_f32 (F32.sub (F32.of_int mouseX) (ball_x s)) in
  let ey := F64.of_f32 (F32.sub (F32.of_int mouseY) (ball_y s)) in
  F64.to_f32 (F64.sqrt (F64.add (F64.mul ex ex) (F64.mul ey ey))).

(** The guard of the launch: the ball is stationary and the click lands on
    it. *)
Definition launch_test (mouseX mouseY : Z) (s : State) : bool :=
  (F32.eqb (ball_dx s) (F32.lit 0 10) && F32.eqb (ball_dy s) (F32.lit 0 10))
  && F32.leb (click_distance mouseX mouseY s) (F32.of_int BALL_RADIUS).

Definition launch (fuel : nat) (s : State) : option State :=
  match pick_angle fuel (rand_calls s) with
  | None => None
  | Some (angle, n) =>
      Some (set_ball_boost_timer 0
              (set_current_ball_speed INITIAL_BALL_SPEED
                 (set_direction (serve_direction angle)
                    (set_rand_calls n s))))
  end.

Definition handle_event (fuel : nat) (e : Event) (s : State) : option (State * bool) :=
  match e with
  | SDL_MOUSEBUTTONDOWN mouseX mouseY =>
      if launch_test mouseX mouseY s
      then match launch fuel s with
           | Some s' => Some (s', true)
           | None => None
           end
      else Some (s, false)
  | _ => Some (s, false)
  end.

(** The [SDL_PollEvent] loop; the flag tells whether a launch happened. *)
Fixpoint event_handling (fuel : nat) (es : list Event) (s : State)
  : option (State * bool) :=
  match es with
  | [] => Some (s, false)
  | e :: rest =>
      match handle_event fuel e s with
      | None => None
      | Some (s1, l1) =>
          match event_handling fuel rest s1 with
          | None => None
          | Some (s2, l2) => Some (s2, l1 || l2)
          end
      end
  end.

(** ** Out of bounds: scoring and ball reset *)

Definition edge_test (s : State) : option Edge :=
  if F32.ltb (F32.sub (ball_x s) (F32.of_int BALL_RADIUS)) (F32.of_int 0)
  then Some LeftEdge
  else if F32.ltb (F32.of_int WINDOW_WIDTH) (F32.add (ball_x s) (F32.of_int BALL_RADIUS))
  then Some RightEdge
  else None.

(** The body shared by the two branches, after the score increment. *)
Definition reset_ball (fuel : nat) (s : State) : option State :=
  let s1 := set_ball_x (F32.div (F32.of_int WINDOW_WIDTH) (F32.lit 20 10)) s in
  let s2 := set_ball_y (F32.div (F32.of_int WINDOW_HEIGHT) (F32.lit 20 10)) s1 in
  match pick_angle fuel (rand_calls s2) with
  | None => None
  | Some (angle, n) =>
      let s3 := set_direction (serve_direction angle) (set_rand_calls n s2) in
      let s4 := set_current_ball_speed INITIAL_BALL_SPEED s3 in
      let s5 := set_ball_boost_timer 0 s4 in
      let s6 := set_left_consecutive_hits 0 s5 in
      let s7 := set_right_consecutive_hits 0 s6 in
      Some (set_last_ball_hit LastHit.None s7)
  end.

Definition out_of_bounds (fuel : nat) (s : State) : option State :=
  match edge_test s with
  | Some LeftEdge => reset_ball fuel (set_right_score (right_score s + 1) s)
  | Some RightEdge => reset_ball fuel (set_left_score (left_score s + 1) s)
  | None => Some s
  end.

(** ** Coin logic *)

(** [spawnCoin]; [%] and [/] on [int] truncate. *)
Definition spawnCoin (s : State) : State :=
  let n := rand_calls s in
  let cx :=
    F32.of_int (Z.rem (rand pf n) (WINDOW_WIDTH - 2 * PADDLE_WIDTH - coinEffectiveWidth)
                + PADDLE_WIDTH + Z.quot coinEffectiveWidth 2) in
  let cy :=
    F32.of_int (Z.rem (rand pf (S n)) (WINDOW_HEIGHT - coinEffectiveHeight)
                + Z.quot coinEffectiveHeight 2) in
  set_coins (coins s ++ [mkCoin cx cy COIN_DURATION_FRAMES])
    (set_rand_calls (S (S n)) s).

Definition coin_spawn (s : State) : State * bool :=
  let s1 := set_coin_spawn_timer (coin_spawn_timer s + 1) s in
  if coin_spawn_timer s1 >=? COIN_APPEAR_INTERVAL_FRAMES
  then (set_coin_spawn_timer 0 (spawnCoin s1), true)
  else (s1, false).

(** The bounding box used for the collision checks of a coin. *)
Definition coinRect (c : Coin) : SDL_Rect :=
  mkRect
    (F32.to_int (F32.sub (coin_x c) (F32.of_int (Z.quot coinEffectiveWidth 2))))
    (F32.to_int (F32.sub (coin_y c) (F32.of_int (Z.quot coinEffectiveHeight 2))))
    coinEffectiveWidth coinEffectiveHeight.

(** What one pass of the loop body does to a coin. *)
Inductive CoinFate : Type :=
| Expired
| CollectedByBall
| CollectedByLeftPaddle
| CollectedByRightPaddle
| Kept (c : Coin).

(** The three collision tests on a live coin, in the order of the loop
    body, each guarded by [!coin_collected]. *)
Definition collect_coin (s : State) (c : Coin) : State * CoinFate :=
  let rect := coinRect c in
  let '(s1, f1) :=
    if checkCircleRectCollision (ball_x s) (ball_y s) BALL_RADIUS rect
    then (match last_ball_hit s with
          | LastHit.LeftPaddle => set_left_score (left_score s + 1) s
          | LastHit.RightPaddle => set_right_score (right_score s + 1) s
          | LastHit.None => s
          end, CollectedByBall)
    else (s, Kept c) in
  let '(s2, f2) :=
    match f1 with
    | Kept _ =>
        if checkRectRectCollision (leftPaddle s1) rect
        then (set_left_score (left_score s1 + 1) s1, CollectedByLeftPaddle)
        else (s1, f1)
    | _ => (s1, f1)
    end in
  match f2 with
  | Kept _ =>
      if checkRectRectCollision (rightPaddle s2) rect
      then (set_right_score (right_score s2 + 1) s2, CollectedByRightPaddle)
      else (s2, f2)
  | _ => (s2, f2)
  end.

(** The loop body: decrement the timer, expire, else test collisions. *)
Definition coin_body (s : State) (c : Coin) : State * CoinFate :=
  let c1 := mkCoin (coin_x c) (coin_y c) (coin_timer c - 1) in
  if coin_timer c1 <=? 0 then (s, Expired) else collect_coin s c1.

(** The loop over [coins]: erased coins drop out, survivors keep their
    order. *)
Fixpoint coin_loop (cs : list Coin) (s : State) : State * list Coin :=
  match cs with
  | [] => (s, [])
  | c :: rest =>
      let '(s1, fate) := coin_body s c in
      let '(s2, rest') := coin_loop rest s1 in
      (s2, match fate with Kept c' => c' :: rest' | _ => rest' end)
  end.

Definition coin_update (s : State) : State :=
  let '(s1, cs) := coin_loop (coins s) s in
  set_coins cs s1.

(** ** One iteration of the main loop *)

Definition frame (fuel : nat) (i : Input) (s : State) : option (State * FrameLog) :=
  match event_handling fuel (events i) s with
  | None => None
  | Some (s1, did_launch) =>
      let s2 := paddle_movement (currentKeyStates i) s1 in
      let s3 := ball_movement s2 in
      let wall := wall_test s3 in
      let '(s4, reflected1) := wall_collisions s3 in
      let paddle := paddle_test s4 in
      let '(s5, reflected2) := paddle_collisions s4 reflected1 in
      let edge := edge_test s5 in
      match out_of_bounds fuel s5 with
      | None => None
      | Some s6 =>
          let s7 := boost_logic reflected2 s6 in
          let '(s8, spawned) := coin_spawn s7 in
          Some (coin_update s8,
                mkLog did_launch wall paddle edge reflected2 spawned)
      end
  end.

(** Successive frames, one input each. *)
Fixpoint run (fuel : nat) (inputs : list Input) (s : State)
  : option (State * list FrameLog) :=
  match inputs with
  | [] => Some (s, [])
  | i :: rest =>
      match frame fuel i s with
      | None => None
      | Some (s1, lg) =>
          match run fuel rest s1 with
          | None => None
          | Some (s2, lgs) => Some (s2, lg :: lgs)
          end
      end
  end.

(** States reachable from program start. *)
Inductive reachable : State -> Prop :=
| reachable_init : reachable initial_state
| reachable_frame : forall fuel i s s' lg,
    reachable s -> frame fuel i s = Some (s', lg) -> reachable s'.

End Game.

(** ** A concrete platform, for running the model

    A C library in miniature: the linear congruential [rand] of the C
    standard's example with [RAND_MAX] 32767, sine and cosine evaluated by
    their Taylor series in [double] around pi and rounded to [float], and coin
    textures of the default 32 by 32 pixels. *)
Module Sample.

Fixpoint lcg_state (seed : Z) (n : nat) : Z :=
  match n with
  | O => seed
  | S n' => (lcg_state seed n' * 1103515245 + 12345) mod 2 ^ 32
  end.

Definition lcg_rand (seed : Z) (n : nat) : Z :=
  (lcg_state seed (S n) / 65536) mod 32768.

Definition d_of_int (n : Z) : F64.double := binary_normalize F64.prec F64.emax n 0 false.
Definition d_sub : F64.double -> F64.double -> F64.double := SFsub F64.prec F64.emax.
Definition d_div : F64.double -> F64.double -> F64.double := SFdiv F64.prec F64.emax.

(** [1 - y2/(n(n+1)) * (1 - y2/((n+2)(n+3)) * ...)], [k] factors deep. *)
Fixpoint series (k : nat) (y2 : F64.double) (n : Z) : F64.double :=
  match k with
  | O => d_of_int 1
  | S k' =>
      d_sub (d_of_int 1)
            (F64.mul (d_div y2 (d_of_int (n * (n + 1)))) (series k' y2 (n + 2)))
  end.

(** sin x = - sin (x - pi) and cos x = - cos (x - pi). *)
Definition sinf (x : float) : float :=
  let y := d_sub (F64.of_f32 x) F64.M_PI in
  F64.to_f32 (SFopp (F64.mul y (series 14 (F64.mul y y) 2))).

Definition cosf (x : float) : float :=
  let y := d_sub (F64.of_f32 x) F64.M_PI in
  F64.to_f32 (SFopp (series 14 (F64.mul y y) 1)).

Definition platform (seed : Z) : Platform :=
  mkPlatform (lcg_rand seed) 32767 sinf cosf (Some (32, 32)).

(** The same platform with the results of [rand()] prescribed. *)
Definition platform_with_rand (draws : list Z) : Platform :=
  mkPlatform (fun n => nth n draws 0) 32767 sinf cosf (Some (32, 32)).

End Sample.

(** ** Concrete scenarios, for running the model *)

(** The state after a frame and its log; the start state and an empty log
    when the frame does not complete. *)
Definition frame_state (pf : Platform) (fuel : nat) (i : Input) (s : State) : State :=
  match frame pf fuel i s with Some (s', _) => s' | None => s end.

Definition frame_log (pf : Platform) (fuel : nat) (i : Input) (s : State) : FrameLog :=
  match frame pf fuel i s with
  | Some (_, lg) => lg
  | None => mkLog false None LastHit.None None false false
  end.

Definition run_state (pf : Platform) (fuel : nat) (inputs : list Input) (s : State)
  : State :=
  match run pf fuel inputs s with Some (s', _) => s' | None => s end.

Definition run_logs (pf : Platform) (fuel : nat) (inputs : list Input) (s : State)
  : list FrameLog :=
  match run pf fuel inputs s with Some (_, lgs) => lgs | None => [] end.

(** A frame without events and with no key held. *)
Definition idle : Input := mkInput [] (mkKeys false false false false).

Definition with_ball (x y dx dy : float) (s : State) : State :=
  set_ball_dy dy (set_ball_dx dx (set_ball_y y (set_ball_x x s))).

(** The ball one frame above the bottom wall, moving down and right. *)
Definition bounce_state : State :=
  with_ball (F32.of_int 400) (F32.of_int 584) (F32.lit 6 10) (F32.lit 8 10)
            initial_state.

(** The ball in the bottom left corner, moving down and left, the left paddle
    at the top of the window. *)
Definition corner_state : State :=
  with_ball (F32.of_int 16) (F32.of_int 584) (F32.lit (-6) 10) (F32.lit 8 10)
            (set_leftPaddle (mkRect 0 0 PADDLE_WIDTH PADDLE_HEIGHT) initial_state).

(** A coin away from ball and paddles. *)
Definition far_coin : Coin := mkCoin (F32.of_int 100) (F32.of_int 100) COIN_DURATION_FRAMES.

(** The launch click of the scenarios: inside the resting ball. *)
Definition launch_click : Input :=
  mkInput [SDL_MOUSEBUTTONDOWN 405 295] (mkKeys false false false false).

(** The state after the event loop of a frame alone. *)
Definition frame_state_events (pf : Platform) (fuel : nat) (i : Input) (s : State)
  : State * bool :=
  match event_handling pf fuel (events i) s with
  | Some r => r
  | None => (s, false)
  end.

(** [rand()] returning 368 and 288 puts the first coin on the resting ball;
    returning 0 puts it at the top of its range. *)
Definition on_ball_draws : Platform := Sample.platform_with_rand [368; 288].
Definition top_edge_draws : Platform := Sample.platform_with_rand [0; 0].

(** ** Notions used in the statements *)

Definition paddle_in_window (r : SDL_Rect) : Prop :=
  0 <= rect_y r <= WINDOW_HEIGHT - PADDLE_HEIGHT.

(** The y coordinate at which the ball is put back, per wall. *)
Definition wall_line (w : Wall) : float :=
  match w with
  | Bottom => F32.of_int (WINDOW_HEIGHT - BALL_RADIUS)
  | Top => F32.of_int BALL_RADIUS
  end.

(** The vertical direction leads away from the wall: strictly upward
    (negative) at the bottom wall, strictly downward (positive) at the top. *)
Definition leads_away (w : Wall) (dy : float) : Prop :=
  match w with
  | Bottom => F32.ltb dy (F32.of_int 0) = true
  | Top => F32.ltb (F32.of_int 0) dy = true
  end.

(** The integrated position crosses wall [w] in the frame starting at [s]:
    the ball is within the walls before the integration and beyond [w]
    after it. *)
Definition crosses_wall (s : State) (w : Wall) : Prop :=
  wall_test s = None /\ wall_test (ball_movement s) = Some w.

Definition wall_of_y (y : float) : option Wall :=
  if F32.ltb (F32.of_int WINDOW_HEIGHT) (F32.add y (F32.of_int BALL_RADIUS))
  then Some Bottom
  else if F32.ltb (F32.sub y (F32.of_int BALL_RADIUS)) (F32.of_int 0)
  then Some Top
  else None.

(** Apart from the two scores, the coin loop reads the state only. *)
Definition same_but_scores (s s' : State) : Prop :=
  s' = set_right_score (right_score s') (set_left_score (left_score s') s).

(** The boost logic as a function of the timer and the speed alone. *)
Definition boost_step (reflected : bool) (timer : Z) (speed : float) : Z * float :=
  let '(t1, v1) :=
    if reflected then (BALL_BOOST_DURATION_FRAMES, BOOSTED_BALL_SPEED)
    else (timer, speed) in
  if t1 >? 0
  then (t1 - 1, if t1 - 1 =? 0 then INITIAL_BALL_SPEED else v1)
  else (t1, v1).

(** A frame resets the boost when the ball is launched or crosses an edge. *)
Definition frame_resets (lg : FrameLog) : bool :=
  launched lg || match edge_crossed lg with Some _ => true | None => false end.

(** The timer is idle at base speed, or running at boosted speed. *)
Definition boost_ok_pair (timer : Z) (speed : float) : Prop :=
  (timer = 0 /\ speed = INITIAL_BALL_SPEED)
  \/ (0 < timer < BALL_BOOST_DURATION_FRAMES /\ speed = BOOSTED_BALL_SPEED).

Definition boost_ok (s : State) : Prop :=
  boost_ok_pair (ball_boost_timer s) (current_ball_speed s).

(** The part of the state the rule works on. *)
Definition rally (s : State) : LastHit * Z * Z :=
  (last_ball_hit s, left_consecutive_hits s, right_consecutive_hits s).

Definition score_total (s : State) : Z := left_score s + right_score s.

(** The point for a coin taken by the ball goes to the side that hit last. *)
Definition award_last_hit (s : State) : State :=
  match last_ball_hit s with
  | LastHit.LeftPaddle => set_left_score (left_score s + 1) s
  | LastHit.RightPaddle => set_right_score (right_score s + 1) s
  | LastHit.None => s
  end.

(** The two places where the main loop assigns a direction to the ball. *)
Inductive Serve : Type :=
| ByLaunch (e : Event)
| ByMissReset (edge : Edge).

(** A launch needs a click on the resting ball. *)
Definition launch_condition (how : Serve) (s : State) : Prop :=
  match how with
  | ByLaunch e =>
      exists mouseX mouseY,
        e = SDL_MOUSEBUTTONDOWN mouseX mouseY
        /\ F32.eqb (ball_dx s) (F32.lit 0 10) = true
        /\ F32.eqb (ball_dy s) (F32.lit 0 10) = true
        /\ F32.leb (click_distance mouseX mouseY s) (F32.of_int BALL_RADIUS) = true
  | ByMissReset _ => True
  end.

(** Small integers survive the trip through [float] made by the coin box:
    checked for every centre [n] below the window width and every half size
    [h] up to [n]. *)
Definition box_origin_exact (n : Z) : bool :=
  forallb (fun h => F32.to_int (F32.sub (F32.of_int n) (F32.of_int h)) =? n - h)
          (map (fun k => 0 + Z.of_nat k) (seq 0 (Z.to_nat (n + 1)))).

(** The box of a coin lies between the paddles and inside the window. *)
Definition box_in_field (r : SDL_Rect) : Prop :=
  PADDLE_WIDTH <= rect_x r
  /\ rect_x r + rect_w r <= WINDOW_WIDTH - PADDLE_WIDTH
  /\ 0 <= rect_y r
  /\ rect_y r + rect_h r <= WINDOW_HEIGHT.

Section Statements.

Variable pf : Platform.

(** The collection of a live coin as the specification words it: ball
    first, then left paddle, then right paddle, the first match wins. *)
Definition collect_by_priority (s : State) (c : Coin) : State * CoinFate :=
  let rect := coinRect pf c in
  if checkCircleRectCollision (ball_x s) (ball_y s) BALL_RADIUS rect
  then (award_last_hit s, CollectedByBall)
  else if checkRectRectCollision (leftPaddle s) rect
  then (set_left_score (left_score s + 1) s, CollectedByLeftPaddle)
  else if checkRectRectCollision (rightPaddle s) rect
  then (set_right_score (right_score s + 1) s, CollectedByRightPaddle)
  else (s, Kept c).

(** The angle passed the test of the rejection loop: neither the sine nor
    the cosine is below the tolerance. *)
Definition angle_accepted (angle : float) : Prop :=
  F32.ltb (F32.abs (sinf pf angle)) SERVE_TOLERANCE = false
  /\ F32.ltb (F32.abs (cosf pf angle)) SERVE_TOLERANCE = false.

Definition serve_happens (fuel : nat) (how : Serve) (s s' : State) : Prop :=
  match how with
  | ByLaunch e => handle_event pf fuel e s = Some (s', true)
  | ByMissReset edge => edge_test s = Some edge /\ out_of_bounds pf fuel s = Some s'
  end.

(** The coin appended by [spawnCoin]: full lifetime, integer centre, box in
    the field, centre at least half a coin from the top and bottom edges. *)
Definition fresh_coin (c : Coin) : Prop :=
  coin_timer c = COIN_DURATION_FRAMES
  /\ box_in_field (coinRect pf c)
  /\ exists cx cy : Z,
       coin_x c = F32.of_int cx /\ coin_y c = F32.of_int cy
       /\ Z.quot (coinEffectiveHeight pf) 2 <= cy
          <= WINDOW_HEIGHT - Z.quot (coinEffectiveHeight pf) 2.

End Statements.

(** ** Notions used in the statements on play and on the coin list *)

(** A coin one frame older. *)
Definition age (c : Coin) : Coin :=
  mkCoin (coin_x c) (coin_y c) (coin_timer c - 1).


(** How many elements of a list pass a test. *)
Definition count_where {A : Type} (f : A -> bool) (l : list A) : Z :=
  Z.of_nat (length (filter f l)).

(** The state reaching the paddle-collision step of a frame, with the flag
    set by the walls. *)
Definition before_paddles (pf : Platform) (fuel : nat) (i : Input) (s : State)
  : option (State * bool) :=
  match event_handling pf fuel (events i) s with
  | None => None
  | Some (s1, _) =>
      Some (wall_collisions (ball_movement (paddle_movement (currentKeyStates i) s1)))
  end.


(** The other paddle. *)
Definition opponent (side : LastHit) : LastHit :=
  match side with
  | LastHit.LeftPaddle => LastHit.RightPaddle
  | LastHit.RightPaddle => LastHit.LeftPaddle
  | LastHit.None => LastHit.None
  end.

(** The consecutive-hit counter of a side. *)
Definition hits_of (side : LastHit) (s : State) : Z :=
  match side with
  | LastHit.RightPaddle => right_consecutive_hits s
  | _ => left_consecutive_hits s
  end.

(** Between frames the ball moves away from the paddle that hit it last,
    that paddle's counter is 1 and the other 0; with no last hit both are 0. *)
Definition rally_ok (s : State) : Prop :=
  match last_ball_hit s with
  | LastHit.None =>
      left_consecutive_hits s = 0 /\ right_consecutive_hits s = 0
  | LastHit.LeftPaddle =>
      F32.ltb (F32.of_int 0) (ball_dx s) = true
      /\ left_consecutive_hits s = 1 /\ right_consecutive_hits s = 0
  | LastHit.RightPaddle =>
      F32.ltb (ball_dx s) (F32.of_int 0) = true
      /\ right_consecutive_hits s = 1 /\ left_consecutive_hits s = 0
  end.

(** The paddles stand at the left and right borders. *)
Definition paddles_placed (s : State) : Prop :=
  rect_x (leftPaddle s) = 0 /\ rect_x (rightPaddle s) = WINDOW_WIDTH - PADDLE_WIDTH.

Definition play_ok (s : State) : Prop := rally_ok s /\ paddles_placed s.


Section Statements2.

Variable pf : Platform.

(** The three overlap tests of the coin loop, on the box of a coin. *)
Definition ball_overlaps (s : State) (c : Coin) : bool :=
  checkCircleRectCollision (ball_x s) (ball_y s) BALL_RADIUS (coinRect pf c).
Definition left_overlaps (s : State) (c : Coin) : bool :=
  checkRectRectCollision (leftPaddle s) (coinRect pf c).
Definition right_overlaps (s : State) (c : Coin) : bool :=
  checkRectRectCollision (rightPaddle s) (coinRect pf c).

(** Nothing touches the coin in state [s]. *)
Definition coin_untouched (s : State) (c : Coin) : bool :=
  negb (ball_overlaps s c) && negb (left_overlaps s c) && negb (right_overlaps s c).

(** The coin stays in the list: it has lifetime left after the decrement
    and nothing touches it. *)
Definition coin_survives (s : State) (c : Coin) : bool :=
  (0 <? coin_timer c - 1) && coin_untouched s c.

(** The coin gives the left player a point: alive, and taken by the ball
    after a left hit, or, the ball not touching it, by the left paddle. *)
Definition left_point (s : State) (c : Coin) : bool :=
  (0 <? coin_timer c - 1)
  && (if ball_overlaps s c
      then match last_ball_hit s with LastHit.LeftPaddle => true | _ => false end
      else left_overlaps s c).

(** The coin gives the right player a point: alive, and taken by the ball
    after a right hit, or, neither ball nor left paddle touching it, by the
    right paddle. *)
Definition right_point (s : State) (c : Coin) : bool :=
  (0 <? coin_timer c - 1)
  && (if ball_overlaps s c
      then match last_ball_hit s with LastHit.RightPaddle => true | _ => false end
      else negb (left_overlaps s c) && right_overlaps s c).

(** The coin list and the scores after the coin loop, as the specification
    words them. *)
Definition coins_after_loop (s : State) : list Coin :=
  map age (filter (coin_survives s) (coins s)).
Definition left_score_after_loop (s : State) : Z :=
  left_score s + count_where (left_point s) (coins s).
Definition right_score_after_loop (s : State) : Z :=
  right_score s + count_where (right_point s) (coins s).

(** The angle of a serve and what is assigned from it. *)
Definition serve_length (angle : float) : float :=
  F32.sqrt (F32.add (F32.mul (cosf pf angle) (cosf pf angle))
                    (F32.mul (sinf pf angle) (sinf pf angle))).

End Statements2.




(** ** Runs from program start used below *)

(** With seed 11 the ball launched in the first frame reaches the left
    paddle in frame 154. *)
Definition seed_11 : Platform := Sample.platform 11.
Definition before_first_hit : State :=
  run_state seed_11 10 (launch_click :: repeat idle 152) initial_state.

(** The same serve (its draw is 21381) launched in frame 200, and the coin
    of frame 300 put on the way of the ball after the paddle: the ball
    reaches it in frame 374. *)
Definition coin_on_path : Platform := Sample.platform_with_rand [21381; 77; 344].
Definition before_coin_taken : State :=
  run_state coin_on_path 10 (repeat idle 199 ++ launch_click :: repeat idle 173)
    initial_state.

(** No click at all: the ball rests, the first coin is spawned in frame
    300. *)
Definition seed_1 : Platform := Sample.platform 1.
Definition before_first_coin : State :=
  run_state seed_1 10 (repeat idle 299) initial_state.
Definition after_first_coin : State := frame_state seed_1 10 idle before_first_coin.
Definition first_coin : Coin :=
  mkCoin (F32.of_int 700) (F32.of_int 20) (COIN_DURATION_FRAMES - 1).

(** A serve whose first draw is 1054. *)
Definition draw_1054 : Platform := Sample.platform_with_rand [1054].

(** ** Notions used in the statements on whole frames *)

(** The point a miss gives, per side, read off the log of the frame. *)
Definition miss_point_left (lg : FrameLog) : Z :=
  match edge_crossed lg with Some RightEdge => 1 | _ => 0 end.
Definition miss_point_right (lg : FrameLog) : Z :=
  match edge_crossed lg with Some LeftEdge => 1 | _ => 0 end.

(** The paddles as the program keeps them: fixed column and size, inside
    the window. *)
Definition paddles_in_shape (s : State) : Prop :=
  rect_x (leftPaddle s) = 0
  /\ rect_x (rightPaddle s) = WINDOW_WIDTH - PADDLE_WIDTH
  /\ rect_w (leftPaddle s) = PADDLE_WIDTH /\ rect_h (leftPaddle s) = PADDLE_HEIGHT
  /\ rect_w (rightPaddle s) = PADDLE_WIDTH /\ rect_h (rightPaddle s) = PADDLE_HEIGHT
  /\ paddle_in_window (leftPaddle s) /\ paddle_in_window (rightPaddle s).

(** The lifetimes a coin list can hold while the spawn counter is [k]: the
    coin spawned last, and the one spawned an interval before it. *)
Definition timers_in_step (k : Z) (timers : list Z) : Prop :=
  let older_one := COIN_DURATION_FRAMES - COIN_APPEAR_INTERVAL_FRAMES - 1 - k in
  let newer_one := COIN_DURATION_FRAMES - 1 - k in
  timers = [] \/ timers = [older_one] \/ timers = [newer_one]
  \/ timers = [older_one; newer_one].

Definition coins_in_step (s : State) : Prop :=
  0 <= coin_spawn_timer s < COIN_APPEAR_INTERVAL_FRAMES
  /\ timers_in_step (coin_spawn_timer s) (map coin_timer (coins s))
  /\ Forall (fun c => 0 < coin_timer c) (coins s).

(** ** Drawing the ball (main.cpp, [drawFilledCircle]) *)

(** A call of [SDL_RenderDrawLine]. *)
Record Line : Type := mkLine { line_x1 : Z; line_y1 : Z; line_x2 : Z; line_y2 : Z }.

(** [static_cast<int>(sqrt(static_cast<float>(radius * radius - y * y)))].
    Which [sqrt] an unqualified call with a [float] argument selects depends
    on the library: the [float] overload, or the C function on [double].
    Both are modelled. *)
Definition row_half_width (radius y : Z) : Z :=
  F32.to_int (F32.sqrt (F32.of_int (radius * radius - y * y))).
Definition row_half_width_double (radius y : Z) : Z :=
  F32.to_int (F64.sqrt (F64.of_f32 (F32.of_int (radius * radius - y * y)))).

(** The values of [y] in [for (int y = -radius; y <= radius; y++)]. *)
Definition circle_rows (radius : Z) : list Z :=
  map (fun k => - radius + Z.of_nat k) (seq 0 (Z.to_nat (2 * radius + 1))).

(** The lines drawn, in order. *)
Definition drawFilledCircle_with (half : Z -> Z -> Z) (centerX centerY radius : Z)
  : list Line :=
  map (fun y =>
         let x := half radius y in
         mkLine (centerX - x) (centerY + y) (centerX + x) (centerY + y))
      (circle_rows radius).
Definition drawFilledCircle : Z -> Z -> Z -> list Line :=
  drawFilledCircle_with row_half_width.

(** The pixel [(px, py)] lies on a horizontal line of the list. *)
Definition on_lines (lines : list Line) (px py : Z) : Prop :=
  exists l, In l lines /\ line_y1 l = py /\ line_y2 l = py
            /\ line_x1 l <= px <= line_x2 l.

(** The check run for every radius up to [n]: on every row both square roots
    give the integer square root. *)
Definition rows_exact (radius : Z) : bool :=
  forallb (fun y =>
             (row_half_width radius y =? Z.sqrt (radius * radius - y * y))
             && (row_half_width_double radius y =? Z.sqrt (radius * radius - y * y)))
          (circle_rows radius).

(** ** The coin textures (coin.cpp) *)

Module CoinSystem.

Import String.StringSyntax Ascii.AsciiSyntax.
Local Open Scope string_scope.

(** An [SDL_Texture*] that is not null. *)
Definition Texture : Type := Z.

Definition NUM_COIN_FRAMES : Z := 8.
Definition COIN_ANIMATION_SPEED_MS : Z := 100.

(** [gCoinTextures], and the textures handed to [SDL_DestroyTexture] so
    far. *)
Record Sys : Type := mkSys {
  gCoinTextures : list Texture;
  destroyed : list Texture
}.

(** [closeCoinSystem]: every texture of the vector is destroyed, the
    vector cleared. *)
Definition closeCoinSystem (st : Sys) : Sys :=
  mkSys [] (destroyed st ++ gCoinTextures st).

(** [std::to_string(i)] for the frame numbers, which have one digit. *)
Definition to_string (i : Z) : String.string :=
  String.String (Ascii.ascii_of_N (48 + Z.to_N i)) String.EmptyString.

(** ["coin_0" + std::to_string(i) + ".png"]. *)
Definition filename (i : Z) : String.string :=
  String.append "coin_0" (String.append (to_string i) ".png").

(** The files of the eight frames. *)
Definition frame_files : list String.string :=
  ["coin_01.png"; "coin_02.png"; "coin_03.png"; "coin_04.png";
   "coin_05.png"; "coin_06.png"; "coin_07.png"; "coin_08.png"].

(** The values of [i] in [for (int i = 1; i <= NUM_COIN_FRAMES; ++i)]. *)
Definition frame_numbers : list Z :=
  map (fun k => 1 + Z.of_nat k) (seq 0 (Z.to_nat NUM_COIN_FRAMES)).

(** The loop of [initCoinSystem]; [load] is [IMG_LoadTexture] on the
    file name, [None] for a null result. *)
Fixpoint load_frames (load : String.string -> option Texture) (numbers : list Z)
    (st : Sys) : bool * Sys :=
  match numbers with
  | [] => (true, st)
  | i :: rest =>
      match load (filename i) with
      | None => (false, closeCoinSystem st)
      | Some texture =>
          load_frames load rest
            (mkSys (gCoinTextures st ++ [texture]) (destroyed st))
      end
  end.

Definition initCoinSystem (load : String.string -> option Texture) (st : Sys)
  : bool * Sys :=
  load_frames load frame_numbers (closeCoinSystem st).

(** What a call of [draw_Coin] does: nothing, a copy of a texture to a
    rectangle, or a read past the end of the vector. *)
Inductive Drawing : Type :=
| Nothing
| RenderCopy (texture : Texture) (dstRect : SDL_Rect)
| PastTheEnd.

(** [draw_Coin]; [query] is [SDL_QueryTexture], giving width and height;
    [currentTime] is a [Uint32]. *)
Definition draw_Coin (query : Texture -> Z * Z) (x y : Z) (scale : float)
    (renderer_is_null : bool) (currentTime : Z) (st : Sys) : Drawing :=
  match gCoinTextures st with
  | [] => Nothing
  | _ :: _ =>
      if renderer_is_null then Nothing
      else
        let frame_index :=
          Z.rem (Z.quot currentTime COIN_ANIMATION_SPEED_MS) NUM_COIN_FRAMES in
        match nth_error (gCoinTextures st) (Z.to_nat frame_index) with
        | None => PastTheEnd
        | Some currentTexture =>
            let '(originalWidth, originalHeight) := query currentTexture in
            let scaledWidth := F32.to_int (F32.mul (F32.of_int originalWidth) scale) in
            let scaledHeight := F32.to_int (F32.mul (F32.of_int originalHeight) scale) in
            RenderCopy currentTexture
              (mkRect (x - Z.quot scaledWidth 2) (y - Z.quot scaledHeight 2)
                      scaledWidth scaledHeight)
        end
  end.

(** The textures the files of the eight frames give, while they load. *)
Fixpoint loaded_prefix (load : String.string -> option Texture) (numbers : list Z)
  : list Texture :=
  match numbers with
  | [] => []
  | i :: rest =>
      match load (filename i) with
      | None => []
      | Some texture => texture :: loaded_prefix load rest
      end
  end.

Definition all_load (load : String.string -> option Texture) (numbers : list Z)
  : bool :=
  forallb (fun i => match load (filename i) with Some _ => true | None => false end)
          numbers.

(** A loader that finds the first [n] frames only. *)
Definition first_frames_only (n : Z) (name : String.string) : option Texture :=
  match List.find (fun i => String.eqb (filename i) name) frame_numbers with
  | Some i => if i <=? n then Some (100 + i) else None
  | None => None
  end.

(** What [getCoinRenderedWidth] and [getCoinRenderedHeight] query: the
    size of the first texture, if there is one. *)
Definition first_texture_size (query : Texture -> Z * Z) (st : Sys)
  : option (Z * Z) :=
  match gCoinTextures st with
  | [] => None
  | texture :: _ => Some (query texture)
  end.

End CoinSystem.

(** Integers of the window survive the conversion to [float] and back. *)
Definition int_float_int_exact (n : Z) : bool := F32.to_int (F32.of_int n) =? n.

(** ** More runs from program start *)

(** With seed 3 the ball launched in the first frame leaves past the left
    edge in frame 100, without touching a wall or a paddle. *)
Definition seed_3 : Platform := Sample.platform 3.
Definition before_first_miss : State :=
  run_state seed_3 10 (launch_click :: repeat idle 98) initial_state.

(** Two clicks in one frame. *)
Definition two_clicks : list Event :=
  [SDL_MOUSEBUTTONDOWN 405 295; SDL_QUIT; SDL_MOUSEBUTTONDOWN 400 300].

(** With seed 1 and no click, two coins are in the list after 700 frames. *)
Definition after_700_frames : State :=
  run_state seed_1 10 (repeat idle 700) initial_state.

(** The coin system after loading the eight frames, each of 32 by 32
    pixels. *)
Definition eight_frames : CoinSystem.Sys :=
  snd (CoinSystem.initCoinSystem (CoinSystem.first_frames_only 8)
         (CoinSystem.mkSys [] [])).
Definition size_32 (texture : CoinSystem.Texture) : Z * Z := (32, 32).

(** The state reaching the paddle step in frame 154 of the run with
    seed 11. *)
Definition at_first_hit : State * bool :=
  match before_paddles seed_11 10 idle before_first_hit with
  | Some p => p
  | None => (before_first_hit, false)
  end.

(** * Properties *)

(** ** Tactics and small facts shared by the proofs *)

(** Split a successful [frame] into its successive steps. *)
Ltac frame_inv H :=
  unfold frame in H;
  let s1 := fresh "s1" in let l := fresh "did_launch" in
  let He := fresh "Hevents" in
  destruct (event_handling _ _ _ _) as [[s1 l]|] eqn:He; [|discriminate H];
  let s4 := fresh "s4" in let r1 := fresh "r1" in let Hw := fresh "Hwall" in
  destruct (wall_collisions _) as [s4 r1] eqn:Hw;
  let s5 := fresh "s5" in let r2 := fresh "r2" in let Hp := fresh "Hpaddle" in
  destruct (paddle_collisions _ _) as [s5 r2] eqn:Hp;
  let s6 := fresh "s6" in let Ho := fresh "Hbounds" in
  destruct (out_of_bounds _ _ _) as [s6|] eqn:Ho; [|discriminate H];
  let s8 := fresh "s8" in let sp := fresh "spawned" in let Hs := fresh "Hspawn" in
  destruct (coin_spawn _ _) as [s8 sp] eqn:Hs;
  inversion H; subst; clear H.

Lemma of_int_0 : F32.of_int 0 = S754_zero false.
Proof. reflexivity. Qed.

Lemma lit_0 : F32.lit 0 10 = S754_zero false.
Proof. reflexivity. Qed.

(** A boolean check over a range of integers holds at each of them. *)
Lemma Z_range_forallb (P : Z -> bool) (lo : Z) (n : nat) :
  forallb P (map (fun k => lo + Z.of_nat k) (seq 0 n)) = true ->
  forall z, lo <= z < lo + Z.of_nat n -> P z = true.
Proof.
  intros H z Hz.
  rewrite forallb_forall in H. apply H.
  apply in_map_iff. exists (Z.to_nat (z - lo)). split.
  - rewrite Z2Nat.id; lia.
  - apply in_seq. lia.
Qed.

(** ** Paddles stay inside the window *)

Lemma clamp_paddle_in_window (r : SDL_Rect) : paddle_in_window (clamp_paddle r).
Proof.
  unfold paddle_in_window, clamp_paddle, WINDOW_HEIGHT, PADDLE_HEIGHT.
  destruct (rect_y r <? 0) eqn:Hneg; cbn [rect_y set_rect_y].
  - cbn. lia.
  - apply Z.ltb_ge in Hneg.
    destruct (rect_y r + 100 >? 600) eqn:Hbig; cbn [rect_y set_rect_y]; [lia|].
    rewrite Z.gtb_ltb in Hbig. apply Z.ltb_ge in Hbig. lia.
Qed.

Lemma clamp_paddle_shape (r : SDL_Rect) :
  rect_x (clamp_paddle r) = rect_x r /\ rect_w (clamp_paddle r) = rect_w r
  /\ rect_h (clamp_paddle r) = rect_h r.
Proof.
  unfold clamp_paddle.
  destruct (rect_y r <? 0); cbn [rect_y set_rect_y];
    match goal with |- context [if ?c then _ else _] => destruct c end;
    cbn; auto.
Qed.

(** From a position inside the window one key press moves a paddle by at most
    six pixels, whatever the keys: the [int] arithmetic of the clamp never
    overflows. *)
Lemma move_paddle_step (up down : bool) (r : SDL_Rect) :
  paddle_in_window r ->
  rect_y r - 6 <= rect_y (move_paddle up down r) <= rect_y r + 6.
Proof.
  intros [Hlo Hhi].
  assert (Hall : forall y, 0 <= y < 0 + Z.of_nat 501 ->
    (fun y => forallb (fun ud : bool * bool =>
       let y' := rect_y (move_paddle (fst ud) (snd ud) (mkRect 0 y 0 0)) in
       (y - 6 <=? y') && (y' <=? y + 6))
       [(true, true); (true, false); (false, true); (false, false)]) y = true).
  { apply Z_range_forallb. vm_compute. reflexivity. }
  specialize (Hall (rect_y r)). cbv beta in Hall.
  unfold WINDOW_HEIGHT, PADDLE_HEIGHT in Hhi.
  assert (Hy : 0 <= rect_y r < 0 + Z.of_nat 501) by (cbn; lia).
  specialize (Hall Hy). rewrite forallb_forall in Hall.
  assert (Hin : In (up, down) [(true, true); (true, false); (false, true); (false, false)]).
  { destruct up, down; cbn; auto. }
  specialize (Hall _ Hin). cbn [fst snd] in Hall.
  assert (Hsame : rect_y (move_paddle up down r)
                  = rect_y (move_paddle up down (mkRect 0 (rect_y r) 0 0))).
  { unfold move_paddle, paddle_up, paddle_down.
    destruct up, down; cbn [rect_y set_rect_y]; reflexivity. }
  rewrite Hsame. apply andb_true_iff in Hall. destruct Hall as [H1 H2].
  apply Z.leb_le in H1. apply Z.leb_le in H2. lia.
Qed.

(** C5. After the paddle-update step of any frame, whichever movement keys
    are held and wherever the paddles were, the y coordinate of each paddle
    lies in [0, WINDOW_HEIGHT - PADDLE_HEIGHT]. *)
Theorem paddles_clamped_after_update (k : Keys) (s : State) :
  0 <= rect_y (leftPaddle (paddle_movement k s)) <= WINDOW_HEIGHT - PADDLE_HEIGHT
  /\ 0 <= rect_y (rightPaddle (paddle_movement k s)) <= WINDOW_HEIGHT - PADDLE_HEIGHT.
Proof.
  unfold paddle_movement. cbn [leftPaddle rightPaddle set_leftPaddle set_rightPaddle].
  split; apply clamp_paddle_in_window.
Qed.

(** ** Wall collisions *)

Lemma wall_test_of_y (s : State) : wall_test s = wall_of_y (ball_y s).
Proof. reflexivity. Qed.

Lemma wall_of_nan : wall_of_y S754_nan = None.
Proof. reflexivity. Qed.

Lemma ball_movement_y (s : State) :
  ball_y (ball_movement s)
  = F32.add (ball_y s) (F32.mul (ball_dy s) (current_ball_speed s)).
Proof. reflexivity. Qed.

Lemma ball_movement_dy (s : State) : ball_dy (ball_movement s) = ball_dy s.
Proof. reflexivity. Qed.

(** Adding a zero displacement leaves the wall test as it was. *)
Lemma wall_of_add_zero (y : float) (b : bool) :
  wall_of_y (F32.add y (S754_zero b)) = wall_of_y y.
Proof.
  destruct y as [sy|sy| |sy my ey]; try reflexivity.
  destruct sy, b; reflexivity.
Qed.

Lemma wall_of_add_nan (y : float) : wall_of_y (F32.add y S754_nan) = None.
Proof. destruct y; reflexivity. Qed.

(** A ball that crosses a wall has a vertical direction that is a number
    other than zero. *)
Lemma crossing_ball_moves (s : State) (w : Wall) :
  crosses_wall s w ->
  exists sg m e, ball_dy s = S754_finite sg m e \/ ball_dy s = S754_infinity sg.
Proof.
  intros [Hin Hout].
  rewrite wall_test_of_y in Hin, Hout. rewrite ball_movement_y in Hout.
  destruct (ball_dy s) as [sd|sd| |sd md ed] eqn:Hdy.
  - exfalso. unfold F32.mul in Hout.
    destruct (current_ball_speed s) as [sv|sv| |sv mv ev]; cbn [SFmul] in Hout.
    + rewrite wall_of_add_zero in Hout. congruence.
    + rewrite wall_of_add_nan in Hout. discriminate.
    + rewrite wall_of_add_nan in Hout. discriminate.
    + rewrite wall_of_add_zero in Hout. congruence.
  - exists sd, 1%positive, 0. now right.
  - exfalso. unfold F32.mul in Hout. cbn [SFmul] in Hout.
    rewrite wall_of_add_nan in Hout. discriminate.
  - exists sd, md, ed. now left.
Qed.

(** C6. When the integrated ball position crosses the bottom or the top edge,
    the wall-collision step puts the ball exactly on that edge
    (y = WINDOW_HEIGHT - BALL_RADIUS at the bottom, y = BALL_RADIUS at the
    top), leaves its vertical direction pointing away from that wall, and
    marks the frame as reflected. *)
Theorem wall_collision_clamps_and_turns (s : State) (w : Wall) :
  crosses_wall s w ->
  ball_y (fst (wall_collisions (ball_movement s))) = wall_line w
  /\ leads_away w (ball_dy (fst (wall_collisions (ball_movement s))))
  /\ snd (wall_collisions (ball_movement s)) = true.
Proof.
  intros Hc. destruct (crossing_ball_moves s w Hc) as (sg & m & e & Hdy).
  destruct Hc as [_ Hout]. unfold wall_collisions. rewrite Hout.
  destruct w; cbn [fst snd ball_y ball_dy set_ball_y set_ball_dy];
    rewrite ball_movement_dy; (split; [reflexivity|split; [|reflexivity]]);
    destruct Hdy as [-> | ->]; reflexivity.
Qed.

(** ** Which globals each step of the main loop leaves alone *)

Section Frames.

Variable pf : Platform.

Lemma launch_keeps (fuel : nat) (s s' : State) :
  launch pf fuel s = Some s' ->
  ball_x s' = ball_x s /\ ball_y s' = ball_y s
  /\ leftPaddle s' = leftPaddle s /\ rightPaddle s' = rightPaddle s
  /\ coins s' = coins s /\ coin_spawn_timer s' = coin_spawn_timer s
  /\ left_score s' = left_score s /\ right_score s' = right_score s
  /\ last_ball_hit s' = last_ball_hit s
  /\ left_consecutive_hits s' = left_consecutive_hits s
  /\ right_consecutive_hits s' = right_consecutive_hits s
  /\ current_ball_speed s' = INITIAL_BALL_SPEED /\ ball_boost_timer s' = 0.
Proof.
  unfold launch. destruct (pick_angle pf fuel (rand_calls s)) as [[a n]|]; [|discriminate].
  intros H. inversion H; subst; clear H. cbn. repeat split.
Qed.

(** Event handling either changes nothing or performs a launch. *)
Lemma event_handling_keeps (fuel : nat) (es : list Event) (s s' : State) (l : bool) :
  event_handling pf fuel es s = Some (s', l) ->
  (l = false -> s' = s)
  /\ (l = true -> current_ball_speed s' = INITIAL_BALL_SPEED /\ ball_boost_timer s' = 0)
  /\ ball_x s' = ball_x s /\ ball_y s' = ball_y s
  /\ leftPaddle s' = leftPaddle s /\ rightPaddle s' = rightPaddle s
  /\ coins s' = coins s /\ coin_spawn_timer s' = coin_spawn_timer s
  /\ left_score s' = left_score s /\ right_score s' = right_score s
  /\ last_ball_hit s' = last_ball_hit s
  /\ left_consecutive_hits s' = left_consecutive_hits s
  /\ right_consecutive_hits s' = right_consecutive_hits s.
Proof.
  revert s s' l. induction es as [|e rest IH]; intros s s' l H; cbn in H.
  - inversion H; subst. repeat split; auto; discriminate.
  - destruct (handle_event pf fuel e s) as [[s1 l1]|] eqn:He; [|discriminate].
    destruct (event_handling pf fuel rest s1) as [[s2 l2]|] eqn:Hr; [|discriminate].
    inversion H; subst; clear H.
    destruct (IH _ _ _ Hr) as (Is & Il & I1 & I2 & I3 & I4 & I5 & I6 & I7 & I8 & I9 & I10 & I11).
    assert (Hone : (l1 = false /\ s1 = s)
                   \/ (l1 = true /\ launch pf fuel s = Some s1)).
    { unfold handle_event in He. destruct e; try (inversion He; subst; now left).
      destruct (launch_test mouseX mouseY s); [|inversion He; subst; now left].
      destruct (launch pf fuel s) as [s1'|] eqn:Hl; [|discriminate].
      inversion He; subst. now right. }
    destruct Hone as [[-> ->] | [-> Hl]].
    + cbn [orb]. split; [exact Is|]. split; [exact Il|]. repeat split; assumption.
    + destruct (launch_keeps _ _ _ Hl)
        as (L1 & L2 & L3 & L4 & L5 & L6 & L7 & L8 & L9 & L10 & L11 & L12 & L13).
      cbn [orb]. split; [discriminate|]. split.
      * intros _. destruct l2.
        -- now apply Il.
        -- rewrite (Is eq_refl). auto.
      * repeat split; congruence.
Qed.

Lemma reset_ball_keeps (fuel : nat) (s s' : State) :
  reset_ball pf fuel s = Some s' ->
  ball_x s' = F32.div (F32.of_int WINDOW_WIDTH) (F32.lit 20 10)
  /\ ball_y s' = F32.div (F32.of_int WINDOW_HEIGHT) (F32.lit 20 10)
  /\ current_ball_speed s' = INITIAL_BALL_SPEED /\ ball_boost_timer s' = 0
  /\ left_consecutive_hits s' = 0 /\ right_consecutive_hits s' = 0
  /\ last_ball_hit s' = LastHit.None
  /\ leftPaddle s' = leftPaddle s /\ rightPaddle s' = rightPaddle s
  /\ coins s' = coins s /\ coin_spawn_timer s' = coin_spawn_timer s
  /\ left_score s' = left_score s /\ right_score s' = right_score s.
Proof.
  unfold reset_ball. cbn [rand_calls set_ball_x set_ball_y].
  destruct (pick_angle pf fuel (rand_calls s)) as [[a n]|]; [|discriminate].
  intros H. inversion H; subst; clear H. cbn. repeat split.
Qed.

(** The out-of-bounds step: nothing happens, or the other side scores one
    point and the ball is reset. *)
Lemma out_of_bounds_cases (fuel : nat) (s s' : State) :
  out_of_bounds pf fuel s = Some s' ->
  leftPaddle s' = leftPaddle s /\ rightPaddle s' = rightPaddle s
  /\ coins s' = coins s /\ coin_spawn_timer s' = coin_spawn_timer s
  /\ match edge_test s with
     | None => s' = s
     | Some e =>
         ball_x s' = F32.div (F32.of_int WINDOW_WIDTH) (F32.lit 20 10)
         /\ ball_y s' = F32.div (F32.of_int WINDOW_HEIGHT) (F32.lit 20 10)
         /\ current_ball_speed s' = INITIAL_BALL_SPEED /\ ball_boost_timer s' = 0
         /\ left_consecutive_hits s' = 0 /\ right_consecutive_hits s' = 0
         /\ last_ball_hit s' = LastHit.None
         /\ left_score s' = left_score s + (match e with RightEdge => 1 | LeftEdge => 0 end)
         /\ right_score s' = right_score s + (match e with LeftEdge => 1 | RightEdge => 0 end)
     end.
Proof.
  unfold out_of_bounds. destruct (edge_test s) as [[|]|]; intros H.
  - destruct (reset_ball_keeps _ _ _ H)
      as (R1 & R2 & R3 & R4 & R5 & R6 & R7 & R8 & R9 & R10 & R11 & R12 & R13).
    cbn in *. repeat split; auto; lia.
  - destruct (reset_ball_keeps _ _ _ H)
      as (R1 & R2 & R3 & R4 & R5 & R6 & R7 & R8 & R9 & R10 & R11 & R12 & R13).
    cbn in *. repeat split; auto; lia.
  - inversion H; subst. repeat split.
Qed.

Lemma wall_collisions_keeps (s : State) :
  let s' := fst (wall_collisions s) in
  ball_x s' = ball_x s /\ ball_dx s' = ball_dx s
  /\ current_ball_speed s' = current_ball_speed s
  /\ ball_boost_timer s' = ball_boost_timer s
  /\ leftPaddle s' = leftPaddle s /\ rightPaddle s' = rightPaddle s
  /\ coins s' = coins s /\ coin_spawn_timer s' = coin_spawn_timer s
  /\ left_score s' = left_score s /\ right_score s' = right_score s
  /\ last_ball_hit s' = last_ball_hit s
  /\ left_consecutive_hits s' = left_consecutive_hits s
  /\ right_consecutive_hits s' = right_consecutive_hits s
  /\ rand_calls s' = rand_calls s.
Proof.
  unfold wall_collisions. destruct (wall_test s) as [[|]|]; cbn; repeat split.
Qed.

Lemma paddle_collisions_keeps (s : State) (r : bool) :
  let s' := fst (paddle_collisions s r) in
  ball_y s' = ball_y s /\ ball_dy s' = ball_dy s
  /\ current_ball_speed s' = current_ball_speed s
  /\ ball_boost_timer s' = ball_boost_timer s
  /\ leftPaddle s' = leftPaddle s /\ rightPaddle s' = rightPaddle s
  /\ coins s' = coins s /\ coin_spawn_timer s' = coin_spawn_timer s
  /\ rand_calls s' = rand_calls s.
Proof.
  unfold paddle_collisions, left_paddle_hit, right_paddle_hit,
    left_hit_rule, right_hit_rule.
  destruct (paddle_test s); cbn [fst]; [repeat split| |].
  - cbn [last_ball_hit set_ball_x set_ball_dx]. destruct (last_ball_hit s); cbn;
      try (repeat split; fail).
    destruct (left_consecutive_hits s + 1 >=? 2); cbn; repeat split.
  - cbn [last_ball_hit set_ball_x set_ball_dx]. destruct (last_ball_hit s); cbn;
      try (repeat split; fail).
    destruct (right_consecutive_hits s + 1 >=? 2); cbn; repeat split.
Qed.

Lemma boost_logic_keeps (r : bool) (s : State) :
  let s' := boost_logic r s in
  ball_x s' = ball_x s /\ ball_y s' = ball_y s
  /\ ball_dx s' = ball_dx s /\ ball_dy s' = ball_dy s
  /\ leftPaddle s' = leftPaddle s /\ rightPaddle s' = rightPaddle s
  /\ coins s' = coins s /\ coin_spawn_timer s' = coin_spawn_timer s
  /\ left_score s' = left_score s /\ right_score s' = right_score s
  /\ last_ball_hit s' = last_ball_hit s
  /\ left_consecutive_hits s' = left_consecutive_hits s
  /\ right_consecutive_hits s' = right_consecutive_hits s
  /\ rand_calls s' = rand_calls s.
Proof.
  unfold boost_logic. destruct r; cbn.
  - repeat split.
  - destruct (ball_boost_timer s >? 0); cbn; [|repeat split].
    destruct (ball_boost_timer s - 1 =? 0); cbn; repeat split.
Qed.

Lemma coin_spawn_keeps (s : State) :
  let s' := fst (coin_spawn pf s) in
  ball_x s' = ball_x s /\ ball_y s' = ball_y s
  /\ ball_dx s' = ball_dx s /\ ball_dy s' = ball_dy s
  /\ current_ball_speed s' = current_ball_speed s
  /\ ball_boost_timer s' = ball_boost_timer s
  /\ leftPaddle s' = leftPaddle s /\ rightPaddle s' = rightPaddle s
  /\ left_score s' = left_score s /\ right_score s' = right_score s
  /\ last_ball_hit s' = last_ball_hit s
  /\ left_consecutive_hits s' = left_consecutive_hits s
  /\ right_consecutive_hits s' = right_consecutive_hits s.
Proof.
  unfold coin_spawn. cbn [coin_spawn_timer set_coin_spawn_timer].
  destruct (coin_spawn_timer s + 1 >=? COIN_APPEAR_INTERVAL_FRAMES); cbn; repeat split.
Qed.

Lemma same_but_scores_refl (s : State) : same_but_scores s s.
Proof. destruct s; reflexivity. Qed.

Lemma same_but_scores_trans (s1 s2 s3 : State) :
  same_but_scores s1 s2 -> same_but_scores s2 s3 -> same_but_scores s1 s3.
Proof.
  unfold same_but_scores. intros H12 H23. rewrite H23 at 1. rewrite H12 at 1.
  destruct s1; reflexivity.
Qed.

Lemma collect_coin_same (s : State) (c : Coin) :
  same_but_scores s (fst (collect_coin pf s c)).
Proof.
  unfold collect_coin.
  destruct (checkCircleRectCollision _ _ _ _).
  - destruct (last_ball_hit s); cbn; destruct s; reflexivity.
  - destruct (checkRectRectCollision (leftPaddle s) _).
    + cbn. destruct s; reflexivity.
    + destruct (checkRectRectCollision (rightPaddle s) _); cbn;
        destruct s; reflexivity.
Qed.

Lemma coin_body_same (s : State) (c : Coin) :
  same_but_scores s (fst (coin_body pf s c)).
Proof.
  unfold coin_body. destruct (_ <=? 0).
  - apply same_but_scores_refl.
  - apply collect_coin_same.
Qed.

Lemma coin_loop_same (cs : list Coin) (s : State) :
  same_but_scores s (fst (coin_loop pf cs s)).
Proof.
  revert s. induction cs as [|c rest IH]; intros s; cbn.
  - apply same_but_scores_refl.
  - pose proof (coin_body_same s c) as Hb.
    destruct (coin_body pf s c) as [s1 fate]. cbn [fst] in Hb.
    pose proof (IH s1) as Hr.
    destruct (coin_loop pf rest s1) as [s2 rest']. cbn [fst] in *.
    eapply same_but_scores_trans; eauto.
Qed.

Lemma coin_update_keeps (s : State) :
  let s' := coin_update pf s in
  ball_x s' = ball_x s /\ ball_y s' = ball_y s
  /\ ball_dx s' = ball_dx s /\ ball_dy s' = ball_dy s
  /\ current_ball_speed s' = current_ball_speed s
  /\ ball_boost_timer s' = ball_boost_timer s
  /\ leftPaddle s' = leftPaddle s /\ rightPaddle s' = rightPaddle s
  /\ coin_spawn_timer s' = coin_spawn_timer s
  /\ last_ball_hit s' = last_ball_hit s
  /\ left_consecutive_hits s' = left_consecutive_hits s
  /\ right_consecutive_hits s' = right_consecutive_hits s
  /\ rand_calls s' = rand_calls s.
Proof.
  unfold coin_update. pose proof (coin_loop_same (coins s) s) as H.
  destruct (coin_loop pf (coins s) s) as [s1 cs]. cbn [fst] in H.
  unfold same_but_scores in H. rewrite H. cbn. repeat split.
Qed.

Lemma run_reachable (fuel : nat) (inputs : list Input) :
  forall (s s' : State) (logs : list FrameLog),
  reachable pf s -> run pf fuel inputs s = Some (s', logs) -> reachable pf s'.
Proof.
  induction inputs as [|i rest IH]; intros s s' logs Hs Hrun; cbn [run] in Hrun.
  - injection Hrun as <- _. exact Hs.
  - destruct (frame pf fuel i s) as [[s1 lg]|] eqn:Hf; [|discriminate].
    destruct (run pf fuel rest s1) as [[s2 lgs]|] eqn:Hr; [|discriminate].
    injection Hrun as <- _. eapply IH; [|exact Hr].
    eapply reachable_frame; eauto.
Qed.

End Frames.

(** ** The speed boost *)

Lemma boost_logic_step (r : bool) (s : State) :
  (ball_boost_timer (boost_logic r s), current_ball_speed (boost_logic r s))
  = boost_step r (ball_boost_timer s) (current_ball_speed s).
Proof.
  unfold boost_logic, boost_step. destruct r; cbn.
  - reflexivity.
  - destruct (ball_boost_timer s >? 0); cbn; [|reflexivity].
    destruct (ball_boost_timer s - 1 =? 0); reflexivity.
Qed.

Lemma boost_step_reflected (t : Z) (v : float) :
  boost_step true t v = (BALL_BOOST_DURATION_FRAMES - 1, BOOSTED_BALL_SPEED).
Proof. reflexivity. Qed.

(** Without a reflection a running timer loses exactly one, an idle timer
    stays idle, and the speed changes only at the moment the timer reaches
    zero, when it becomes the base speed. *)
Lemma boost_step_idle (t : Z) (v : float) :
  boost_ok_pair t v ->
  fst (boost_step false t v) = Z.max 0 (t - 1)
  /\ boost_ok_pair (fst (boost_step false t v)) (snd (boost_step false t v)).
Proof.
  unfold boost_ok_pair, boost_step, BALL_BOOST_DURATION_FRAMES.
  intros [[-> ->] | [Ht ->]].
  - cbn. split; [reflexivity | left; auto].
  - destruct (t >? 0) eqn:Hpos; [|rewrite Z.gtb_ltb in Hpos; apply Z.ltb_ge in Hpos; lia].
    cbn [fst snd]. split; [lia|].
    destruct (t - 1 =? 0) eqn:Hz.
    + apply Z.eqb_eq in Hz. left. auto.
    + apply Z.eqb_neq in Hz. right. split; [lia | reflexivity].
Qed.

Section Boost.

Variable pf : Platform.

(** Timer and speed at the end of a frame, from those at its start. *)
Lemma frame_boost (fuel : nat) (i : Input) (s s' : State) (lg : FrameLog) :
  frame pf fuel i s = Some (s', lg) ->
  (ball_boost_timer s', current_ball_speed s')
  = boost_step (reflected_this_frame lg)
      (if frame_resets lg then 0 else ball_boost_timer s)
      (if frame_resets lg then INITIAL_BALL_SPEED else current_ball_speed s).
Proof.
  intros H. frame_inv H.
  destruct (coin_update_keeps pf s8) as (_ & _ & _ & _ & U5 & U6 & _).
  pose proof (coin_spawn_keeps pf (boost_logic r2 s6)) as Hk.
  rewrite Hspawn in Hk. cbn [fst] in Hk.
  destruct Hk as (_ & _ & _ & _ & S5 & S6 & _).
  rewrite U5, U6, S5, S6. rewrite boost_logic_step.
  unfold frame_resets. cbn [launched edge_crossed reflected_this_frame].
  pose proof (paddle_collisions_keeps s4 r1) as Hk. rewrite Hpaddle in Hk.
  cbn [fst] in Hk. destruct Hk as (_ & _ & P3 & P4 & _).
  pose proof (wall_collisions_keeps (ball_movement (paddle_movement (currentKeyStates i) s1))) as Hk.
  rewrite Hwall in Hk. cbn [fst] in Hk. destruct Hk as (_ & _ & W3 & W4 & _).
  cbn in W3, W4.
  destruct (event_handling_keeps _ _ _ _ _ _ Hevents) as (E1 & E2 & _).
  destruct (out_of_bounds_cases _ _ _ _ Hbounds) as (_ & _ & _ & _ & Hcase).
  destruct (edge_test s5) as [e|].
  - destruct Hcase as (_ & _ & C3 & C4 & _). rewrite C3, C4.
    rewrite orb_true_r. reflexivity.
  - subst s6. rewrite orb_false_r. rewrite P3, P4, W3, W4.
    destruct did_launch.
    + destruct (E2 eq_refl) as [-> ->]. reflexivity.
    + rewrite (E1 eq_refl). reflexivity.
Qed.

Lemma frame_keeps_boost_ok (fuel : nat) (i : Input) (s s' : State) (lg : FrameLog) :
  frame pf fuel i s = Some (s', lg) -> boost_ok s -> boost_ok s'.
Proof.
  intros H Hok. apply frame_boost in H. unfold boost_ok.
  assert (Hin : boost_ok_pair
            (if frame_resets lg then 0 else ball_boost_timer s)
            (if frame_resets lg then INITIAL_BALL_SPEED else current_ball_speed s)).
  { destruct (frame_resets lg); [left; auto | exact Hok]. }
  destruct (reflected_this_frame lg).
  - rewrite boost_step_reflected in H. inversion H as [[Ht Hv]].
    right. rewrite Ht, Hv. split; [cbv; auto | reflexivity].
  - destruct (boost_step_idle _ _ Hin) as [_ Hout].
    destruct (boost_step false _ _) as [t v]. inversion H; subst. exact Hout.
Qed.

Lemma reachable_boost_ok (s : State) : reachable pf s -> boost_ok s.
Proof.
  induction 1 as [|fuel i s s' lg _ IH Hf].
  - left. split; reflexivity.
  - eapply frame_keeps_boost_ok; eauto.
Qed.


End Boost.

Section BoostClaims.

Variable pf : Platform.

(** The flag of the main loop is set exactly by a wall or a paddle
    contact. *)
Lemma frame_reflected_iff (fuel : nat) (i : Input) (s s' : State) (lg : FrameLog) :
  frame pf fuel i s = Some (s', lg) ->
  reflected_this_frame lg
  = match wall_touched lg, paddle_struck lg with
    | None, LastHit.None => false
    | _, _ => true
    end.
Proof.
  intros H. frame_inv H. cbn [reflected_this_frame wall_touched paddle_struck].
  unfold wall_collisions in Hwall. unfold paddle_collisions in Hpaddle.
  destruct (wall_test _) as [[|]|]; inversion Hwall; subst;
    destruct (paddle_test _); inversion Hpaddle; subst; reflexivity.
Qed.


(** C10. In every state reachable at a frame boundary the ball speed is the
    base speed or base * boost factor, hence positive and at most
    base * boost factor; and a reflection in the next frame, boosted already
    or not, leaves exactly base * boost factor: boosts do not compound. *)
Theorem ball_speed_two_valued (s : State) :
  reachable pf s ->
  (current_ball_speed s = INITIAL_BALL_SPEED
   \/ current_ball_speed s = F32.mul INITIAL_BALL_SPEED BALL_BOOST_FACTOR)
  /\ F32.ltb (F32.of_int 0) (current_ball_speed s) = true
  /\ F32.leb (current_ball_speed s) (F32.mul INITIAL_BALL_SPEED BALL_BOOST_FACTOR) = true
  /\ forall fuel i s' lg,
       frame pf fuel i s = Some (s', lg) -> reflected_this_frame lg = true ->
       current_ball_speed s' = F32.mul INITIAL_BALL_SPEED BALL_BOOST_FACTOR.
Proof.
  intros Hr. pose proof (reachable_boost_ok pf s Hr) as Hok.
  assert (Hv : current_ball_speed s = INITIAL_BALL_SPEED
               \/ current_ball_speed s = F32.mul INITIAL_BALL_SPEED BALL_BOOST_FACTOR).
  { destruct Hok as [[_ H]|[_ H]]; [left | right]; exact H. }
  split; [exact Hv|]. split; [|split].
  - destruct Hv as [-> | ->]; reflexivity.
  - destruct Hv as [-> | ->]; reflexivity.
  - intros fuel i s' lg Hf Hrefl.
    pose proof (frame_boost pf _ _ _ _ _ Hf) as Hb.
    rewrite Hrefl, boost_step_reflected in Hb. injection Hb as _ Hs. exact Hs.
Qed.

(** C1 (what the code does). In a frame where the ball touches a wall and
    crosses a side edge, the reset of speed and timer is overridden by the
    boost logic that follows: the frame ends boosted, with the timer
    running. *)
Theorem miss_with_wall_bounce_ends_boosted
    (fuel : nat) (i : Input) (s s' : State) (lg : FrameLog) (w : Wall) (e : Edge) :
  frame pf fuel i s = Some (s', lg) ->
  wall_touched lg = Some w ->
  edge_crossed lg = Some e ->
  current_ball_speed s' = BOOSTED_BALL_SPEED
  /\ current_ball_speed s' <> INITIAL_BALL_SPEED
  /\ ball_boost_timer s' = BALL_BOOST_DURATION_FRAMES - 1
  /\ ball_boost_timer s' <> 0.
Proof.
  intros Hf Hw He.
  pose proof (frame_reflected_iff _ _ _ _ _ Hf) as Hr. rewrite Hw in Hr.
  pose proof (frame_boost pf _ _ _ _ _ Hf) as Hb.
  rewrite Hr, boost_step_reflected in Hb. injection Hb as Ht Hv.
  rewrite Ht, Hv. repeat split; cbv; discriminate.
Qed.

End BoostClaims.

(** ** The consecutive-hit rule *)

Lemma paddle_collisions_left (s : State) (r : bool) :
  paddle_test s = LastHit.LeftPaddle ->
  paddle_collisions s r = (left_paddle_hit s, true).
Proof. unfold paddle_collisions. now intros ->. Qed.

Lemma paddle_collisions_right (s : State) (r : bool) :
  paddle_test s = LastHit.RightPaddle ->
  paddle_collisions s r = (right_paddle_hit s, true).
Proof. unfold paddle_collisions. now intros ->. Qed.

Lemma paddle_collisions_none (s : State) (r : bool) :
  paddle_test s = LastHit.None -> paddle_collisions s r = (s, r).
Proof. unfold paddle_collisions. now intros ->. Qed.

(** Scores and rally after a hit, by the rally before. *)
Lemma left_paddle_hit_scoring (s : State) :
  let s' := left_paddle_hit s in
  let streak := match last_ball_hit s with LastHit.LeftPaddle => true | _ => false end in
  last_ball_hit s' = LastHit.LeftPaddle
  /\ left_consecutive_hits s'
     = (if streak
        then if left_consecutive_hits s + 1 >=? 2 then 0 else left_consecutive_hits s + 1
        else 1)
  /\ right_consecutive_hits s' = (if streak then right_consecutive_hits s else 0)
  /\ left_score s'
     = (if streak && (left_consecutive_hits s + 1 >=? 2)
        then left_score s + 1 else left_score s)
  /\ right_score s' = right_score s.
Proof.
  unfold left_paddle_hit, left_hit_rule.
  cbn [last_ball_hit set_ball_x set_ball_dx].
  destruct (last_ball_hit s); cbn; try (repeat split; reflexivity).
  destruct (left_consecutive_hits s + 1 >=? 2); cbn; repeat split; reflexivity.
Qed.

Lemma right_paddle_hit_scoring (s : State) :
  let s' := right_paddle_hit s in
  let streak := match last_ball_hit s with LastHit.RightPaddle => true | _ => false end in
  last_ball_hit s' = LastHit.RightPaddle
  /\ right_consecutive_hits s'
     = (if streak
        then if right_consecutive_hits s + 1 >=? 2 then 0 else right_consecutive_hits s + 1
        else 1)
  /\ left_consecutive_hits s' = (if streak then left_consecutive_hits s else 0)
  /\ right_score s'
     = (if streak && (right_consecutive_hits s + 1 >=? 2)
        then right_score s + 1 else right_score s)
  /\ left_score s' = left_score s.
Proof.
  unfold right_paddle_hit, right_hit_rule.
  cbn [last_ball_hit set_ball_x set_ball_dx].
  destruct (last_ball_hit s); cbn; try (repeat split; reflexivity).
  destruct (right_consecutive_hits s + 1 >=? 2); cbn; repeat split; reflexivity.
Qed.

(** ** Coins: collection priority *)

Section CoinPriority.

Variable pf : Platform.

Lemma collect_coin_by_priority (s : State) (c : Coin) :
  collect_coin pf s c = collect_by_priority pf s c.
Proof.
  unfold collect_coin, collect_by_priority, award_last_hit.
  destruct (checkCircleRectCollision _ _ _ _); [reflexivity|].
  destruct (checkRectRectCollision (leftPaddle s) _); [reflexivity|].
  destruct (checkRectRectCollision (rightPaddle s) _); reflexivity.
Qed.

(** One pass of the loop body changes the total score by at most one, and
    only when the coin is taken. *)
Lemma coin_body_total (s : State) (c : Coin) :
  let '(s', fate) := coin_body pf s c in
  left_score s <= left_score s' /\ right_score s <= right_score s'
  /\ score_total s' <= score_total s + 1
  /\ match fate with
     | Kept c' =>
         s' = s /\ c' = mkCoin (coin_x c) (coin_y c) (coin_timer c - 1)
         /\ 0 < coin_timer c'
     | Expired => s' = s /\ coin_timer c - 1 <= 0
     | _ => True
     end.
Proof.
  unfold coin_body. cbn [coin_timer].
  destruct (coin_timer c - 1 <=? 0) eqn:Ht.
  - apply Z.leb_le in Ht. unfold score_total. repeat split; auto; lia.
  - apply Z.leb_gt in Ht. rewrite collect_coin_by_priority.
    unfold collect_by_priority, award_last_hit, score_total.
    destruct (checkCircleRectCollision _ _ _ _).
    + destruct (last_ball_hit s); cbn; repeat split; lia.
    + destruct (checkRectRectCollision (leftPaddle s) _);
        [cbn; repeat split; lia|].
      destruct (checkRectRectCollision (rightPaddle s) _);
        cbn; repeat split; auto; lia.
Qed.

(** Over the whole loop: every coin that adds a point is erased. *)
Lemma coin_loop_total (cs : list Coin) (s : State) :
  let '(s', cs') := coin_loop pf cs s in
  left_score s <= left_score s' /\ right_score s <= right_score s'
  /\ (length cs' <= length cs)%nat
  /\ score_total s' <= score_total s + (Z.of_nat (length cs) - Z.of_nat (length cs')).
Proof.
  revert s. induction cs as [|c rest IH]; intros s; cbn [coin_loop].
  - cbn. unfold score_total. lia.
  - pose proof (coin_body_total s c) as Hb.
    destruct (coin_body pf s c) as [s1 fate].
    specialize (IH s1). destruct (coin_loop pf rest s1) as [s2 rest'].
    destruct Hb as (B1 & B2 & B3 & B4). destruct IH as (I1 & I2 & I3 & I4).
    destruct fate; cbn [length]; try (repeat split; lia).
    destruct B4 as (-> & _ & _). repeat split; lia.
Qed.

(** The loop body is the cascade ball, left paddle, right paddle on the
    aged coin; one pass adds at most one point, none when the ball takes
    the coin with no last hit, and the loop adds at most one point per coin
    it erases. *)
Lemma coin_collected_once (s : State) (c : Coin) (cs : list Coin) :
  coin_body pf s c
  = (let c1 := mkCoin (coin_x c) (coin_y c) (coin_timer c - 1) in
     if coin_timer c1 <=? 0 then (s, Expired)
     else if checkCircleRectCollision (ball_x s) (ball_y s) BALL_RADIUS (coinRect pf c1)
     then (award_last_hit s, CollectedByBall)
     else if checkRectRectCollision (leftPaddle s) (coinRect pf c1)
     then (set_left_score (left_score s + 1) s, CollectedByLeftPaddle)
     else if checkRectRectCollision (rightPaddle s) (coinRect pf c1)
     then (set_right_score (right_score s + 1) s, CollectedByRightPaddle)
     else (s, Kept c1))
  /\ score_total s <= score_total (fst (coin_body pf s c)) <= score_total s + 1
  /\ (last_ball_hit s = LastHit.None ->
      snd (coin_body pf s c) = CollectedByBall ->
      fst (coin_body pf s c) = s)
  /\ score_total s <= score_total (fst (coin_loop pf cs s))
     <= score_total s
        + (Z.of_nat (length cs) - Z.of_nat (length (snd (coin_loop pf cs s)))).
Proof.
  split; [|split; [|split]].
  - unfold coin_body. cbv zeta.
    destruct (_ <=? 0); [reflexivity|]. apply collect_coin_by_priority.
  - pose proof (coin_body_total s c) as H.
    destruct (coin_body pf s c) as [s' fate]. cbn [fst].
    unfold score_total in *. lia.
  - unfold coin_body. cbv zeta. destruct (_ <=? 0); [discriminate|].
    rewrite collect_coin_by_priority. unfold collect_by_priority, award_last_hit.
    intros ->. destruct (checkCircleRectCollision _ _ _ _); [reflexivity|].
    destruct (checkRectRectCollision (leftPaddle s) _); [discriminate|].
    destruct (checkRectRectCollision (rightPaddle s) _); discriminate.
  - pose proof (coin_loop_total cs s) as H.
    destruct (coin_loop pf cs s) as [s' cs']. cbn [fst snd].
    unfold score_total in *. lia.
Qed.

End CoinPriority.

(** ** Coins: lifetime *)

Section CoinLifetime.

Variable pf : Platform.

Lemma coin_body_expires (s : State) (c : Coin) :
  coin_timer c <= 1 -> coin_body pf s c = (s, Expired).
Proof.
  intros H. unfold coin_body. cbn [coin_timer].
  destruct (coin_timer c - 1 <=? 0) eqn:Ht; [reflexivity|].
  apply Z.leb_gt in Ht. lia.
Qed.

Lemma coin_body_kept (s : State) (c c' : Coin) :
  snd (coin_body pf s c) = Kept c' ->
  c' = mkCoin (coin_x c) (coin_y c) (coin_timer c - 1)
  /\ 0 < coin_timer c' /\ fst (coin_body pf s c) = s.
Proof.
  pose proof (coin_body_total pf s c) as H.
  destruct (coin_body pf s c) as [s' fate]. cbn [fst snd]. intros ->.
  destruct H as (_ & _ & _ & -> & -> & Hpos). auto.
Qed.

Lemma coin_body_not_expired (s : State) (c : Coin) :
  1 < coin_timer c -> snd (coin_body pf s c) <> Expired.
Proof.
  intros H. unfold coin_body. cbn [coin_timer].
  destruct (coin_timer c - 1 <=? 0) eqn:Ht; [apply Z.leb_le in Ht; lia|].
  rewrite collect_coin_by_priority. unfold collect_by_priority.
  repeat match goal with |- context [if ?b then _ else _] => destruct b end;
    cbn; discriminate.
Qed.

(** The coins left by the loop are coins of the list, one frame older, in
    their order. *)
Lemma coin_loop_survivors (cs : list Coin) (s : State) :
  exists kept : list Coin,
    snd (coin_loop pf cs s)
    = map (fun c => mkCoin (coin_x c) (coin_y c) (coin_timer c - 1)) kept
    /\ (forall c, In c kept -> In c cs /\ 1 < coin_timer c)
    /\ (length kept <= length cs)%nat.
Proof.
  revert s. induction cs as [|c rest IH]; intros s; cbn [coin_loop].
  - exists []. cbn. split; [reflexivity|]. split; [intros c0 []|lia].
  - destruct (coin_body pf s c) as [s1 fate] eqn:Hb.
    destruct (IH s1) as (kept & Hk & Hin & Hlen).
    destruct (coin_loop pf rest s1) as [s2 rest']. cbn [snd] in *.
    destruct fate;
      try (exists kept; split; [exact Hk|];
           split; [intros c0 H0; destruct (Hin c0 H0); split; [now right | assumption]
                  | cbn; lia]).
    exists (c :: kept). assert (Hb' : snd (coin_body pf s c) = Kept c0) by now rewrite Hb.
    destruct (coin_body_kept _ _ _ Hb') as (-> & Hpos & _). cbn [coin_timer] in Hpos.
    split; [cbn; now rewrite Hk|]. split; [|cbn; lia].
    intros c1 [<- | H1]; [split; [now left | lia]|].
    destruct (Hin c1 H1). split; [now right | assumption].
Qed.

End CoinLifetime.

(** ** The randomized serve *)

(** Comparisons of floats that are numbers are total: what is not below a
    bound is at least the bound. *)
Lemma not_below_is_at_least (x t : float) :
  F32.is_nan x = false -> F32.is_nan t = false ->
  F32.ltb x t = false -> F32.leb t x = true.
Proof.
  unfold F32.ltb, F32.leb, SFltb, SFleb.
  destruct x as [sx|sx| |sx mx ex], t as [st|st| |st mt et];
    cbn; try discriminate; try reflexivity;
    try (destruct sx; try destruct st; cbn; intros; congruence);
    try (destruct st; cbn; intros; congruence).
  intros _ _.
  pose proof (Pos.compare_cont_antisym mx mt Eq) as Hm. cbn in Hm.
  rewrite (Z.compare_antisym ex et), <- Hm.
  destruct sx, st; try (intros; congruence);
    destruct (ex ?= et); cbn; try (intros; congruence);
    destruct (Pos.compare_cont Eq mx mt); cbn; intros; congruence.
Qed.

Section Serve.

Variable pf : Platform.

(** Where the loop stops, the angle is accepted; the draws before it were
    rejected. *)
Lemma pick_angle_accepts (fuel : nat) :
  forall (n n' : nat) (angle : float),
  pick_angle pf fuel n = Some (angle, n') ->
  angle_accepted pf angle
  /\ exists k, (n <= k)%nat /\ n' = S k /\ angle = random_angle pf (rand pf k)
       /\ forall j, (n <= j < k)%nat ->
            too_close_to_axis pf (random_angle pf (rand pf j)) = true.
Proof.
  induction fuel as [|fuel IH]; intros n n' angle H; cbn in H; [discriminate|].
  destruct (too_close_to_axis pf (random_angle pf (rand pf n))) eqn:Hc.
  - destruct (IH _ _ _ H) as (Ha & k & Hk & Hn & Hang & Hrej).
    split; [exact Ha|]. exists k. repeat split; auto; try lia.
    intros j Hj. destruct (Nat.eq_dec j n) as [->|Hne]; [exact Hc|].
    apply Hrej. lia.
  - injection H as <- <-. split.
    + unfold too_close_to_axis in Hc. apply orb_false_iff in Hc. exact Hc.
    + exists n. repeat split; auto. intros j Hj. lia.
Qed.

(** The loop ends as soon as a draw is accepted: with an accepted draw
    among the next [fuel] ones, an angle is returned. *)
Lemma pick_angle_terminates (fuel n k : nat) :
  (k < fuel)%nat ->
  too_close_to_axis pf (random_angle pf (rand pf (n + k))) = false ->
  exists angle n', pick_angle pf fuel n = Some (angle, n').
Proof.
  revert n k. induction fuel as [|fuel IH]; intros n k Hk Hacc; [lia|].
  cbn. destruct (too_close_to_axis pf (random_angle pf (rand pf n))) eqn:Hc.
  - destruct k as [|k]; [rewrite Nat.add_0_r in Hacc; congruence|].
    apply (IH (S n) k); [lia|]. now replace (S n + k)%nat with (n + S k)%nat by lia.
  - eauto.
Qed.

(** Whenever the main loop assigns a direction to the ball, at a launch
    or at a miss-reset, it is what [serve_direction] makes of an angle drawn
    by [rand] that the rejection loop accepted.  A launch happens only for a
    pointer-down event within the ball radius while both direction
    components are exactly zero; any other event leaves the state alone. *)
Lemma serve_keeps_off_axes (fuel : nat) (how : Serve) (s s' : State) :
  serve_happens pf fuel how s s' ->
  launch_condition how s
  /\ (exists angle k,
        angle = random_angle pf (rand pf k)
        /\ F32.ltb (F32.abs (sinf pf angle)) SERVE_TOLERANCE = false
        /\ F32.ltb (F32.abs (cosf pf angle)) SERVE_TOLERANCE = false
        /\ (F32.is_nan (sinf pf angle) = false ->
            F32.leb SERVE_TOLERANCE (F32.abs (sinf pf angle)) = true)
        /\ (F32.is_nan (cosf pf angle) = false ->
            F32.leb SERVE_TOLERANCE (F32.abs (cosf pf angle)) = true)
        /\ (ball_dx s', ball_dy s') = serve_direction pf angle)
  /\ (forall e0 s0 s0', handle_event pf fuel e0 s0 = Some (s0', false) -> s0' = s0).
Proof.
  intros H.
  assert (Hangle : forall n angle n',
            pick_angle pf fuel n = Some (angle, n') ->
            exists angle0 k,
              angle0 = random_angle pf (rand pf k)
              /\ F32.ltb (F32.abs (sinf pf angle0)) SERVE_TOLERANCE = false
              /\ F32.ltb (F32.abs (cosf pf angle0)) SERVE_TOLERANCE = false
              /\ (F32.is_nan (sinf pf angle0) = false ->
                  F32.leb SERVE_TOLERANCE (F32.abs (sinf pf angle0)) = true)
              /\ (F32.is_nan (cosf pf angle0) = false ->
                  F32.leb SERVE_TOLERANCE (F32.abs (cosf pf angle0)) = true)
              /\ serve_direction pf angle = serve_direction pf angle0).
  { intros n angle n' Hp.
    destruct (pick_angle_accepts _ _ _ _ Hp) as ([Hs Hc] & k & _ & _ & Ha & _).
    exists angle, k. repeat split; auto.
    - intros Hn. apply not_below_is_at_least; auto.
      destruct (sinf pf angle); [reflexivity | reflexivity | discriminate | reflexivity].
    - intros Hn. apply not_below_is_at_least; auto.
      destruct (cosf pf angle); [reflexivity | reflexivity | discriminate | reflexivity]. }
  split; [|split].
  - destruct how as [e|edge]; cbn [serve_happens launch_condition] in *; [|exact I].
    unfold handle_event in H.
    destruct e as [|mouseX mouseY|]; try discriminate.
    destruct (launch_test mouseX mouseY s) eqn:Hl; [|discriminate].
    unfold launch_test in Hl. apply andb_true_iff in Hl. destruct Hl as [Hz Hd].
    apply andb_true_iff in Hz. destruct Hz as [Hzx Hzy].
    exists mouseX, mouseY. auto.
  - destruct how as [e|edge]; cbn [serve_happens] in H.
    + unfold handle_event in H.
      destruct e as [|mouseX mouseY|]; try discriminate.
      destruct (launch_test mouseX mouseY s); [|discriminate].
      unfold launch in H.
      destruct (pick_angle pf fuel (rand_calls s)) as [[angle n]|] eqn:Hp; [|discriminate].
      injection H as <-.
      destruct (Hangle _ _ _ Hp) as (a0 & k & E1 & E2 & E3 & E4 & E5 & E6).
      exists a0, k. rewrite <- E6. cbn.
      destruct (serve_direction pf angle). repeat split; auto.
    + destruct H as [He H]. unfold out_of_bounds in H. rewrite He in H.
      assert (Hr : exists s0, reset_ball pf fuel s0 = Some s').
      { destruct edge; eauto. }
      destruct Hr as [s0 Hr]. unfold reset_ball in Hr.
      destruct (pick_angle pf fuel _) as [[angle n]|] eqn:Hp; [|discriminate].
      injection Hr as <-.
      destruct (Hangle _ _ _ Hp) as (a0 & k & E1 & E2 & E3 & E4 & E5 & E6).
      exists a0, k. rewrite <- E6. cbn.
      destruct (serve_direction pf angle). repeat split; auto.
  - intros e0 s0 s0' H0. unfold handle_event in H0.
    destruct e0 as [|mouseX mouseY|]; try (now injection H0 as <-).
    destruct (launch_test mouseX mouseY s0); [|now injection H0 as <-].
    destruct (launch pf fuel s0); discriminate.
Qed.

End Serve.

(** ** Coins: spawning *)

Lemma box_origin (n h : Z) :
  0 <= h <= n -> n < WINDOW_WIDTH ->
  F32.to_int (F32.sub (F32.of_int n) (F32.of_int h)) = n - h.
Proof.
  intros Hh Hn. unfold WINDOW_WIDTH in Hn.
  assert (Hall : forall m, 0 <= m < 0 + Z.of_nat 800 -> box_origin_exact m = true).
  { apply Z_range_forallb. vm_compute. reflexivity. }
  assert (Hm : box_origin_exact n = true) by (apply Hall; cbn; lia).
  unfold box_origin_exact in Hm.
  apply Z.eqb_eq.
  apply (Z_range_forallb _ 0 (Z.to_nat (n + 1)) Hm h).
  rewrite Z2Nat.id; lia.
Qed.

Section CoinSpawn.

Variable pf : Platform.

(** [rand()] never returns a negative number; the rendered coin is not
    empty, narrower than the gap between the paddles and lower than the
    window. *)
Hypothesis rand_nonneg : forall n, 0 <= rand pf n.
Hypothesis coin_width_fits :
  0 < coinEffectiveWidth pf < WINDOW_WIDTH - 2 * PADDLE_WIDTH.
Hypothesis coin_height_fits : 0 < coinEffectiveHeight pf < WINDOW_HEIGHT.

Lemma spawnCoin_appends (s : State) :
  exists c, coins (spawnCoin pf s) = coins s ++ [c] /\ fresh_coin pf c.
Proof.
  unfold spawnCoin. cbn [coins set_coins set_rand_calls].
  eexists. split; [reflexivity|].
  unfold fresh_coin, box_in_field, coinRect. cbn [coin_x coin_y coin_timer rect_x rect_y rect_w rect_h].
  destruct coin_width_fits as [Hw0 Hw1]. destruct coin_height_fits as [Hh0 Hh1].
  unfold WINDOW_WIDTH, WINDOW_HEIGHT, PADDLE_WIDTH in *.
  set (W := coinEffectiveWidth pf) in *. set (H := coinEffectiveHeight pf) in *.
  pose proof (rand_nonneg (rand_calls s)) as Hr1.
  pose proof (rand_nonneg (S (rand_calls s))) as Hr2.
  assert (Hx : 0 <= Z.rem (rand pf (rand_calls s)) (800 - 2 * 20 - W) < 800 - 2 * 20 - W).
  { rewrite Z.rem_mod_nonneg by lia. apply Z.mod_pos_bound. lia. }
  assert (Hy : 0 <= Z.rem (rand pf (S (rand_calls s))) (600 - H) < 600 - H).
  { rewrite Z.rem_mod_nonneg by lia. apply Z.mod_pos_bound. lia. }
  assert (Hqw : 0 <= Z.quot W 2 /\ 2 * Z.quot W 2 <= W).
  { rewrite Z.quot_div_nonneg by lia. split; [apply Z.div_pos; lia|].
    apply Z.mul_div_le. lia. }
  assert (Hqh : 0 <= Z.quot H 2 /\ 2 * Z.quot H 2 <= H).
  { rewrite Z.quot_div_nonneg by lia. split; [apply Z.div_pos; lia|].
    apply Z.mul_div_le. lia. }
  rewrite !box_origin by (unfold WINDOW_WIDTH; lia).
  split; [reflexivity|]. split; [lia|].
  eexists _, _. split; [reflexivity|]. split; [reflexivity|]. lia.
Qed.

(** The spawn step: the counter goes up by one, and on reaching the
    interval one coin is appended and the counter starts again. *)
Lemma coin_spawn_step (s : State) :
  if coin_spawn_timer s + 1 >=? COIN_APPEAR_INTERVAL_FRAMES
  then snd (coin_spawn pf s) = true
       /\ coin_spawn_timer (fst (coin_spawn pf s)) = 0
       /\ exists c, coins (fst (coin_spawn pf s)) = coins s ++ [c] /\ fresh_coin pf c
  else snd (coin_spawn pf s) = false
       /\ coin_spawn_timer (fst (coin_spawn pf s)) = coin_spawn_timer s + 1
       /\ coins (fst (coin_spawn pf s)) = coins s.
Proof.
  unfold coin_spawn. cbn [coin_spawn_timer set_coin_spawn_timer].
  destruct (coin_spawn_timer s + 1 >=? COIN_APPEAR_INTERVAL_FRAMES); cbn [fst snd].
  - split; [reflexivity|]. split; [reflexivity|].
    destruct (spawnCoin_appends (set_coin_spawn_timer (coin_spawn_timer s + 1) s))
      as (c & Hc & Hf).
    exists c. split; [|exact Hf].
    cbn [coins set_coin_spawn_timer]. exact Hc.
  - repeat split.
Qed.

(** The coin part of a frame: the state reaching the spawn step has the
    coins and the counter of the start of the frame. *)
Lemma frame_coins (fuel : nat) (i : Input) (s s' : State) (lg : FrameLog) :
  frame pf fuel i s = Some (s', lg) ->
  exists s7, coins s7 = coins s /\ coin_spawn_timer s7 = coin_spawn_timer s
             /\ coin_spawned lg = snd (coin_spawn pf s7)
             /\ s' = coin_update pf (fst (coin_spawn pf s7)).
Proof.
  intros H. frame_inv H. exists (boost_logic r2 s6).
  rewrite Hspawn. cbn [fst snd coin_spawned].
  destruct (boost_logic_keeps r2 s6) as (_ & _ & _ & _ & _ & _ & B7 & B8 & _).
  destruct (out_of_bounds_cases _ _ _ _ Hbounds) as (_ & _ & O3 & O4 & _).
  pose proof (paddle_collisions_keeps s4 r1) as Hk. rewrite Hpaddle in Hk.
  cbn [fst] in Hk. destruct Hk as (_ & _ & _ & _ & _ & _ & P7 & P8 & _).
  pose proof (wall_collisions_keeps
                (ball_movement (paddle_movement (currentKeyStates i) s1))) as Hk.
  rewrite Hwall in Hk. cbn [fst] in Hk.
  destruct Hk as (_ & _ & _ & _ & _ & _ & W7 & W8 & _). cbn in W7, W8.
  destruct (event_handling_keeps _ _ _ _ _ _ Hevents)
    as (_ & _ & _ & _ & _ & _ & E5 & E6 & _).
  repeat split; congruence.
Qed.

Lemma coin_update_no_coins (s : State) :
  coins s = [] -> coins (coin_update pf s) = []
                  /\ coin_spawn_timer (coin_update pf s) = coin_spawn_timer s.
Proof.
  intros H. unfold coin_update. rewrite H. cbn. auto.
Qed.

(** Before the counter reaches the interval no coin appears. *)
Lemma run_before_first_coin (fuel : nat) (inputs : list Input) :
  forall (s s' : State) (logs : list FrameLog),
  run pf fuel inputs s = Some (s', logs) ->
  coins s = [] -> 0 <= coin_spawn_timer s ->
  coin_spawn_timer s + Z.of_nat (length inputs) < COIN_APPEAR_INTERVAL_FRAMES ->
  coins s' = []
  /\ coin_spawn_timer s' = coin_spawn_timer s + Z.of_nat (length inputs)
  /\ Forall (fun lg => coin_spawned lg = false) logs.
Proof.
  induction inputs as [|i rest IH]; intros s s' logs Hrun Hc Ht Hlen; cbn [run] in Hrun.
  - injection Hrun as <- <-. cbn. repeat split; auto; lia.
  - destruct (frame pf fuel i s) as [[s1 lg]|] eqn:Hf; [|discriminate].
    destruct (run pf fuel rest s1) as [[s2 lgs]|] eqn:Hr; [|discriminate].
    injection Hrun as <- <-.
    destruct (frame_coins _ _ _ _ _ Hf) as (s7 & C1 & C2 & C3 & C4).
    pose proof (coin_spawn_step s7) as Hstep.
    cbn [length] in Hlen. rewrite Nat2Z.inj_succ in Hlen.
    destruct (coin_spawn_timer s7 + 1 >=? COIN_APPEAR_INTERVAL_FRAMES) eqn:Hge.
    { rewrite Z.geb_leb in Hge. apply Z.leb_le in Hge. lia. }
    destruct Hstep as (S1 & S2 & S3).
    destruct (coin_update_no_coins (fst (coin_spawn pf s7))) as [U1 U2];
      [congruence|].
    rewrite <- C4 in U1, U2.
    destruct (IH _ _ _ Hr U1) as (I1 & I2 & I3); [lia | lia |].
    split; [exact I1|]. split.
    + cbn [length]. rewrite Nat2Z.inj_succ. lia.
    + constructor; [congruence | exact I3].
Qed.

(** C8, as amended. Each frame the spawn step adds exactly one to the
    counter; when that reaches 300 the step appends exactly one coin with
    lifetime 600, its box between the paddle margins and inside the window,
    its centre at least half a coin from top and bottom, and the counter
    restarts at 0.  From program start the list is empty through frames 1 to
    299; in frame 300 the spawn step leaves exactly one coin, which the coin
    loop of the same frame ages by one and keeps, unless it overlaps the ball
    or a paddle and is collected at once: frame 300 ends with at most one
    coin. *)
Theorem first_coin_at_frame_300 (fuel : nat) (inputs : list Input)
    (s : State) (logs : list FrameLog) :
  run pf fuel inputs initial_state = Some (s, logs) ->
  (length inputs < 300)%nat ->
  (coins s = [] /\ coin_spawn_timer s = Z.of_nat (length inputs)
   /\ Forall (fun lg => coin_spawned lg = false) logs)
  /\ (length inputs = 299%nat ->
      forall fuel' i s' lg,
        frame pf fuel' i s = Some (s', lg) ->
        coin_spawned lg = true /\ coin_spawn_timer s' = 0
        /\ exists s8 c,
             coins s8 = [c] /\ fresh_coin pf c
             /\ s' = coin_update pf s8
             /\ coins s' = match snd (coin_body pf s8 c) with
                           | Kept c' => [c']
                           | _ => []
                           end
             /\ (length (coins s') <= 1)%nat)
  /\ (forall s0,
        if coin_spawn_timer s0 + 1 >=? COIN_APPEAR_INTERVAL_FRAMES
        then snd (coin_spawn pf s0) = true
             /\ coin_spawn_timer (fst (coin_spawn pf s0)) = 0
             /\ exists c, coins (fst (coin_spawn pf s0)) = coins s0 ++ [c]
                          /\ fresh_coin pf c
        else snd (coin_spawn pf s0) = false
             /\ coin_spawn_timer (fst (coin_spawn pf s0)) = coin_spawn_timer s0 + 1
             /\ coins (fst (coin_spawn pf s0)) = coins s0).
Proof.
  intros Hrun Hlen.
  destruct (run_before_first_coin _ _ _ _ _ Hrun) as (R1 & R2 & R3);
    try reflexivity; try (unfold COIN_APPEAR_INTERVAL_FRAMES; cbn; lia).
  cbn in R2.
  split; [auto|]. split; [|exact coin_spawn_step].
  intros H299 fuel' i s' lg Hf.
  destruct (frame_coins _ _ _ _ _ Hf) as (s7 & C1 & C2 & C3 & C4).
  pose proof (coin_spawn_step s7) as Hstep.
  rewrite C2, R2, H299 in Hstep. cbn in Hstep.
  destruct Hstep as (S1 & S2 & c & S3 & S4).
  rewrite C1, R1 in S3. cbn in S3.
  split; [congruence|].
  destruct (coin_update_keeps pf (fst (coin_spawn pf s7)))
    as (_ & _ & _ & _ & _ & _ & _ & _ & U9 & _).
  split; [rewrite C4; cbv zeta in U9; congruence|].
  exists (fst (coin_spawn pf s7)), c.
  split; [exact S3|]. split; [exact S4|]. split; [exact C4|].
  assert (Hc : coins s' = match snd (coin_body pf (fst (coin_spawn pf s7)) c) with
                          | Kept c' => [c']
                          | _ => []
                          end).
  { rewrite C4. unfold coin_update. rewrite S3. cbn [coin_loop].
    destruct (coin_body pf (fst (coin_spawn pf s7)) c) as [s1 fate].
    cbn [snd coins set_coins]. destruct fate; reflexivity. }
  split; [exact Hc|]. rewrite Hc.
  destruct (snd (coin_body pf (fst (coin_spawn pf s7)) c)); cbn; lia.
Qed.

End CoinSpawn.

(** ** The statements at concrete inputs *)

Lemma lcg_rand_nonneg (seed : Z) (n : nat) : 0 <= Sample.lcg_rand seed n.
Proof. unfold Sample.lcg_rand. apply Z.mod_pos_bound. reflexivity. Qed.


(** C6 at [bounce_state]: the ball crosses the bottom wall. *)
Lemma wall_collision_witness :
  crosses_wall bounce_state Bottom
  /\ ball_y (fst (wall_collisions (ball_movement bounce_state)))
     = F32.of_int (WINDOW_HEIGHT - BALL_RADIUS)
  /\ F32.ltb (ball_dy (fst (wall_collisions (ball_movement bounce_state))))
             (F32.of_int 0) = true.
Proof.
  assert (Hc : crosses_wall bounce_state Bottom) by (split; vm_compute; reflexivity).
  split; [exact Hc|].
  destruct (wall_collision_clamps_and_turns bounce_state Bottom Hc) as (Hy & Hd & _).
  split; [exact Hy | exact Hd].
Defined.


(** C10 at the state reached by a bounce off the bottom wall, three frames
    after the launch click. *)
Lemma ball_speed_witness :
  reachable (Sample.platform 1)
    (run_state (Sample.platform 1) 10 (launch_click :: repeat idle 90) initial_state)
  /\ F32.ltb (F32.of_int 0)
       (current_ball_speed
          (run_state (Sample.platform 1) 10 (launch_click :: repeat idle 90)
             initial_state)) = true.
Proof.
  assert (Hr : reachable (Sample.platform 1)
                 (run_state (Sample.platform 1) 10 (launch_click :: repeat idle 90)
                    initial_state)).
  { apply (run_reachable (Sample.platform 1) 10 (launch_click :: repeat idle 90)
             initial_state _
             (run_logs (Sample.platform 1) 10 (launch_click :: repeat idle 90)
                initial_state)).
    - apply reachable_init.
    - vm_compute. reflexivity. }
  split; [exact Hr|].
  destruct (ball_speed_two_valued (Sample.platform 1) _ Hr) as (_ & Hpos & _).
  exact Hpos.
Defined.

(** C1 at [corner_state]: the ball touches the bottom wall and leaves past
    the left edge in one frame; the right player scores, the ball is back at
    the centre, and the frame ends boosted with the timer running. *)
Lemma miss_with_wall_bounce_witness :
  wall_touched (frame_log (Sample.platform 1) 10 idle corner_state) = Some Bottom
  /\ edge_crossed (frame_log (Sample.platform 1) 10 idle corner_state) = Some LeftEdge
  /\ right_score (frame_state (Sample.platform 1) 10 idle corner_state)
     = right_score corner_state + 1
  /\ current_ball_speed (frame_state (Sample.platform 1) 10 idle corner_state)
     <> INITIAL_BALL_SPEED
  /\ ball_boost_timer (frame_state (Sample.platform 1) 10 idle corner_state) <> 0.
Proof.
  assert (Hf : frame (Sample.platform 1) 10 idle corner_state
               = Some (frame_state (Sample.platform 1) 10 idle corner_state,
                       frame_log (Sample.platform 1) 10 idle corner_state))
    by (vm_compute; reflexivity).
  assert (Hw : wall_touched (frame_log (Sample.platform 1) 10 idle corner_state)
               = Some Bottom) by (vm_compute; reflexivity).
  assert (He : edge_crossed (frame_log (Sample.platform 1) 10 idle corner_state)
               = Some LeftEdge) by (vm_compute; reflexivity).
  destruct (miss_with_wall_bounce_ends_boosted (Sample.platform 1) 10 idle
              corner_state _ _ Bottom LeftEdge Hf Hw He) as (_ & Hv & _ & Ht).
  split; [exact Hw|]. split; [exact He|].
  split; [vm_compute; reflexivity|]. split; [exact Hv | exact Ht].
Defined.

(** C8 with the sample platform: 299 idle frames from program start. *)
Lemma first_coin_witness :
  coins (run_state (Sample.platform 1) 10 (repeat idle 299) initial_state) = []
  /\ coin_spawned (frame_log (Sample.platform 1) 10 idle
                     (run_state (Sample.platform 1) 10 (repeat idle 299) initial_state))
     = true.
Proof.
  assert (Hrand : forall n, 0 <= rand (Sample.platform 1) n)
    by (intros n; apply lcg_rand_nonneg).
  assert (Hw : 0 < coinEffectiveWidth (Sample.platform 1)
               < WINDOW_WIDTH - 2 * PADDLE_WIDTH) by (split; vm_compute; reflexivity).
  assert (Hh : 0 < coinEffectiveHeight (Sample.platform 1) < WINDOW_HEIGHT)
    by (split; vm_compute; reflexivity).
  assert (Hrun : run (Sample.platform 1) 10 (repeat idle 299) initial_state
                 = Some (run_state (Sample.platform 1) 10 (repeat idle 299) initial_state,
                         run_logs (Sample.platform 1) 10 (repeat idle 299) initial_state))
    by (vm_compute; reflexivity).
  assert (Hlen : (length (repeat idle 299) < 300)%nat)
    by (rewrite repeat_length; repeat constructor).
  destruct (first_coin_at_frame_300 (Sample.platform 1) Hrand Hw Hh 10
              (repeat idle 299) _ _ Hrun Hlen) as ((Hempty & _) & H300 & _).
  split; [exact Hempty|].
  assert (Hf : frame (Sample.platform 1) 10 idle
                 (run_state (Sample.platform 1) 10 (repeat idle 299) initial_state)
               = Some (frame_state (Sample.platform 1) 10 idle
                         (run_state (Sample.platform 1) 10 (repeat idle 299) initial_state),
                       frame_log (Sample.platform 1) 10 idle
                         (run_state (Sample.platform 1) 10 (repeat idle 299) initial_state)))
    by (vm_compute; reflexivity).
  destruct (H300 (repeat_length idle 299) 10%nat idle _ _ Hf) as (Hsp & _).
  exact Hsp.
Defined.

(** C8 as stated fails when the coin spawns on the ball: with [rand()]
    returning 368 and 288 the coin of frame 300 is centred on the resting ball
    and collected in that same frame, so the list is empty after frame 300.
    And with [rand()] returning 0 the box of the coin starts at the window's
    top edge, not half a coin (12 pixels) below it. *)
Lemma coin_spawned_on_ball_is_gone :
  run on_ball_draws 10 (repeat idle 300) initial_state
  = Some (run_state on_ball_draws 10 (repeat idle 300) initial_state,
          run_logs on_ball_draws 10 (repeat idle 300) initial_state)
  /\ map coin_spawned (run_logs on_ball_draws 10 (repeat idle 300) initial_state)
     = repeat false 299 ++ [true]
  /\ coins (run_state on_ball_draws 10 (repeat idle 300) initial_state) = []
  /\ rect_y (coinRect top_edge_draws
               (last (coins (spawnCoin top_edge_draws initial_state)) far_coin)) = 0
  /\ Z.quot (coinEffectiveHeight top_edge_draws) 2 = 12.
Proof.
  split; [vm_compute; reflexivity|].
  split; [vm_compute; reflexivity|].
  split; [vm_compute; reflexivity|].
  split; vm_compute; reflexivity.
Qed.

(** ** The coin loop on the list the program keeps *)

Section CoinList.

Variable pf : Platform.

Lemma coinRect_position (c : Coin) (t : Z) :
  coinRect pf (mkCoin (coin_x c) (coin_y c) t) = coinRect pf c.
Proof. reflexivity. Qed.

(** The tests of the loop read ball, paddles and last hit only. *)
Lemma same_but_scores_tests (s0 s : State) (c : Coin) :
  same_but_scores s0 s ->
  ball_overlaps pf s c = ball_overlaps pf s0 c
  /\ left_overlaps pf s c = left_overlaps pf s0 c
  /\ right_overlaps pf s c = right_overlaps pf s0 c
  /\ last_ball_hit s = last_ball_hit s0.
Proof.
  unfold same_but_scores. intros ->.
  unfold ball_overlaps, left_overlaps, right_overlaps. cbn. repeat split.
Qed.

Lemma same_but_scores_points (s0 s : State) (c : Coin) :
  same_but_scores s0 s ->
  coin_survives pf s c = coin_survives pf s0 c
  /\ left_point pf s c = left_point pf s0 c
  /\ right_point pf s c = right_point pf s0 c.
Proof.
  intros H. destruct (same_but_scores_tests s0 s c H) as (Hb & Hl & Hr & Hlast).
  unfold coin_survives, coin_untouched, left_point, right_point.
  rewrite Hb, Hl, Hr, Hlast. repeat split.
Qed.

(** One pass of the loop body, by the three tests. *)
Lemma coin_body_exact (s : State) (c : Coin) :
  snd (coin_body pf s c)
  = (if coin_timer c - 1 <=? 0 then Expired
     else if ball_overlaps pf s c then CollectedByBall
     else if left_overlaps pf s c then CollectedByLeftPaddle
     else if right_overlaps pf s c then CollectedByRightPaddle
     else Kept (age c))
  /\ left_score (fst (coin_body pf s c))
     = left_score s + (if left_point pf s c then 1 else 0)
  /\ right_score (fst (coin_body pf s c))
     = right_score s + (if right_point pf s c then 1 else 0).
Proof.
  unfold coin_body, left_point, right_point, ball_overlaps, left_overlaps,
    right_overlaps, age.
  cbn [coin_timer].
  destruct (coin_timer c - 1 <=? 0) eqn:Ht.
  - apply Z.leb_le in Ht.
    assert (H0 : (0 <? coin_timer c - 1) = false) by (apply Z.ltb_ge; lia).
    rewrite H0. cbn. repeat split; lia.
  - apply Z.leb_gt in Ht.
    assert (H0 : (0 <? coin_timer c - 1) = true) by (apply Z.ltb_lt; lia).
    rewrite H0. rewrite collect_coin_by_priority.
    unfold collect_by_priority, award_last_hit.
    rewrite !coinRect_position.
    destruct (checkCircleRectCollision _ _ _ _).
    + destruct (last_ball_hit s); cbn; repeat split; lia.
    + destruct (checkRectRectCollision (leftPaddle s) _); [cbn; repeat split; lia|].
      destruct (checkRectRectCollision (rightPaddle s) _); cbn; repeat split; lia.
Qed.

Lemma coin_body_survivor (s : State) (c : Coin) :
  match snd (coin_body pf s c) with
  | Kept c' => coin_survives pf s c = true /\ c' = age c
  | _ => coin_survives pf s c = false
  end.
Proof.
  destruct (coin_body_exact s c) as (Hf & _). rewrite Hf.
  unfold coin_survives, coin_untouched.
  destruct (coin_timer c - 1 <=? 0) eqn:Ht.
  - apply Z.leb_le in Ht.
    assert (H0 : (0 <? coin_timer c - 1) = false) by (apply Z.ltb_ge; lia).
    now rewrite H0.
  - apply Z.leb_gt in Ht.
    assert (H0 : (0 <? coin_timer c - 1) = true) by (apply Z.ltb_lt; lia).
    rewrite H0.
    destruct (ball_overlaps pf s c); [reflexivity|].
    destruct (left_overlaps pf s c); [reflexivity|].
    destruct (right_overlaps pf s c); cbn; auto.
Qed.

(** The loop over a list [cs], started in a state that differs from [s0]
    in the scores at most: the survivors are the aged coins that pass
    [coin_survives], each score grows by the number of its points. *)
Lemma coin_loop_exact (cs : list Coin) :
  forall s0 s : State,
  same_but_scores s0 s ->
  snd (coin_loop pf cs s) = map age (filter (coin_survives pf s0) cs)
  /\ left_score (fst (coin_loop pf cs s))
     = left_score s + count_where (left_point pf s0) cs
  /\ right_score (fst (coin_loop pf cs s))
     = right_score s + count_where (right_point pf s0) cs.
Proof.
  unfold count_where.
  induction cs as [|c rest IH]; intros s0 s Hs; cbn [coin_loop].
  - cbn. repeat split; lia.
  - pose proof (coin_body_same pf s c) as Hb.
    destruct (coin_body_exact s c) as (_ & Hl & Hr).
    pose proof (coin_body_survivor s c) as Hk.
    destruct (same_but_scores_points s0 s c Hs) as (Es & El & Er).
    rewrite Es in Hk. rewrite El in Hl. rewrite Er in Hr.
    destruct (coin_body pf s c) as [s1 fate]. cbn [fst snd] in *.
    assert (Hs1 : same_but_scores s0 s1) by (eapply same_but_scores_trans; eauto).
    destruct (IH s0 s1 Hs1) as (I1 & I2 & I3).
    destruct (coin_loop pf rest s1) as [s2 rest']. cbn [fst snd] in *.
    cbn [filter]. rewrite I2, I3, Hl, Hr.
    destruct fate as [| | | |c'].
    + rewrite Hk. split; [exact I1|].
      destruct (left_point pf s0 c), (right_point pf s0 c); cbn [length]; lia.
    + rewrite Hk. split; [exact I1|].
      destruct (left_point pf s0 c), (right_point pf s0 c); cbn [length]; lia.
    + rewrite Hk. split; [exact I1|].
      destruct (left_point pf s0 c), (right_point pf s0 c); cbn [length]; lia.
    + rewrite Hk. split; [exact I1|].
      destruct (left_point pf s0 c), (right_point pf s0 c); cbn [length]; lia.
    + destruct Hk as [Hk ->]. rewrite Hk. cbn [map]. split; [now rewrite I1|].
      destruct (left_point pf s0 c), (right_point pf s0 c); cbn [length]; lia.
Qed.

(** The coin step of a frame, on the state it starts from. *)
Lemma coin_update_exact (s : State) :
  coins (coin_update pf s) = coins_after_loop pf s
  /\ left_score (coin_update pf s) = left_score_after_loop pf s
  /\ right_score (coin_update pf s) = right_score_after_loop pf s.
Proof.
  unfold coin_update, coins_after_loop, left_score_after_loop, right_score_after_loop.
  destruct (coin_loop_exact (coins s) s s (same_but_scores_refl s)) as (H1 & H2 & H3).
  destruct (coin_loop pf (coins s) s) as [s1 cs]. cbn [fst snd] in *.
  cbn. auto.
Qed.

(** A coin gives at most one point, and only when it leaves the list; a
    coin out of lifetime gives none. *)
Lemma coin_points (s : State) (c : Coin) :
  (left_point pf s c && right_point pf s c = false)
  /\ (left_point pf s c || right_point pf s c = true -> coin_survives pf s c = false)
  /\ (coin_timer c <= 1 ->
      coin_survives pf s c = false
      /\ left_point pf s c = false /\ right_point pf s c = false)
  /\ (last_ball_hit s = LastHit.None -> ball_overlaps pf s c = true ->
      left_point pf s c = false /\ right_point pf s c = false
      /\ coin_survives pf s c = false).
Proof.
  unfold left_point, right_point, coin_survives, coin_untouched.
  split; [|split; [|split]].
  - destruct (0 <? coin_timer c - 1); [|reflexivity].
    destruct (ball_overlaps pf s c).
    + destruct (last_ball_hit s); reflexivity.
    + destruct (left_overlaps pf s c); reflexivity.
  - destruct (0 <? coin_timer c - 1); [|reflexivity].
    destruct (ball_overlaps pf s c); [reflexivity|].
    destruct (left_overlaps pf s c); [reflexivity|].
    destruct (right_overlaps pf s c); cbn; auto.
  - intros Ht. assert (H0 : (0 <? coin_timer c - 1) = false) by (apply Z.ltb_ge; lia).
    rewrite H0. auto.
  - intros -> ->. destruct (0 <? coin_timer c - 1); auto.
Qed.

(** The coin part of a frame: the list entering the loop is the list of the
    start of the frame, with the new coin appended when one is spawned; the
    loop reads the ball, paddles and last hit the frame ends with. *)
Lemma frame_coin_loop (fuel : nat) (i : Input) (s s' : State) (lg : FrameLog) :
  frame pf fuel i s = Some (s', lg) ->
  exists (s8 : State) (new : list Coin),
    s' = coin_update pf s8
    /\ coins s8 = coins s ++ new
    /\ (if coin_spawned lg
        then exists c, new = [c] /\ coin_timer c = COIN_DURATION_FRAMES
        else new = [])
    /\ ball_x s8 = ball_x s' /\ ball_y s8 = ball_y s'
    /\ leftPaddle s8 = leftPaddle s' /\ rightPaddle s8 = rightPaddle s'
    /\ last_ball_hit s8 = last_ball_hit s'.
Proof.
  intros H. frame_inv H. exists s8.
  destruct (coin_update_keeps pf s8)
    as (U1 & U2 & _ & _ & _ & _ & U7 & U8 & _ & U10 & _).
  assert (Hc : coins (boost_logic r2 s6) = coins s1).
  { destruct (boost_logic_keeps r2 s6) as (_ & _ & _ & _ & _ & _ & B7 & _).
    destruct (out_of_bounds_cases _ _ _ _ Hbounds) as (_ & _ & O3 & _).
    pose proof (paddle_collisions_keeps s4 r1) as Hk. rewrite Hpaddle in Hk.
    cbn [fst] in Hk. destruct Hk as (_ & _ & _ & _ & _ & _ & P7 & _).
    pose proof (wall_collisions_keeps
                  (ball_movement (paddle_movement (currentKeyStates i) s1))) as Hk.
    rewrite Hwall in Hk. cbn [fst] in Hk.
    destruct Hk as (_ & _ & _ & _ & _ & _ & W7 & _). cbn in W7. congruence. }
  destruct (event_handling_keeps _ _ _ _ _ _ Hevents)
    as (_ & _ & _ & _ & _ & _ & E5 & _).
  unfold coin_spawn in Hspawn.
  cbn [coin_spawn_timer set_coin_spawn_timer] in Hspawn.
  destruct (coin_spawn_timer (boost_logic r2 s6) + 1 >=? COIN_APPEAR_INTERVAL_FRAMES).
  - injection Hspawn as <- <-. eexists. split; [reflexivity|].
    cbn [coin_spawned]. unfold spawnCoin.
    cbn [coins set_coins set_coin_spawn_timer set_rand_calls].
    split; [rewrite Hc, E5; reflexivity|].
    split; [eexists; split; reflexivity|].
    cbv zeta in *. repeat split; symmetry; assumption.
  - injection Hspawn as <- <-. exists []. split; [reflexivity|].
    cbn [coin_spawned coins set_coin_spawn_timer].
    split; [rewrite app_nil_r, Hc, E5; reflexivity|].
    split; [reflexivity|].
    cbv zeta in *. repeat split; symmetry; assumption.
Qed.

End CoinList.

Section CoinClaims.

Variable pf : Platform.









(** C4. In every frame the coin loop works on the list of the start of the
    frame, with the coin spawned in the frame appended.  Each coin is tested
    once, in the order ball, left paddle, right paddle, and the first match
    takes it: the frame ends with exactly the coins that had lifetime left
    and matched nothing, aged by one; the left score has grown by the number
    of live coins taken by the ball after a left hit or (the ball not
    touching them) by the left paddle, the right score likewise; a coin
    taken by the ball with no last hit gives no point even if a paddle
    overlaps it.  No coin gives more than one point, a coin that gives a
    point is not in the list any more, and the total score grows by at most
    the number of coins erased. *)
Theorem coins_collected_by_priority
    (fuel : nat) (i : Input) (s s' : State) (lg : FrameLog) :
  frame pf fuel i s = Some (s', lg) ->
  exists (s8 : State) (new : list Coin),
    s' = coin_update pf s8
    /\ coins s8 = coins s ++ new
    /\ (if coin_spawned lg then exists c, new = [c] else new = [])
    /\ coins s' = map age (filter (coin_survives pf s8) (coins s8))
    /\ left_score s' = left_score s8 + count_where (left_point pf s8) (coins s8)
    /\ right_score s' = right_score s8 + count_where (right_point pf s8) (coins s8)
    /\ (forall c,
          left_point pf s8 c && right_point pf s8 c = false
          /\ (left_point pf s8 c || right_point pf s8 c = true ->
              coin_survives pf s8 c = false)
          /\ (last_ball_hit s8 = LastHit.None -> ball_overlaps pf s8 c = true ->
              left_point pf s8 c = false /\ right_point pf s8 c = false
              /\ coin_survives pf s8 c = false))
    /\ (forall c,
          coin_body pf s8 c
          = (let c1 := mkCoin (coin_x c) (coin_y c) (coin_timer c - 1) in
             if coin_timer c1 <=? 0 then (s8, Expired)
             else if checkCircleRectCollision (ball_x s8) (ball_y s8) BALL_RADIUS
                       (coinRect pf c1)
             then (award_last_hit s8, CollectedByBall)
             else if checkRectRectCollision (leftPaddle s8) (coinRect pf c1)
             then (set_left_score (left_score s8 + 1) s8, CollectedByLeftPaddle)
             else if checkRectRectCollision (rightPaddle s8) (coinRect pf c1)
             then (set_right_score (right_score s8 + 1) s8, CollectedByRightPaddle)
             else (s8, Kept c1)))
    /\ score_total s8 <= score_total s'
       <= score_total s8
          + (Z.of_nat (length (coins s8)) - Z.of_nat (length (coins s'))).
Proof.
  intros Hf.
  destruct (frame_coin_loop pf _ _ _ _ _ Hf) as (s8 & new & Hs' & Hc & Hnew & _).
  exists s8, new.
  destruct (coin_update_exact pf s8) as (U1 & U2 & U3).
  rewrite <- Hs' in U1, U2, U3.
  split; [exact Hs'|]. split; [exact Hc|]. split.
  { destruct (coin_spawned lg); [|exact Hnew].
    destruct Hnew as (c & Hn & _). now exists c. }
  split; [exact U1|]. split; [exact U2|]. split; [exact U3|]. split.
  { intros c. destruct (coin_points pf s8 c) as (P1 & P2 & _ & P4). auto. }
  split.
  { intros c. destruct (coin_collected_once pf s8 c []) as (H & _). exact H. }
  destruct (coin_collected_once pf s8 (mkCoin F32.zero F32.zero 0) (coins s8))
    as (_ & _ & _ & Ht).
  unfold coin_update in Hs'.
  destruct (coin_loop pf (coins s8) s8) as [s9 cs]. cbn [fst snd] in Ht.
  subst s'. unfold score_total in *. cbn in *. lia.
Qed.


End CoinClaims.

(** ** The rally between the paddles *)

Lemma moving_right_facts (x : float) :
  F32.ltb (F32.of_int 0) x = true ->
  F32.eqb x (F32.lit 0 10) = false
  /\ F32.ltb x (F32.of_int 0) = false
  /\ F32.ltb (F32.opp (F32.abs x)) (F32.of_int 0) = true.
Proof.
  change (F32.of_int 0) with (S754_zero false).
  change (F32.lit 0 10) with (S754_zero false).
  destruct x as [sx|sx| |sx mx ex]; try destruct sx; cbn; try discriminate; auto.
Qed.

Lemma moving_left_facts (x : float) :
  F32.ltb x (F32.of_int 0) = true ->
  F32.eqb x (F32.lit 0 10) = false
  /\ F32.ltb (F32.of_int 0) x = false
  /\ F32.ltb (F32.of_int 0) (F32.abs x) = true.
Proof.
  change (F32.of_int 0) with (S754_zero false).
  change (F32.lit 0 10) with (S754_zero false).
  destruct x as [sx|sx| |sx mx ex]; try destruct sx; cbn; try discriminate; auto.
Qed.

Lemma paddle_movement_keeps (k : Keys) (s : State) :
  let s' := paddle_movement k s in
  ball_x s' = ball_x s /\ ball_y s' = ball_y s
  /\ ball_dx s' = ball_dx s /\ ball_dy s' = ball_dy s
  /\ current_ball_speed s' = current_ball_speed s
  /\ left_score s' = left_score s /\ right_score s' = right_score s
  /\ last_ball_hit s' = last_ball_hit s
  /\ left_consecutive_hits s' = left_consecutive_hits s
  /\ right_consecutive_hits s' = right_consecutive_hits s
  /\ rect_x (leftPaddle s') = rect_x (leftPaddle s)
  /\ rect_x (rightPaddle s') = rect_x (rightPaddle s).
Proof.
  unfold paddle_movement. cbn.
  assert (Hx : forall u d r, rect_x (clamp_paddle (move_paddle u d r)) = rect_x r).
  { intros u d r. destruct (clamp_paddle_shape (move_paddle u d r)) as (-> & _).
    unfold move_paddle, paddle_up, paddle_down. destruct u, d; reflexivity. }
  rewrite !Hx. repeat split.
Qed.

Lemma ball_movement_keeps (s : State) :
  let s' := ball_movement s in
  ball_dx s' = ball_dx s
  /\ leftPaddle s' = leftPaddle s /\ rightPaddle s' = rightPaddle s
  /\ left_score s' = left_score s /\ right_score s' = right_score s
  /\ last_ball_hit s' = last_ball_hit s
  /\ left_consecutive_hits s' = left_consecutive_hits s
  /\ right_consecutive_hits s' = right_consecutive_hits s.
Proof. unfold ball_movement. cbn. repeat split. Qed.

Section Rally.

Variable pf : Platform.

(** While the ball moves sideways no click launches it. *)
Lemma event_handling_moving (fuel : nat) (es : list Event) (s : State) :
  F32.eqb (ball_dx s) (F32.lit 0 10) = false ->
  event_handling pf fuel es s = Some (s, false).
Proof.
  intros Hdx. induction es as [|e rest IH]; [reflexivity|].
  cbn [event_handling].
  assert (He : handle_event pf fuel e s = Some (s, false)).
  { unfold handle_event. destruct e; try reflexivity.
    unfold launch_test. now rewrite Hdx. }
  rewrite He, IH. reflexivity.
Qed.

Lemma hit_leaves_ball_in_bounds (s : State) :
  paddles_placed s ->
  edge_test (left_paddle_hit s) = None /\ edge_test (right_paddle_hit s) = None.
Proof.
  intros [Hl Hr]. unfold edge_test.
  assert (Hxl : ball_x (left_paddle_hit s)
                = F32.of_int (rect_x (leftPaddle s) + PADDLE_WIDTH + BALL_RADIUS)).
  { unfold left_paddle_hit, left_hit_rule. cbn [last_ball_hit set_ball_x set_ball_dx].
    destruct (last_ball_hit s); cbn; try reflexivity.
    destruct (left_consecutive_hits s + 1 >=? 2); reflexivity. }
  assert (Hxr : ball_x (right_paddle_hit s)
                = F32.of_int (rect_x (rightPaddle s) - BALL_RADIUS)).
  { unfold right_paddle_hit, right_hit_rule. cbn [last_ball_hit set_ball_x set_ball_dx].
    destruct (last_ball_hit s); cbn; try reflexivity.
    destruct (right_consecutive_hits s + 1 >=? 2); reflexivity. }
  rewrite Hxl, Hxr, Hl, Hr. split; vm_compute; reflexivity.
Qed.

(** One frame of the rally, from a state between frames. *)
Lemma frame_rally (fuel : nat) (i : Input) (s s' : State) (lg : FrameLog) :
  frame pf fuel i s = Some (s', lg) ->
  play_ok s ->
  exists (s4 : State) (r1 : bool),
    before_paddles pf fuel i s = Some (s4, r1)
    /\ paddle_struck lg = paddle_test s4
    /\ rally s4 = rally s
    /\ left_score s4 = left_score s /\ right_score s4 = right_score s
    /\ (paddle_test s4 <> LastHit.None -> last_ball_hit s4 <> paddle_test s4)
    /\ left_score (fst (paddle_collisions s4 r1)) = left_score s4
    /\ right_score (fst (paddle_collisions s4 r1)) = right_score s4
    /\ (paddle_test s4 <> LastHit.None ->
        last_ball_hit (fst (paddle_collisions s4 r1)) = paddle_test s4
        /\ hits_of (paddle_test s4) (fst (paddle_collisions s4 r1)) = 1
        /\ hits_of (opponent (paddle_test s4)) (fst (paddle_collisions s4 r1)) = 0
        /\ edge_crossed lg = None)
    /\ (edge_crossed lg = None -> rally s' = rally (fst (paddle_collisions s4 r1)))
    /\ (paddle_test s4 = LastHit.None -> edge_crossed lg = None -> rally s' = rally s)
    /\ (edge_crossed lg = None ->
        exists s8 : State,
          s' = coin_update pf s8
          /\ left_score s8 = left_score (fst (paddle_collisions s4 r1))
          /\ right_score s8 = right_score (fst (paddle_collisions s4 r1)))
    /\ play_ok s'.
Proof.
  intros H [Hrally Hplaced]. pose proof H as Hframe. frame_inv H.
  destruct (event_handling_keeps _ _ _ _ _ _ Hevents)
    as (E1 & _ & _ & _ & E5 & E6 & _ & _ & E9 & E10 & E11 & E12 & E13).
  (* the event loop keeps the rally, and the direction while it matters *)
  assert (Hr1 : rally_ok s1).
  { unfold rally_ok in *. rewrite E11, E12, E13.
    destruct (last_ball_hit s) eqn:Hl; [exact Hrally| |].
    - destruct Hrally as (Hdx & Hc).
      destruct (moving_right_facts _ Hdx) as (Hz & _).
      rewrite (event_handling_moving fuel (events i) s Hz) in Hevents.
      injection Hevents as <- _. auto.
    - destruct Hrally as (Hdx & Hc).
      destruct (moving_left_facts _ Hdx) as (Hz & _).
      rewrite (event_handling_moving fuel (events i) s Hz) in Hevents.
      injection Hevents as <- _. auto. }
  destruct (paddle_movement_keeps (currentKeyStates i) s1)
    as (_ & _ & M3 & _ & _ & M6 & M7 & M8 & M9 & M10 & M11 & M12).
  pose proof (wall_collisions_keeps
                (ball_movement (paddle_movement (currentKeyStates i) s1))) as Hk.
  rewrite Hwall in Hk. cbn [fst] in Hk.
  destruct Hk as (_ & W2 & _ & _ & W5 & W6 & _ & _ & W9 & W10 & W11 & W12 & W13 & _).
  cbv zeta in W2, W5, W6, W9, W10, W11, W12, W13.
  cbv zeta in M3, M6, M7, M8, M9, M10, M11, M12.
  destruct (ball_movement_keeps (paddle_movement (currentKeyStates i) s1))
    as (V1 & V2 & V3 & V4 & V5 & V6 & V7 & V8).
  cbv zeta in V1, V2, V3, V4, V5, V6, V7, V8.
  assert (Hr4 : rally_ok s4).
  { unfold rally_ok in *.
    rewrite W11, W12, W13, W2, V6, V7, V8, V1, M8, M9, M10, M3. exact Hr1. }
  assert (Hp4 : paddles_placed s4).
  { unfold paddles_placed in *. rewrite W5, W6, V2, V3, M11, M12, E5, E6. exact Hplaced. }
  assert (Hrally4 : rally s4 = rally s).
  { unfold rally. congruence. }
  exists s4, r1.
  split. { unfold before_paddles. rewrite Hevents, Hwall. reflexivity. }
  split; [reflexivity|]. split; [exact Hrally4|].
  split; [congruence|]. split; [congruence|].
  (* the paddle step *)
  assert (Hstep :
    (paddle_test s4 <> LastHit.None -> last_ball_hit s4 <> paddle_test s4)
    /\ left_score s5 = left_score s4 /\ right_score s5 = right_score s4
    /\ rally_ok s5 /\ paddles_placed s5
    /\ (paddle_test s4 <> LastHit.None ->
        last_ball_hit s5 = paddle_test s4
        /\ hits_of (paddle_test s4) s5 = 1
        /\ hits_of (opponent (paddle_test s4)) s5 = 0
        /\ edge_test s5 = None)
    /\ (paddle_test s4 = LastHit.None -> s5 = s4)).
  { destruct (hit_leaves_ball_in_bounds s4 Hp4) as [Hbl Hbr].
    pose proof (paddle_collisions_keeps s4 r1) as Hk. rewrite Hpaddle in Hk.
    cbn [fst] in Hk. destruct Hk as (_ & _ & _ & _ & P5 & P6 & _).
    assert (Hp5 : paddles_placed s5).
    { unfold paddles_placed in *. now rewrite P5, P6. }
    unfold paddle_collisions in Hpaddle. unfold paddle_test in *.
    destruct (F32.ltb (ball_dx s4) (F32.of_int 0)
              && checkCircleRectCollision (ball_x s4) (ball_y s4) BALL_RADIUS
                   (leftPaddle s4)) eqn:Hleft.
    - apply andb_true_iff in Hleft. destruct Hleft as [Hdx _].
      destruct (moving_left_facts _ Hdx) as (_ & Hnot & Habs).
      injection Hpaddle as <- _.
      destruct (left_paddle_hit_scoring s4) as (A1 & A2 & A3 & A4 & A5).
      cbv zeta in A1, A2, A3, A4, A5.
      assert (Hl : last_ball_hit s4 <> LastHit.LeftPaddle).
      { intros Hl. unfold rally_ok in Hr4. rewrite Hl in Hr4.
        destruct Hr4 as (Hpos & _). congruence. }
      assert (Hdx5 : ball_dx (left_paddle_hit s4) = F32.abs (ball_dx s4)).
      { unfold left_paddle_hit, left_hit_rule.
        cbn [last_ball_hit set_ball_x set_ball_dx].
        destruct (last_ball_hit s4); cbn; try reflexivity.
        destruct (left_consecutive_hits s4 + 1 >=? 2); reflexivity. }
      destruct (last_ball_hit s4) eqn:Hlast; [| congruence |];
        cbn [andb] in A2, A3, A4;
        (split; [intros _; discriminate|]);
        (split; [congruence|]); (split; [congruence|]);
        (split; [unfold rally_ok; rewrite A1, Hdx5; auto|]);
        (split; [exact Hp5|]);
        (split; [intros _; cbn; auto | intros Hn; discriminate]).
    - destruct (F32.ltb (F32.of_int 0) (ball_dx s4)
                && checkCircleRectCollision (ball_x s4) (ball_y s4) BALL_RADIUS
                     (rightPaddle s4)) eqn:Hright.
      + apply andb_true_iff in Hright. destruct Hright as [Hdx _].
        destruct (moving_right_facts _ Hdx) as (_ & Hnot & Habs).
        injection Hpaddle as <- _.
        destruct (right_paddle_hit_scoring s4) as (A1 & A2 & A3 & A4 & A5).
        cbv zeta in A1, A2, A3, A4, A5.
        assert (Hl : last_ball_hit s4 <> LastHit.RightPaddle).
        { intros Hl. unfold rally_ok in Hr4. rewrite Hl in Hr4.
          destruct Hr4 as (Hneg & _). congruence. }
        assert (Hdx5 : ball_dx (right_paddle_hit s4) = F32.opp (F32.abs (ball_dx s4))).
        { unfold right_paddle_hit, right_hit_rule.
          cbn [last_ball_hit set_ball_x set_ball_dx].
          destruct (last_ball_hit s4); cbn; try reflexivity.
          destruct (right_consecutive_hits s4 + 1 >=? 2); reflexivity. }
        destruct (last_ball_hit s4) eqn:Hlast; [| | congruence];
          cbn [andb] in A2, A3, A4;
          (split; [intros _; discriminate|]);
          (split; [congruence|]); (split; [congruence|]);
          (split; [unfold rally_ok; rewrite A1, Hdx5; auto|]);
          (split; [exact Hp5|]);
          (split; [intros _; cbn; auto | intros Hn; discriminate]).
      + injection Hpaddle as <- _.
        split; [intros Hn; congruence|]. split; [reflexivity|]. split; [reflexivity|].
        split; [exact Hr4|]. split; [exact Hp4|].
        split; [intros Hn; congruence | reflexivity]. }
  destruct Hstep as (S1 & S2 & S3 & Hr5 & Hp5 & S6 & S7).
  assert (Hs5 : fst (paddle_collisions s4 r1) = s5) by now rewrite Hpaddle.
  rewrite Hs5. cbn [edge_crossed].
  (* the rest of the frame *)
  destruct (coin_update_keeps pf s8)
    as (_ & _ & U3 & _ & _ & _ & U7 & U8 & _ & U10 & U11 & U12 & _).
  pose proof (coin_spawn_keeps pf (boost_logic r2 s6)) as Hk.
  rewrite Hspawn in Hk. cbn [fst] in Hk.
  destruct Hk as (_ & _ & C3 & _ & _ & _ & C7 & C8 & C9 & C10 & C11 & C12 & C13).
  destruct (boost_logic_keeps r2 s6)
    as (_ & _ & B3 & _ & B5 & B6 & _ & _ & B9 & B10 & B11 & B12 & B13 & _).
  cbv zeta in U3, U7, U8, U10, U11, U12.
  destruct (out_of_bounds_cases _ _ _ _ Hbounds) as (O1 & O2 & _ & _ & Hcase).
  assert (Hplaced' : paddles_placed (coin_update pf s8)).
  { unfold paddles_placed in *. rewrite U7, U8, C7, C8, B5, B6, O1, O2. exact Hp5. }
  split; [exact S1|]. split; [exact S2|]. split; [exact S3|].
  split.
  { intros Hn. destruct (S6 Hn) as (T1 & T2 & T3 & T4). auto. }
  destruct (edge_test s5) as [e|] eqn:Hedge.
  - destruct Hcase as (_ & _ & _ & _ & K5 & K6 & K7 & _).
    split; [discriminate|]. split; [discriminate|]. split; [discriminate|].
    split; [|exact Hplaced'].
    unfold rally_ok. rewrite U10, U11, U12, C11, C12, C13, B11, B12, B13, K7. auto.
  - subst s6.
    assert (Hsame : rally (coin_update pf s8) = rally s5).
    { unfold rally. congruence. }
    split; [intros _; exact Hsame|].
    split; [intros Hn _; rewrite Hsame, (S7 Hn); exact Hrally4|].
    split.
    { intros _. exists s8. split; [reflexivity|]. split; congruence. }
    split; [|exact Hplaced'].
    unfold rally_ok in *. rewrite U10, U11, U12, U3, C11, C12, C13, C3, B11, B12, B13, B3.
    exact Hr5.
Qed.

Lemma frame_keeps_play_ok (fuel : nat) (i : Input) (s s' : State) (lg : FrameLog) :
  frame pf fuel i s = Some (s', lg) -> play_ok s -> play_ok s'.
Proof.
  intros Hf Hok.
  destruct (frame_rally _ _ _ _ _ Hf Hok)
    as (s4 & r1 & _ & _ & _ & _ & _ & _ & _ & _ & _ & _ & _ & _ & H).
  exact H.
Qed.

Lemma reachable_play_ok (s : State) : reachable pf s -> play_ok s.
Proof.
  induction 1 as [|fuel i s s' lg _ IH Hf].
  - split; [split; reflexivity | split; reflexivity].
  - eapply frame_keeps_play_ok; eauto.
Qed.


End Rally.

(** ** The direction of a serve *)

Lemma round_keeps_sign (sx : bool) (mx ex : Z) (lx : location) :
  let r := binary_round_aux F32.prec F32.emax sx mx ex lx in
  F32.is_nan r = true \/ F32.signbit r = sx.
Proof.
  unfold binary_round_aux.
  destruct (shr_fexp F32.prec F32.emax mx ex lx) as [mrs' e'].
  destruct (shr_fexp F32.prec F32.emax _ e' loc_Exact) as [mrs'' e''].
  destruct (shr_m mrs''); [right; reflexivity| |left; reflexivity].
  destruct (e'' <=? F32.emax - F32.prec); right; reflexivity.
Qed.

Lemma sqrt_sign (x : float) :
  F32.is_nan (F32.sqrt x) = true
  \/ F32.eqb (F32.sqrt x) (F32.of_int 0) = true
  \/ F32.signbit (F32.sqrt x) = false.
Proof.
  unfold F32.sqrt, SFsqrt.
  destruct x as [sx|[|]| |[|] mx ex]; auto.
  destruct (SFsqrt_core_binary F32.prec F32.emax (Z.pos mx) ex) as [[mz ez] lz].
  destruct (round_keeps_sign false mz ez lz) as [H|H]; auto.
Qed.

Lemma div_keeps_sign (x y : float) :
  F32.signbit y = false ->
  F32.is_nan (F32.div x y) = true \/ F32.signbit (F32.div x y) = F32.signbit x.
Proof.
  intros Hy. unfold F32.div, SFdiv.
  destruct x as [sx|sx| |sx mx ex], y as [sy|sy| |sy my ey]; cbn in Hy; subst;
    try (left; reflexivity); try (right; cbn; apply xorb_false_r).
  destruct (SFdiv_core_binary F32.prec F32.emax (Z.pos mx) ex (Z.pos my) ey)
    as [[mz ez] lz].
  destruct (round_keeps_sign (xorb sx false) mz ez lz) as [H|H]; [now left|].
  right. cbn. rewrite H. apply xorb_false_r.
Qed.

Section ServeDirection.

Variable pf : Platform.

(** The two branches of the normalisation. *)
Lemma serve_direction_cases (angle : float) :
  (F32.eqb (serve_length pf angle) (F32.of_int 0) = false ->
   serve_direction pf angle
   = (F32.div (cosf pf angle) (serve_length pf angle),
      F32.div (sinf pf angle) (serve_length pf angle)))
  /\ (F32.eqb (serve_length pf angle) (F32.of_int 0) = true ->
      serve_direction pf angle = (cosf pf angle, sinf pf angle)).
Proof.
  unfold serve_direction, serve_length.
  destruct (F32.eqb _ (F32.of_int 0)); cbn [negb]; split; intros H;
    try discriminate; reflexivity.
Qed.

(** Normalising keeps the signs of the components. *)
Lemma serve_direction_signs (angle : float) :
  (F32.is_nan (fst (serve_direction pf angle)) = true
   \/ F32.signbit (fst (serve_direction pf angle)) = F32.signbit (cosf pf angle))
  /\ (F32.is_nan (snd (serve_direction pf angle)) = true
      \/ F32.signbit (snd (serve_direction pf angle)) = F32.signbit (sinf pf angle)).
Proof.
  destruct (serve_direction_cases angle) as [Hdiv Hsame].
  destruct (F32.eqb (serve_length pf angle) (F32.of_int 0)) eqn:Hz.
  - rewrite (Hsame eq_refl). cbn [fst snd]. auto.
  - rewrite (Hdiv eq_refl). cbn [fst snd].
    destruct (sqrt_sign (F32.add (F32.mul (cosf pf angle) (cosf pf angle))
                                 (F32.mul (sinf pf angle) (sinf pf angle))))
      as [Hn|[Hzero|Hpos]].
    + fold (serve_length pf angle) in Hn.
      destruct (serve_length pf angle); try discriminate.
      split; left; unfold F32.div, SFdiv;
        [destruct (cosf pf angle) | destruct (sinf pf angle)]; reflexivity.
    + fold (serve_length pf angle) in Hzero. congruence.
    + fold (serve_length pf angle) in Hpos.
      split; apply div_keeps_sign; exact Hpos.
Qed.

(** C7, as amended. Whenever the main loop assigns a direction to the
    ball, at a launch or at a miss-reset, it is the pair (cos angle,
    sin angle) divided by its own length m = sqrt(cos^2 + sin^2), all in
    binary32, and that pair itself when the computed length is zero; each
    component keeps the sign of the cosine or sine it comes from.  The
    angle is one drawn by [rand] that left the rejection loop: neither
    |sin angle| nor |cos angle| is below 0.2, so both are at least 0.2
    whenever the library returns numbers.  A launch happens only for a
    pointer-down event within the ball radius while both direction
    components are exactly zero; any other event leaves the state alone. *)
Theorem serve_direction_is_normalised (fuel : nat) (how : Serve) (s s' : State) :
  serve_happens pf fuel how s s' ->
  launch_condition how s
  /\ (exists angle k,
        angle = random_angle pf (rand pf k)
        /\ F32.ltb (F32.abs (sinf pf angle)) SERVE_TOLERANCE = false
        /\ F32.ltb (F32.abs (cosf pf angle)) SERVE_TOLERANCE = false
        /\ (F32.is_nan (sinf pf angle) = false ->
            F32.leb SERVE_TOLERANCE (F32.abs (sinf pf angle)) = true)
        /\ (F32.is_nan (cosf pf angle) = false ->
            F32.leb SERVE_TOLERANCE (F32.abs (cosf pf angle)) = true)
        /\ (F32.eqb (serve_length pf angle) (F32.of_int 0) = false ->
            ball_dx s' = F32.div (cosf pf angle) (serve_length pf angle)
            /\ ball_dy s' = F32.div (sinf pf angle) (serve_length pf angle))
        /\ (F32.eqb (serve_length pf angle) (F32.of_int 0) = true ->
            ball_dx s' = cosf pf angle /\ ball_dy s' = sinf pf angle)
        /\ (F32.is_nan (ball_dx s') = true
            \/ F32.signbit (ball_dx s') = F32.signbit (cosf pf angle))
        /\ (F32.is_nan (ball_dy s') = true
            \/ F32.signbit (ball_dy s') = F32.signbit (sinf pf angle)))
  /\ (forall e0 s0 s0', handle_event pf fuel e0 s0 = Some (s0', false) -> s0' = s0).
Proof.
  intros H.
  destruct (serve_keeps_off_axes pf fuel how s s' H)
    as (Hcond & (angle & k & A1 & A2 & A3 & A4 & A5 & A6) & Hother).
  split; [exact Hcond|]. split; [|exact Hother].
  exists angle, k.
  destruct (serve_direction_cases angle) as [Hdiv Hsame].
  destruct (serve_direction_signs angle) as [Hsx Hsy].
  assert (Ex : ball_dx s' = fst (serve_direction pf angle)) by now rewrite <- A6.
  assert (Ey : ball_dy s' = snd (serve_direction pf angle)) by now rewrite <- A6.
  split; [exact A1|]. split; [exact A2|]. split; [exact A3|].
  split; [exact A4|]. split; [exact A5|].
  split; [intros Hz; rewrite Ex, Ey, (Hdiv Hz); split; reflexivity|].
  split; [intros Hz; rewrite Ex, Ey, (Hsame Hz); split; reflexivity|].
  rewrite Ex, Ey. split; assumption.
Qed.

End ServeDirection.

(** ** The consecutive-hit rule in play *)

Section HitsInPlay.

Variable pf : Platform.


End HitsInPlay.

(** ** The statements on play at concrete runs *)




(** C4 with the coin on the way of the ball: in frame 374 the ball, last hit
    by the left paddle, reaches the coin; the coin leaves the list and the
    left player gets the point. *)
Lemma coin_taken_by_ball_witness :
  last_ball_hit before_coin_taken = LastHit.LeftPaddle
  /\ length (coins before_coin_taken) = 1%nat
  /\ coins (frame_state coin_on_path 10 idle before_coin_taken) = []
  /\ left_score (frame_state coin_on_path 10 idle before_coin_taken)
     = left_score before_coin_taken + 1
  /\ right_score (frame_state coin_on_path 10 idle before_coin_taken)
     = right_score before_coin_taken
  /\ exists (s8 : State) (new : list Coin),
       frame_state coin_on_path 10 idle before_coin_taken = coin_update coin_on_path s8
       /\ coins s8 = coins before_coin_taken ++ new
       /\ new = []
       /\ left_score (frame_state coin_on_path 10 idle before_coin_taken)
          = left_score s8 + count_where (left_point coin_on_path s8) (coins s8).
Proof.
  assert (Hf : frame coin_on_path 10 idle before_coin_taken
               = Some (frame_state coin_on_path 10 idle before_coin_taken,
                       frame_log coin_on_path 10 idle before_coin_taken))
    by (vm_compute; reflexivity).
  assert (Hsp : coin_spawned (frame_log coin_on_path 10 idle before_coin_taken) = false)
    by (vm_compute; reflexivity).
  destruct (coins_collected_by_priority coin_on_path 10 idle _ _ _ Hf)
    as (s8 & new & H1 & H2 & H3 & _ & H5 & _).
  rewrite Hsp in H3.
  split; [vm_compute; reflexivity|]. split; [vm_compute; reflexivity|].
  split; [vm_compute; reflexivity|]. split; [vm_compute; reflexivity|].
  split; [vm_compute; reflexivity|].
  exists s8, new. split; [exact H1|]. split; [exact H2|]. split; [exact H3 | exact H5].
Defined.

(** C7 at the launch click on the resting ball. *)
Lemma serve_direction_witness :
  launch_condition (ByLaunch (SDL_MOUSEBUTTONDOWN 405 295)) initial_state
  /\ exists angle k,
       angle = random_angle seed_1 (rand seed_1 k)
       /\ F32.ltb (F32.abs (sinf seed_1 angle)) SERVE_TOLERANCE = false
       /\ F32.ltb (F32.abs (cosf seed_1 angle)) SERVE_TOLERANCE = false
       /\ (F32.eqb (serve_length seed_1 angle) (F32.of_int 0) = false ->
           ball_dx (fst (frame_state_events seed_1 10 launch_click initial_state))
           = F32.div (cosf seed_1 angle) (serve_length seed_1 angle)
           /\ ball_dy (fst (frame_state_events seed_1 10 launch_click initial_state))
              = F32.div (sinf seed_1 angle) (serve_length seed_1 angle)).
Proof.
  assert (Hs : serve_happens seed_1 10
                 (ByLaunch (SDL_MOUSEBUTTONDOWN 405 295)) initial_state
                 (fst (frame_state_events seed_1 10 launch_click initial_state))).
  { vm_compute. reflexivity. }
  destruct (serve_direction_is_normalised seed_1 10 _ _ _ Hs)
    as (Hl & (angle & k & A1 & A2 & A3 & _ & _ & A6 & _) & _).
  split; [exact Hl|]. exists angle, k.
  split; [exact A1|]. split; [exact A2|]. split; [exact A3 | exact A6].
Defined.

(** C7 as stated fails where the computed length of (cos, sin) is not 1:
    with [rand()] returning 1054 the angle is accepted, the length comes out
    as 1 - 2^-24, and the division moves both components by one unit in the
    last place, so the direction of the launch is not (cos angle,
    sin angle). *)
Lemma launch_direction_is_not_cos_sin :
  frame draw_1054 10 launch_click initial_state
  = Some (frame_state draw_1054 10 launch_click initial_state,
          frame_log draw_1054 10 launch_click initial_state)
  /\ launched (frame_log draw_1054 10 launch_click initial_state) = true
  /\ rand draw_1054 0 = 1054
  /\ too_close_to_axis draw_1054 (random_angle draw_1054 1054) = false
  /\ cosf draw_1054 (random_angle draw_1054 1054) = S754_finite false 16435725 (-24)
  /\ sinf draw_1054 (random_angle draw_1054 1054) = S754_finite false 13471098 (-26)
  /\ serve_length draw_1054 (random_angle draw_1054 1054)
     = S754_finite false 16777215 (-24)
  /\ ball_dx (frame_state draw_1054 10 launch_click initial_state)
     = S754_finite false 16435726 (-24)
  /\ ball_dy (frame_state draw_1054 10 launch_click initial_state)
     = S754_finite false 13471099 (-26)
  /\ (ball_dx (frame_state draw_1054 10 launch_click initial_state),
      ball_dy (frame_state draw_1054 10 launch_click initial_state))
     <> (cosf draw_1054 (random_angle draw_1054 1054),
         sinf draw_1054 (random_angle draw_1054 1054)).
Proof.
  split; [vm_compute; reflexivity|].
  split; [vm_compute; reflexivity|].
  split; [vm_compute; reflexivity|].
  split; [vm_compute; reflexivity|].
  split; [vm_compute; reflexivity|].
  split; [vm_compute; reflexivity|].
  split; [vm_compute; reflexivity|].
  split; [vm_compute; reflexivity|].
  split; [vm_compute; reflexivity|].
  vm_compute. discriminate.
Qed.


(** ** Whole frames: borders, misses, scores *)

Section WholeFrames.

Variable pf : Platform.

(** At the end of every frame the ball is within the four borders: none of
    the wall and edge tests of the loop holds of its position. *)
Theorem ball_within_borders_after_frame
    (fuel : nat) (i : Input) (s s' : State) (lg : FrameLog) :
  frame pf fuel i s = Some (s', lg) ->
  wall_test s' = None /\ edge_test s' = None.
Proof.
  intros H. frame_inv H.
  destruct (coin_update_keeps pf s8) as (U1 & U2 & _).
  pose proof (coin_spawn_keeps pf (boost_logic r2 s6)) as Hk.
  rewrite Hspawn in Hk. cbn [fst] in Hk. destruct Hk as (C1 & C2 & _).
  destruct (boost_logic_keeps r2 s6) as (B1 & B2 & _).
  cbv zeta in U1, U2, B1, B2.
  assert (Hx : ball_x (coin_update pf s8) = ball_x s6) by congruence.
  assert (Hy : ball_y (coin_update pf s8) = ball_y s6) by congruence.
  assert (Hw4 : wall_of_y (ball_y s4) = None).
  { unfold wall_collisions in Hwall.
    destruct (wall_test _) as [[|]|] eqn:Hw; injection Hwall as <- _.
    - cbn [ball_y set_ball_y set_ball_dy]. vm_compute. reflexivity.
    - cbn [ball_y set_ball_y set_ball_dy]. vm_compute. reflexivity.
    - rewrite <- wall_test_of_y. exact Hw. }
  pose proof (paddle_collisions_keeps s4 r1) as Hk. rewrite Hpaddle in Hk.
  cbn [fst] in Hk. destruct Hk as (P1 & _).
  destruct (out_of_bounds_cases _ _ _ _ Hbounds) as (_ & _ & _ & _ & Hcase).
  rewrite wall_test_of_y. unfold edge_test at 1. rewrite Hx, Hy.
  destruct (edge_test s5) as [e|] eqn:He.
  - destruct Hcase as (K1 & K2 & _). rewrite K1, K2.
    split; vm_compute; reflexivity.
  - subst s6. rewrite P1. split; [exact Hw4|]. exact He.
Qed.

(** A miss in a frame without reflection: the ball is back at the centre
    at base speed with the boost timer cleared, the rally is forgotten, and
    the player opposite to the edge crossed has one point more when the
    coin loop starts. *)
Theorem miss_without_reflection_resets
    (fuel : nat) (i : Input) (s s' : State) (lg : FrameLog) (e : Edge) :
  frame pf fuel i s = Some (s', lg) ->
  reflected_this_frame lg = false ->
  edge_crossed lg = Some e ->
  ball_x s' = F32.of_int 400 /\ ball_y s' = F32.of_int 300
  /\ current_ball_speed s' = INITIAL_BALL_SPEED /\ ball_boost_timer s' = 0
  /\ last_ball_hit s' = LastHit.None
  /\ left_consecutive_hits s' = 0 /\ right_consecutive_hits s' = 0
  /\ exists s8 : State,
       s' = coin_update pf s8
       /\ left_score s8 = left_score s + miss_point_left lg
       /\ right_score s8 = right_score s + miss_point_right lg.
Proof.
  intros Hf Hr He.
  pose proof (frame_boost pf _ _ _ _ _ Hf) as Hb.
  unfold frame_resets in Hb. rewrite Hr, He, orb_true_r in Hb.
  change (boost_step false 0 INITIAL_BALL_SPEED) with (0, INITIAL_BALL_SPEED) in Hb.
  injection Hb as Ht Hv.
  unfold miss_point_left, miss_point_right. rewrite He.
  frame_inv Hf. cbn [reflected_this_frame edge_crossed] in Hr, He. subst r2.
  destruct (coin_update_keeps pf s8)
    as (U1 & U2 & _ & _ & _ & _ & _ & _ & _ & U10 & U11 & U12 & _).
  pose proof (coin_spawn_keeps pf (boost_logic false s6)) as Hk.
  rewrite Hspawn in Hk. cbn [fst] in Hk.
  destruct Hk as (C1 & C2 & _ & _ & _ & _ & _ & _ & C9 & C10 & C11 & C12 & C13).
  destruct (boost_logic_keeps false s6)
    as (B1 & B2 & _ & _ & _ & _ & _ & _ & B9 & B10 & B11 & B12 & B13 & _).
  cbv zeta in U1, U2, U10, U11, U12, B1, B2, B9, B10, B11, B12, B13.
  destruct (out_of_bounds_cases _ _ _ _ Hbounds) as (_ & _ & _ & _ & Hcase).
  rewrite He in Hcase.
  destruct Hcase as (K1 & K2 & _ & _ & K5 & K6 & K7 & K8 & K9).
  (* no reflection: the paddle step did nothing *)
  assert (Hs5 : s5 = s4 /\ r1 = false).
  { unfold paddle_collisions in Hpaddle.
    destruct (paddle_test s4); injection Hpaddle as <- Hr1; try discriminate; auto. }
  destruct Hs5 as [-> ->].
  pose proof (wall_collisions_keeps
                (ball_movement (paddle_movement (currentKeyStates i) s1))) as Hk.
  rewrite Hwall in Hk. cbn [fst] in Hk.
  destruct Hk as (_ & _ & _ & _ & _ & _ & _ & _ & W9 & W10 & _).
  cbv zeta in W9, W10.
  destruct (ball_movement_keeps (paddle_movement (currentKeyStates i) s1))
    as (_ & _ & _ & V4 & V5 & _).
  destruct (paddle_movement_keeps (currentKeyStates i) s1)
    as (_ & _ & _ & _ & _ & M6 & M7 & _).
  cbv zeta in V4, V5, M6, M7.
  destruct (event_handling_keeps _ _ _ _ _ _ Hevents)
    as (_ & _ & _ & _ & _ & _ & _ & _ & E9 & E10 & _).
  assert (Hcx : F32.div (F32.of_int WINDOW_WIDTH) (F32.lit 20 10) = F32.of_int 400)
    by (vm_compute; reflexivity).
  assert (Hcy : F32.div (F32.of_int WINDOW_HEIGHT) (F32.lit 20 10) = F32.of_int 300)
    by (vm_compute; reflexivity).
  split; [congruence|]. split; [congruence|].
  split; [exact Hv|]. split; [exact Ht|].
  split; [congruence|]. split; [congruence|]. split; [congruence|].
  exists s8. split; [reflexivity|].
  split.
  - rewrite C9, B9, K8, W9, V4, M6, E9. destruct e; reflexivity.
  - rewrite C10, B10, K9, W10, V5, M7, E10. destruct e; reflexivity.
Qed.

(** In play the scores change by misses and coins only: a frame of a run
    from the initial state adds to a player's score the point of a miss at
    the opposite edge and one point per coin collected for that player. *)
Theorem scores_change_by_miss_and_coins
    (fuel : nat) (i : Input) (s s' : State) (lg : FrameLog) :
  reachable pf s ->
  frame pf fuel i s = Some (s', lg) ->
  exists s8 : State,
    s' = coin_update pf s8
    /\ left_score s'
       = left_score s + miss_point_left lg + count_where (left_point pf s8) (coins s8)
    /\ right_score s'
       = right_score s + miss_point_right lg
         + count_where (right_point pf s8) (coins s8).
Proof.
  intros Hreach Hf.
  pose proof (reachable_play_ok pf s Hreach) as Hok.
  pose proof Hf as Hf2. frame_inv Hf2.
  destruct (frame_rally pf _ _ _ _ _ Hf Hok)
    as (s4' & r1' & Hb & _ & _ & L4 & R4 & _ & L5 & R5 & _ & _ & _ & _ & _).
  unfold before_paddles in Hb.
  unfold miss_point_left, miss_point_right. cbn [edge_crossed].
  rewrite Hevents, Hwall in Hb. injection Hb as <- <-.
  rewrite Hpaddle in L5, R5. cbn [fst] in L5, R5.
  exists s8. split; [reflexivity|].
  destruct (coin_update_exact pf s8) as (_ & -> & ->).
  unfold left_score_after_loop, right_score_after_loop.
  pose proof (coin_spawn_keeps pf (boost_logic r2 s6)) as Hk.
  rewrite Hspawn in Hk. cbn [fst] in Hk.
  destruct Hk as (_ & _ & _ & _ & _ & _ & _ & _ & C9 & C10 & _).
  destruct (boost_logic_keeps r2 s6)
    as (_ & _ & _ & _ & _ & _ & _ & _ & B9 & B10 & _).
  cbv zeta in B9, B10.
  destruct (out_of_bounds_cases _ _ _ _ Hbounds) as (_ & _ & _ & _ & Hcase).
  destruct (edge_test s5) as [e|].
  - destruct Hcase as (_ & _ & _ & _ & _ & _ & _ & K8 & K9).
    rewrite C9, C10, B9, B10, K8, K9, L5, R5, L4, R4. destruct e; split; lia.
  - subst s6. rewrite C9, C10, B9, B10, L5, R5, L4, R4. split; lia.
Qed.

(** The paddles at the end of a frame, from those at its start. *)
Lemma frame_paddles (fuel : nat) (i : Input) (s s' : State) (lg : FrameLog) :
  frame pf fuel i s = Some (s', lg) ->
  leftPaddle s'
  = clamp_paddle (move_paddle (SDL_SCANCODE_W (currentKeyStates i))
                    (SDL_SCANCODE_S (currentKeyStates i)) (leftPaddle s))
  /\ rightPaddle s'
     = clamp_paddle (move_paddle (SDL_SCANCODE_UP (currentKeyStates i))
                       (SDL_SCANCODE_DOWN (currentKeyStates i)) (rightPaddle s)).
Proof.
  intros Hf. frame_inv Hf.
  destruct (coin_update_keeps pf s8) as (_ & _ & _ & _ & _ & _ & U7 & U8 & _).
  pose proof (coin_spawn_keeps pf (boost_logic r2 s6)) as Hk.
  rewrite Hspawn in Hk. cbn [fst] in Hk.
  destruct Hk as (_ & _ & _ & _ & _ & _ & C7 & C8 & _).
  destruct (boost_logic_keeps r2 s6) as (_ & _ & _ & _ & B5 & B6 & _).
  destruct (out_of_bounds_cases _ _ _ _ Hbounds) as (O1 & O2 & _).
  pose proof (paddle_collisions_keeps s4 r1) as Hk. rewrite Hpaddle in Hk.
  cbn [fst] in Hk. destruct Hk as (_ & _ & _ & _ & P5 & P6 & _).
  pose proof (wall_collisions_keeps
                (ball_movement (paddle_movement (currentKeyStates i) s1))) as Hk.
  rewrite Hwall in Hk. cbn [fst] in Hk.
  destruct Hk as (_ & _ & _ & _ & W5 & W6 & _).
  destruct (ball_movement_keeps (paddle_movement (currentKeyStates i) s1))
    as (_ & V2 & V3 & _).
  destruct (event_handling_keeps _ _ _ _ _ _ Hevents)
    as (_ & _ & _ & _ & E5 & E6 & _).
  cbv zeta in U7, U8, B5, B6, W5, W6, V2, V3.
  split.
  - rewrite U7, C7, B5, O1, P5, W5, V2, <- E5. reflexivity.
  - rewrite U8, C8, B6, O2, P6, W6, V3, <- E6. reflexivity.
Qed.

Lemma move_paddle_shape (u d : bool) (r : SDL_Rect) :
  rect_x (move_paddle u d r) = rect_x r
  /\ rect_w (move_paddle u d r) = rect_w r
  /\ rect_h (move_paddle u d r) = rect_h r.
Proof. unfold move_paddle, paddle_up, paddle_down. destruct u, d; cbn; auto. Qed.

Lemma reachable_paddles_in_shape (s : State) :
  reachable pf s -> paddles_in_shape s.
Proof.
  induction 1 as [|fuel i s s' lg _ IH Hf].
  - unfold paddles_in_shape, paddle_in_window. cbn. repeat split; lia.
  - destruct IH as (I1 & I2 & I3 & I4 & I5 & I6 & I7 & I8).
    destruct (frame_paddles _ _ _ _ _ Hf) as [Hl Hr].
    unfold paddles_in_shape. rewrite Hl, Hr.
    destruct (clamp_paddle_shape (move_paddle (SDL_SCANCODE_W (currentKeyStates i))
                (SDL_SCANCODE_S (currentKeyStates i)) (leftPaddle s))) as (A1 & A2 & A3).
    destruct (clamp_paddle_shape (move_paddle (SDL_SCANCODE_UP (currentKeyStates i))
                (SDL_SCANCODE_DOWN (currentKeyStates i)) (rightPaddle s)))
      as (A4 & A5 & A6).
    destruct (move_paddle_shape (SDL_SCANCODE_W (currentKeyStates i))
                (SDL_SCANCODE_S (currentKeyStates i)) (leftPaddle s)) as (M1 & M2 & M3).
    destruct (move_paddle_shape (SDL_SCANCODE_UP (currentKeyStates i))
                (SDL_SCANCODE_DOWN (currentKeyStates i)) (rightPaddle s))
      as (M4 & M5 & M6).
    split; [congruence|]. split; [congruence|]. split; [congruence|].
    split; [congruence|]. split; [congruence|]. split; [congruence|].
    split; apply clamp_paddle_in_window.
Qed.

Lemma clamp_paddle_y (r : SDL_Rect) :
  rect_y (clamp_paddle r)
  = if rect_y r <? 0 then 0
    else if rect_y r + PADDLE_HEIGHT >? WINDOW_HEIGHT
         then WINDOW_HEIGHT - PADDLE_HEIGHT else rect_y r.
Proof.
  unfold clamp_paddle, PADDLE_HEIGHT, WINDOW_HEIGHT.
  destruct (rect_y r <? 0) eqn:Hneg; cbn [rect_y set_rect_y].
  - reflexivity.
  - destruct (rect_y r + 100 >? 600); reflexivity.
Qed.

(** In play the paddles keep their column and size and stay inside the
    window, and in one frame a paddle moves by at most six pixels. *)
Theorem paddles_move_within_window
    (fuel : nat) (i : Input) (s s' : State) (lg : FrameLog) :
  reachable pf s ->
  frame pf fuel i s = Some (s', lg) ->
  paddles_in_shape s /\ paddles_in_shape s'
  /\ Z.abs (rect_y (leftPaddle s') - rect_y (leftPaddle s)) <= 6
  /\ Z.abs (rect_y (rightPaddle s') - rect_y (rightPaddle s)) <= 6.
Proof.
  intros Hreach Hf.
  pose proof (reachable_paddles_in_shape s Hreach) as Hs.
  assert (Hreach' : reachable pf s') by (eapply reachable_frame; eauto).
  pose proof (reachable_paddles_in_shape s' Hreach') as Hs'.
  split; [exact Hs|]. split; [exact Hs'|].
  destruct Hs as (_ & _ & _ & _ & _ & _ & I7 & I8).
  destruct (frame_paddles _ _ _ _ _ Hf) as [-> ->].
  rewrite !clamp_paddle_y.
  pose proof (move_paddle_step (SDL_SCANCODE_W (currentKeyStates i))
                (SDL_SCANCODE_S (currentKeyStates i)) (leftPaddle s) I7) as Hl.
  pose proof (move_paddle_step (SDL_SCANCODE_UP (currentKeyStates i))
                (SDL_SCANCODE_DOWN (currentKeyStates i)) (rightPaddle s) I8) as Hr.
  unfold paddle_in_window, WINDOW_HEIGHT, PADDLE_HEIGHT in *.
  split.
  - destruct (_ <? 0) eqn:H1; [apply Z.ltb_lt in H1; lia|].
    apply Z.ltb_ge in H1.
    destruct (_ >? 600) eqn:H2.
    + rewrite Z.gtb_ltb in H2. apply Z.ltb_lt in H2. lia.
    + rewrite Z.gtb_ltb in H2. apply Z.ltb_ge in H2. lia.
  - destruct (_ <? 0) eqn:H1; [apply Z.ltb_lt in H1; lia|].
    apply Z.ltb_ge in H1.
    destruct (_ >? 600) eqn:H2.
    + rewrite Z.gtb_ltb in H2. apply Z.ltb_lt in H2. lia.
    + rewrite Z.gtb_ltb in H2. apply Z.ltb_ge in H2. lia.
Qed.

End WholeFrames.

(** ** The rejection loop and the clicks *)

Section ServeLoop.

Variable pf : Platform.

(** The rejection loop returns the first accepted draw, and [rand] has
    then been called once per draw up to it: the loop returns an angle
    exactly when one of the next [fuel] draws is accepted. *)
Theorem pick_angle_first_accepted (fuel n n' : nat) (angle : float) :
  pick_angle pf fuel n = Some (angle, n') <->
  exists k : nat,
    (k < fuel)%nat /\ n' = S (n + k)
    /\ angle = random_angle pf (rand pf (n + k))
    /\ too_close_to_axis pf angle = false
    /\ forall j, (j < k)%nat ->
         too_close_to_axis pf (random_angle pf (rand pf (n + j))) = true.
Proof.
  revert n. induction fuel as [|fuel IH]; intros n; cbn [pick_angle].
  - split; [discriminate|]. intros (k & Hk & _). lia.
  - cbv zeta.
    destruct (too_close_to_axis pf (random_angle pf (rand pf n))) eqn:Hc.
    + rewrite IH. split.
      * intros (k & Hk & Hn & Ha & Hacc & Hrej).
        exists (S k). split; [lia|]. split; [lia|].
        replace (n + S k)%nat with (S n + k)%nat by lia.
        split; [exact Ha|]. split; [exact Hacc|].
        intros j Hj. destruct j as [|j].
        -- now rewrite Nat.add_0_r.
        -- replace (n + S j)%nat with (S n + j)%nat by lia. apply Hrej. lia.
      * intros (k & Hk & Hn & Ha & Hacc & Hrej).
        destruct k as [|k].
        -- rewrite Nat.add_0_r in Ha. subst angle. congruence.
        -- exists k. split; [lia|]. split; [lia|].
           replace (S n + k)%nat with (n + S k)%nat by lia.
           split; [exact Ha|]. split; [exact Hacc|].
           intros j Hj. replace (S n + j)%nat with (n + S j)%nat by lia.
           apply Hrej. lia.
    + split.
      * intros H. injection H as <- <-. exists 0%nat.
        rewrite Nat.add_0_r. split; [lia|]. split; [reflexivity|].
        split; [reflexivity|]. split; [exact Hc|]. intros j Hj. lia.
      * intros (k & Hk & Hn & Ha & Hacc & Hrej).
        destruct k as [|k].
        -- rewrite Nat.add_0_r in Ha, Hn. now subst.
        -- specialize (Hrej 0%nat). rewrite Nat.add_0_r in Hrej.
           rewrite Hrej in Hc by lia. discriminate.
Qed.

(** While the ball has a direction, no event changes anything: clicks
    launch a resting ball only, and only when they land within its radius;
    the other events are ignored by the simulation. *)
Theorem clicks_launch_resting_ball_only
    (fuel : nat) (es : list Event) (s : State) :
  (F32.eqb (ball_dx s) (F32.lit 0 10) = false
   \/ F32.eqb (ball_dy s) (F32.lit 0 10) = false
   \/ forall mouseX mouseY, In (SDL_MOUSEBUTTONDOWN mouseX mouseY) es ->
        F32.leb (click_distance mouseX mouseY s) (F32.of_int BALL_RADIUS) = false) ->
  event_handling pf fuel es s = Some (s, false).
Proof.
  intros Hcase. induction es as [|e rest IH]; [reflexivity|].
  cbn [event_handling].
  assert (He : handle_event pf fuel e s = Some (s, false)).
  { unfold handle_event. destruct e as [|mouseX mouseY|]; try reflexivity.
    assert (Hl : launch_test mouseX mouseY s = false).
    { unfold launch_test. destruct Hcase as [H|[H|H]].
      - now rewrite H.
      - rewrite H. now rewrite andb_false_r.
      - rewrite (H mouseX mouseY (or_introl eq_refl)). apply andb_false_r. }
    now rewrite Hl. }
  rewrite He. rewrite IH; [reflexivity|].
  destruct Hcase as [H|[H|H]]; auto.
  right; right. intros mx my Hin. apply H. now right.
Qed.

End ServeLoop.

(** ** The coin list in play *)

Lemma paddle_misses_field (p box : SDL_Rect) :
  box_in_field box ->
  (rect_x p = 0 /\ rect_w p = PADDLE_WIDTH)
  \/ (rect_x p = WINDOW_WIDTH - PADDLE_WIDTH /\ rect_w p = PADDLE_WIDTH) ->
  checkRectRectCollision p box = false.
Proof.
  unfold box_in_field, checkRectRectCollision, SDL_HasIntersection, spans_overlap,
    WINDOW_WIDTH, WINDOW_HEIGHT, PADDLE_WIDTH.
  intros (B1 & B2 & B3 & B4) Hp.
  destruct (SDL_RectEmpty p || SDL_RectEmpty box); [reflexivity|].
  apply andb_false_iff. left. apply negb_false_iff. apply Z.leb_le.
  destruct Hp as [[-> ->] | [-> ->]];
    destruct (rect_x box >? _) eqn:H1; destruct (_ <? _) eqn:H2;
    try (rewrite Z.gtb_ltb in H1);
    try (apply Z.ltb_lt in H1); try (apply Z.ltb_ge in H1);
    try (apply Z.ltb_lt in H2); try (apply Z.ltb_ge in H2); lia.
Qed.

Lemma step_timers (f : Coin -> bool) (a b : Z) (l : list Coin) :
  (map coin_timer l = [] \/ map coin_timer l = [a] \/ map coin_timer l = [b]
   \/ map coin_timer l = [a; b]) ->
  (forall c, f c = true -> 1 < coin_timer c) ->
  let l' := map age (filter f l) in
  (map coin_timer l' = [] \/ map coin_timer l' = [a - 1] \/ map coin_timer l' = [b - 1]
   \/ map coin_timer l' = [a - 1; b - 1])
  /\ Forall (fun c => 0 < coin_timer c) l'.
Proof.
  intros Hl Hf. cbv zeta.
  assert (Hpos : Forall (fun c => 0 < coin_timer c) (map age (filter f l))).
  { apply Forall_forall. intros c' Hin. apply in_map_iff in Hin.
    destruct Hin as (c & <- & Hin). apply filter_In in Hin. destruct Hin as [_ Hc].
    specialize (Hf c Hc). cbn. lia. }
  split; [|exact Hpos].
  destruct l as [|c1 [|c2 [|c3 l]]]; cbn [map filter] in *.
  - auto.
  - destruct Hl as [Hl|[Hl|[Hl|Hl]]]; try discriminate;
      injection Hl as Hl; destruct (f c1); cbn; rewrite ?Hl; auto.
  - destruct Hl as [Hl|[Hl|[Hl|Hl]]]; try discriminate.
    injection Hl as H1 H2.
    destruct (f c1), (f c2); cbn; rewrite ?H1, ?H2; auto.
  - destruct Hl as [Hl|[Hl|[Hl|Hl]]]; discriminate.
Qed.

Section CoinsInPlay.

Variable pf : Platform.

(** In every state the program reaches, the spawn counter is below the
    interval and the list holds at most two coins: the one spawned last
    and the one spawned an interval before it, if they are still there,
    each with the lifetime its age leaves it. *)
Theorem coins_at_most_two (s : State) :
  reachable pf s ->
  coins_in_step s
  /\ (length (coins s) <= 2)%nat
  /\ Forall (fun c => 0 < coin_timer c < COIN_DURATION_FRAMES) (coins s).
Proof.
  intros Hreach.
  assert (Hinv : coins_in_step s).
  { induction Hreach as [|fuel i s s' lg _ IH Hf].
    - unfold coins_in_step, timers_in_step, COIN_APPEAR_INTERVAL_FRAMES. cbn.
      split; [lia|]. split; [auto|constructor].
    - destruct IH as (Hk & Ht & Hpos).
      destruct (frame_coins pf _ _ _ _ _ Hf) as (s7 & Hc7 & Hk7 & _ & ->).
      destruct (coin_update_exact pf (fst (coin_spawn pf s7))) as (Hcoins & _).
      destruct (coin_update_keeps pf (fst (coin_spawn pf s7)))
        as (_ & _ & _ & _ & _ & _ & _ & _ & Hkeep & _).
      cbv zeta in Hkeep.
      assert (Halive : forall c, coin_survives pf (fst (coin_spawn pf s7)) c = true ->
                                 1 < coin_timer c).
      { intros c Hc. unfold coin_survives in Hc. apply andb_true_iff in Hc.
        destruct Hc as [Hc _]. apply Z.ltb_lt in Hc. lia. }
      unfold coins_in_step. rewrite Hkeep, Hcoins. unfold coins_after_loop.
      unfold timers_in_step, COIN_DURATION_FRAMES, COIN_APPEAR_INTERVAL_FRAMES in *.
      cbv zeta in Ht.
      unfold coin_spawn. cbn [coin_spawn_timer set_coin_spawn_timer].
      rewrite Hk7. unfold COIN_APPEAR_INTERVAL_FRAMES.
      destruct (coin_spawn_timer s + 1 >=? 300) eqn:Hsp; cbn [fst].
      + (* a coin is spawned: the counter was 299 *)
        assert (Hk299 : coin_spawn_timer s = 299).
        { unfold Z.geb in Hsp. destruct (coin_spawn_timer s + 1 ?= 300) eqn:Hcmp;
            try discriminate.
          - apply Z.compare_eq in Hcmp. lia.
          - apply Z.compare_gt_iff in Hcmp. lia. }
        unfold spawnCoin.
        cbn [coins set_coins set_rand_calls set_coin_spawn_timer coin_spawn_timer].
        rewrite Hc7. rewrite Hk299 in Ht.
        match goal with
        | |- context [coins s ++ [?c]] => set (cnew := c)
        end.
        assert (Hts : map coin_timer (coins s ++ [cnew]) = [600]
                      \/ map coin_timer (coins s ++ [cnew]) = [300; 600]).
        { rewrite map_app. cbn [map coin_timer cnew].
          destruct Ht as [Ht|[Ht|[Ht|Ht]]].
          - rewrite Ht. now left.
          - exfalso. destruct (coins s) as [|c1 l]; [discriminate|].
            injection Ht as Ht _. inversion Hpos; subst. lia.
          - rewrite Ht. now right.
          - exfalso. destruct (coins s) as [|c1 l]; [discriminate|].
            injection Ht as Ht _. inversion Hpos; subst. lia. }
        destruct (step_timers (coin_survives pf
                     (set_coin_spawn_timer 0
                        (set_coins (coins s ++ [cnew])
                           (set_rand_calls (S (S (rand_calls
                              (set_coin_spawn_timer (299 + 1) s7))))
                              (set_coin_spawn_timer (299 + 1) s7)))))
                    300 600 (coins s ++ [cnew])) as (Hp & Hq).
        * destruct Hts as [Hts|Hts]; rewrite Hts; auto.
        * intros c Hc. unfold coin_survives in Hc. apply andb_true_iff in Hc.
          destruct Hc as [Hc _]. apply Z.ltb_lt in Hc. lia.
        * cbv zeta in Hp, Hq.
          rewrite Hk299 in *.
          split; [lia|]. split; [|exact Hq].
          cbv zeta. exact Hp.
      + (* no coin is spawned *)
        assert (Hk' : coin_spawn_timer s + 1 < 300).
        { unfold Z.geb in Hsp. destruct (coin_spawn_timer s + 1 ?= 300) eqn:Hcmp;
            try discriminate. apply Z.compare_lt_iff in Hcmp. exact Hcmp. }
        cbn [coins set_coin_spawn_timer coin_spawn_timer]. rewrite Hc7.
        destruct (step_timers (coin_survives pf
                     (set_coin_spawn_timer (coin_spawn_timer s + 1) s7))
                    (600 - 300 - 1 - coin_spawn_timer s)
                    (600 - 1 - coin_spawn_timer s) (coins s) Ht) as (Hp & Hq).
        * intros c Hc. unfold coin_survives in Hc. apply andb_true_iff in Hc.
          destruct Hc as [Hc _]. apply Z.ltb_lt in Hc. lia.
        * cbv zeta in Hp, Hq. split; [lia|]. split; [|exact Hq].
          cbv zeta.
          replace (600 - 300 - 1 - (coin_spawn_timer s + 1))
            with (600 - 300 - 1 - coin_spawn_timer s - 1) by lia.
          replace (600 - 1 - (coin_spawn_timer s + 1))
            with (600 - 1 - coin_spawn_timer s - 1) by lia.
          exact Hp. }
  split; [exact Hinv|].
  destruct Hinv as (Hk & Ht & Hpos).
  unfold timers_in_step, COIN_DURATION_FRAMES, COIN_APPEAR_INTERVAL_FRAMES in *.
  cbv zeta in Ht.
  split.
  - rewrite <- (length_map coin_timer).
    destruct Ht as [Ht|[Ht|[Ht|Ht]]]; rewrite Ht; cbn; lia.
  - apply Forall_forall. intros c Hin.
    rewrite Forall_forall in Hpos. specialize (Hpos c Hin).
    assert (Hin' : In (coin_timer c) (map coin_timer (coins s))) by now apply in_map.
    destruct Ht as [Ht|[Ht|[Ht|Ht]]]; rewrite Ht in Hin'; cbn [In] in Hin'; lia.
Qed.

Hypothesis rand_nonneg : forall n, 0 <= rand pf n.
Hypothesis coin_width_fits :
  0 < coinEffectiveWidth pf < WINDOW_WIDTH - 2 * PADDLE_WIDTH.
Hypothesis coin_height_fits : 0 < coinEffectiveHeight pf < WINDOW_HEIGHT.

Lemma reachable_coins_in_field (s : State) :
  reachable pf s -> Forall (fun c => box_in_field (coinRect pf c)) (coins s).
Proof.
  induction 1 as [|fuel i s s' lg _ IH Hf]; [constructor|].
  destruct (frame_coins pf _ _ _ _ _ Hf) as (s7 & Hc7 & _ & _ & ->).
  destruct (coin_update_exact pf (fst (coin_spawn pf s7))) as (-> & _).
  unfold coins_after_loop.
  assert (H8 : Forall (fun c => box_in_field (coinRect pf c))
                 (coins (fst (coin_spawn pf s7)))).
  { pose proof (coin_spawn_step pf rand_nonneg coin_width_fits coin_height_fits s7)
      as Hstep.
    destruct (coin_spawn_timer s7 + 1 >=? COIN_APPEAR_INTERVAL_FRAMES).
    - destruct Hstep as (_ & _ & c & -> & Hfresh). rewrite Hc7.
      apply Forall_app. split; [exact IH|]. constructor; [|constructor].
      destruct Hfresh as (_ & Hbox & _). exact Hbox.
    - destruct Hstep as (_ & _ & ->). now rewrite Hc7. }
  apply Forall_forall. intros c' Hin. apply in_map_iff in Hin.
  destruct Hin as (c & <- & Hin). apply filter_In in Hin. destruct Hin as [Hin _].
  rewrite Forall_forall in H8. unfold age. rewrite coinRect_position. now apply H8.
Qed.

(** With coins narrower than the gap between the paddles, no paddle ever
    reaches a coin: every coin of a reachable state has its box between
    the paddle columns, and in every frame of play the coin loop collects
    by the ball or not at all. *)
Theorem paddles_never_reach_coins
    (fuel : nat) (i : Input) (s s' : State) (lg : FrameLog) :
  reachable pf s ->
  frame pf fuel i s = Some (s', lg) ->
  Forall (fun c => box_in_field (coinRect pf c)
                   /\ left_overlaps pf s c = false /\ right_overlaps pf s c = false)
         (coins s)
  /\ exists (s8 : State) (new : list Coin),
       s' = coin_update pf s8 /\ coins s8 = coins s ++ new
       /\ forall c, In c (coins s8) ->
            snd (coin_body pf s8 c) <> CollectedByLeftPaddle
            /\ snd (coin_body pf s8 c) <> CollectedByRightPaddle
            /\ left_point pf s8 c
               = (0 <? coin_timer c - 1) && ball_overlaps pf s8 c
                 && match last_ball_hit s8 with
                    | LastHit.LeftPaddle => true | _ => false end
            /\ right_point pf s8 c
               = (0 <? coin_timer c - 1) && ball_overlaps pf s8 c
                 && match last_ball_hit s8 with
                    | LastHit.RightPaddle => true | _ => false end.
Proof.
  intros Hreach Hf.
  pose proof (reachable_coins_in_field s Hreach) as Hfield.
  pose proof (reachable_paddles_in_shape pf s Hreach) as (I1 & I2 & I3 & _ & I5 & _).
  assert (Hmiss : forall (st : State) (c : Coin),
             paddles_in_shape st -> box_in_field (coinRect pf c) ->
             left_overlaps pf st c = false /\ right_overlaps pf st c = false).
  { intros st c (J1 & J2 & J3 & _ & J5 & _) Hbox.
    unfold left_overlaps, right_overlaps.
    split; apply paddle_misses_field; auto. }
  split.
  { apply Forall_forall. intros c Hin. rewrite Forall_forall in Hfield.
    specialize (Hfield c Hin). destruct (Hmiss s c) as [Hl Hr]; auto.
    - exact (reachable_paddles_in_shape pf s Hreach). }
  destruct (frame_coins pf _ _ _ _ _ Hf) as (s7 & Hc7 & _ & _ & Hs').
  set (s8 := fst (coin_spawn pf s7)) in *.
  pose proof (coin_spawn_step pf rand_nonneg coin_width_fits coin_height_fits s7)
    as Hstep.
  assert (H8 : exists new, coins s8 = coins s ++ new
                 /\ Forall (fun c => box_in_field (coinRect pf c)) (coins s8)).
  { unfold s8. destruct (coin_spawn_timer s7 + 1 >=? COIN_APPEAR_INTERVAL_FRAMES).
    - destruct Hstep as (_ & _ & c & -> & Hfresh). rewrite Hc7.
      exists [c]. split; [reflexivity|].
      apply Forall_app. split; [exact Hfield|]. constructor; [|constructor].
      destruct Hfresh as (_ & Hbox & _). exact Hbox.
    - destruct Hstep as (_ & _ & ->). rewrite Hc7.
      exists []. split; [now rewrite app_nil_r | exact Hfield]. }
  destruct H8 as (new & Hc & H8).
  exists s8, new. split; [exact Hs'|]. split; [exact Hc|].
  assert (Hreach' : reachable pf s') by (eapply reachable_frame; eauto).
  pose proof (reachable_paddles_in_shape pf s' Hreach') as Hshape'.
  destruct (coin_update_keeps pf s8) as (_ & _ & _ & _ & _ & _ & U7 & U8 & _).
  cbv zeta in U7, U8. rewrite <- Hs' in U7, U8.
  assert (Hshape8 : paddles_in_shape s8).
  { unfold paddles_in_shape in *. rewrite <- U7, <- U8. exact Hshape'. }
  intros c Hin. rewrite Forall_forall in H8.
  destruct (Hmiss s8 c Hshape8 (H8 c Hin)) as [Hl Hr].
  destruct (coin_body_exact pf s8 c) as (-> & _).
  unfold left_point, right_point. rewrite Hl, Hr.
  split; [|split; [|split]].
  - destruct (coin_timer c - 1 <=? 0); [discriminate|].
    destruct (ball_overlaps pf s8 c); discriminate.
  - destruct (coin_timer c - 1 <=? 0); [discriminate|].
    destruct (ball_overlaps pf s8 c); discriminate.
  - destruct (0 <? coin_timer c - 1), (ball_overlaps pf s8 c),
      (last_ball_hit s8); reflexivity.
  - destruct (0 <? coin_timer c - 1), (ball_overlaps pf s8 c),
      (last_ball_hit s8); reflexivity.
Qed.

End CoinsInPlay.

(** ** Drawing the ball *)

Lemma circle_rows_range (radius y : Z) :
  In y (circle_rows radius) <-> - radius <= y <= radius.
Proof.
  unfold circle_rows. rewrite in_map_iff. split.
  - intros (k & <- & Hk). apply in_seq in Hk. lia.
  - intros Hy. exists (Z.to_nat (y + radius)). split; [lia|].
    apply in_seq. lia.
Qed.

Lemma row_half_width_exact (radius y : Z) :
  0 <= radius <= 100 -> - radius <= y <= radius ->
  row_half_width radius y = Z.sqrt (radius * radius - y * y)
  /\ row_half_width_double radius y = Z.sqrt (radius * radius - y * y).
Proof.
  intros Hr Hy.
  assert (Hall : forall r, 0 <= r < 0 + Z.of_nat 101 -> rows_exact r = true).
  { apply Z_range_forallb. vm_compute. reflexivity. }
  assert (Hrow : rows_exact radius = true) by (apply Hall; cbn; lia).
  unfold rows_exact in Hrow. rewrite forallb_forall in Hrow.
  specialize (Hrow y (proj2 (circle_rows_range radius y) Hy)).
  apply andb_true_iff in Hrow. destruct Hrow as [H1 H2].
  apply Z.eqb_eq in H1. apply Z.eqb_eq in H2. auto.
Qed.

(** For a radius up to 100 [drawFilledCircle] fills exactly the pixels of
    the disc: a pixel lies on one of the lines drawn if and only if its
    distance from the centre is at most the radius, whichever [sqrt] is
    used. *)
Theorem drawFilledCircle_fills_disc (centerX centerY radius px py : Z) :
  0 <= radius <= 100 ->
  (on_lines (drawFilledCircle centerX centerY radius) px py
   <-> (px - centerX) * (px - centerX) + (py - centerY) * (py - centerY)
       <= radius * radius)
  /\ drawFilledCircle_with row_half_width_double centerX centerY radius
     = drawFilledCircle centerX centerY radius
  /\ length (drawFilledCircle centerX centerY radius) = Z.to_nat (2 * radius + 1).
Proof.
  intros Hr. split; [|split].
  - unfold on_lines, drawFilledCircle, drawFilledCircle_with. split.
    + intros (l & Hin & H1 & H2 & Hx). apply in_map_iff in Hin.
      destruct Hin as (y & <- & Hy). apply circle_rows_range in Hy.
      cbn [line_x1 line_x2 line_y1 line_y2] in *.
      destruct (row_half_width_exact radius y Hr Hy) as [He _]. rewrite He in Hx.
      assert (Hn : 0 <= radius * radius - y * y) by nia.
      pose proof (Z.sqrt_spec _ Hn) as Hs. cbv zeta in Hs.
      pose proof (Z.sqrt_nonneg (radius * radius - y * y)) as H0.
      replace (py - centerY) with y by lia.
      set (w := Z.sqrt (radius * radius - y * y)) in *.
      assert (Hd : (px - centerX) * (px - centerX) <= w * w) by nia.
      lia.
    + intros Hd.
      assert (Hy : - radius <= py - centerY <= radius).
      { pose proof (Z.square_nonneg (px - centerX)) as Hsq.
        assert (Hq : (py - centerY) * (py - centerY) <= radius * radius) by lia.
        set (d := py - centerY) in *. clearbody d.
        destruct (Z_le_gt_dec d radius) as [H1|H1];
          destruct (Z_le_gt_dec (- radius) d) as [H2|H2]; try lia; nia. }
      exists (mkLine (centerX - row_half_width radius (py - centerY)) py
                     (centerX + row_half_width radius (py - centerY)) py).
      split.
      * apply in_map_iff. exists (py - centerY). split.
        -- f_equal; lia.
        -- now apply circle_rows_range.
      * cbn [line_x1 line_x2 line_y1 line_y2].
        split; [reflexivity|]. split; [reflexivity|].
        destruct (row_half_width_exact radius (py - centerY) Hr Hy) as [He _].
        rewrite He.
        assert (Hn : 0 <= radius * radius - (py - centerY) * (py - centerY)) by nia.
        pose proof (Z.sqrt_spec _ Hn) as Hs. cbv zeta in Hs.
        pose proof (Z.sqrt_nonneg (radius * radius - (py - centerY) * (py - centerY)))
          as H0.
        set (w := Z.sqrt (radius * radius - (py - centerY) * (py - centerY))) in *.
        nia.
  - unfold drawFilledCircle, drawFilledCircle_with. apply map_ext_in.
    intros y Hy. apply circle_rows_range in Hy.
    destruct (row_half_width_exact radius y Hr Hy) as [H1 H2].
    now rewrite H1, H2.
  - unfold drawFilledCircle, drawFilledCircle_with, circle_rows.
    now rewrite !length_map, length_seq.
Qed.

(** ** The coin textures *)

Section CoinTextures.

Import CoinSystem.

Variable load : String.string -> option Texture.

Lemma load_frames_result (numbers : list Z) (st : Sys) :
  load_frames load numbers st
  = if all_load load numbers
    then (true, mkSys (gCoinTextures st ++ loaded_prefix load numbers) (destroyed st))
    else (false, mkSys [] (destroyed st ++ gCoinTextures st
                           ++ loaded_prefix load numbers)).
Proof.
  revert st. induction numbers as [|i rest IH]; intros st;
    cbn [load_frames all_load loaded_prefix forallb].
  - rewrite !app_nil_r. now destruct st.
  - destruct (load (filename i)) as [t|].
    + rewrite IH. cbn [gCoinTextures destroyed andb].
      fold (all_load load rest).
      rewrite <- !app_assoc. reflexivity.
    + cbn [andb]. unfold closeCoinSystem. now rewrite app_nil_r.
Qed.

Lemma loaded_prefix_all (numbers : list Z) :
  all_load load numbers = true ->
  map Some (loaded_prefix load numbers) = map (fun i => load (filename i)) numbers.
Proof.
  induction numbers as [|i rest IH]; [reflexivity|].
  cbn [all_load forallb loaded_prefix map].
  destruct (load (filename i)); [|discriminate].
  cbn [andb map]. intros H. f_equal. now apply IH.
Qed.

Lemma length_loaded_prefix (numbers : list Z) :
  (length (loaded_prefix load numbers) <= length numbers)%nat
  /\ (all_load load numbers = true ->
      length (loaded_prefix load numbers) = length numbers).
Proof.
  induction numbers as [|i rest [IH1 IH2]]; [split; auto|].
  cbn [all_load forallb loaded_prefix length].
  destruct (load (filename i)); cbn [length andb].
  - split; [lia|]. intros H. now rewrite IH2.
  - split; [lia | discriminate].
Qed.

(** [initCoinSystem] is all or nothing: it returns true exactly when the
    eight files coin_01.png to coin_08.png load, and the vector then holds
    their textures in order; otherwise the vector is empty.  Whatever was
    in the vector before, and whatever was loaded before a failure, has
    been destroyed; nothing else has.  So [draw_Coin] never reads past the
    end of the vector: it draws nothing, or the frame chosen by the time,
    centred on the position given. *)
Theorem initCoinSystem_all_or_nothing
    (st : Sys) (query : Texture -> Z * Z) (x y : Z) (scale : float)
    (renderer_is_null : bool) (currentTime : Z) :
  0 <= currentTime < 2 ^ 32 ->
  let ok := fst (initCoinSystem load st) in
  let st' := snd (initCoinSystem load st) in
  ok = all_load load frame_numbers
  /\ (ok = true ->
      map Some (gCoinTextures st') = map (fun i => load (filename i)) frame_numbers
      /\ length (gCoinTextures st') = 8%nat
      /\ destroyed st' = destroyed st ++ gCoinTextures st)
  /\ (ok = false ->
      gCoinTextures st' = []
      /\ destroyed st'
         = destroyed st ++ gCoinTextures st ++ loaded_prefix load frame_numbers)
  /\ map filename frame_numbers = frame_files
  /\ draw_Coin query x y scale renderer_is_null currentTime st' <> PastTheEnd
  /\ (forall texture dstRect,
        draw_Coin query x y scale renderer_is_null currentTime st'
        = RenderCopy texture dstRect ->
        nth_error (gCoinTextures st') (Z.to_nat ((currentTime / 100) mod 8))
        = Some texture
        /\ rect_x dstRect = x - Z.quot (rect_w dstRect) 2
        /\ rect_y dstRect = y - Z.quot (rect_h dstRect) 2
        /\ rect_w dstRect = F32.to_int (F32.mul (F32.of_int (fst (query texture))) scale)
        /\ rect_h dstRect
           = F32.to_int (F32.mul (F32.of_int (snd (query texture))) scale)).
Proof.
  intros Ht. cbv zeta. unfold initCoinSystem.
  rewrite load_frames_result. unfold closeCoinSystem.
  cbn [gCoinTextures destroyed app].
  assert (Hidx : Z.rem (Z.quot currentTime COIN_ANIMATION_SPEED_MS) NUM_COIN_FRAMES
                 = (currentTime / 100) mod 8
                 /\ 0 <= (currentTime / 100) mod 8 < 8).
  { unfold COIN_ANIMATION_SPEED_MS, NUM_COIN_FRAMES.
    rewrite Z.quot_div_nonneg by lia.
    assert (0 <= currentTime / 100) by (apply Z.div_pos; lia).
    rewrite Z.rem_mod_nonneg by lia. split; [reflexivity|].
    apply Z.mod_pos_bound. lia. }
  destruct Hidx as [Hidx Hrange].
  destruct (all_load load frame_numbers) eqn:Hall; cbn [fst snd gCoinTextures destroyed].
  - destruct (length_loaded_prefix frame_numbers) as [_ Hlen].
    specialize (Hlen Hall).
    assert (Hlen8 : length (loaded_prefix load frame_numbers) = 8%nat)
      by (rewrite Hlen; reflexivity).
    split; [reflexivity|]. split.
    { intros _. split; [now apply loaded_prefix_all|]. split; [exact Hlen8|].
      reflexivity. }
    split; [discriminate|]. split; [reflexivity|].
    unfold draw_Coin. cbn [gCoinTextures]. rewrite Hidx.
    destruct (loaded_prefix load frame_numbers) as [|t0 l] eqn:Hl; [discriminate|].
    destruct renderer_is_null; [split; [discriminate | intros; discriminate]|].
    destruct (nth_error (t0 :: l) (Z.to_nat ((currentTime / 100) mod 8))) as [t|] eqn:Hn.
    + destruct (query t) as [w h] eqn:Hq. split; [discriminate|].
      intros texture dstRect H. injection H as <- <-.
      rewrite Hq. cbn. auto.
    + exfalso. apply nth_error_None in Hn. rewrite Hlen8 in Hn. lia.
  - split; [reflexivity|]. split; [discriminate|].
    split; [intros _; split; [reflexivity | now rewrite <- app_assoc]|].
    split; [reflexivity|].
    unfold draw_Coin. cbn [gCoinTextures].
    split; [discriminate | intros; discriminate].
Qed.

End CoinTextures.

(** ** Where a coin is drawn *)

Lemma int_float_int (n : Z) :
  0 <= n < WINDOW_WIDTH -> F32.to_int (F32.of_int n) = n.
Proof.
  intros Hn. unfold WINDOW_WIDTH in Hn.
  assert (Hall : forall m, 0 <= m < 0 + Z.of_nat 800 -> int_float_int_exact m = true).
  { apply Z_range_forallb. vm_compute. reflexivity. }
  apply Z.eqb_eq. apply Hall. cbn. lia.
Qed.

Section CoinDrawing.

Import CoinSystem.

Variable pf : Platform.
Variable query : Texture -> Z * Z.

(** A coin is drawn exactly on the box used for its collisions: when the
    platform's coin size is that of the first texture, all frames have
    that size, and the coin has an integer centre at least half a coin
    from the left and top borders, as spawned coins have, the rectangle
    [draw_Coin] copies the frame to is [coinRect] of the coin. *)
Theorem coin_drawn_on_its_box
    (st : Sys) (c : Coin) (cx cy currentTime : Z) (texture : Texture)
    (dstRect : SDL_Rect) :
  coin_texture pf = first_texture_size query st ->
  (forall t t', In t (gCoinTextures st) -> In t' (gCoinTextures st) ->
                query t = query t') ->
  coin_x c = F32.of_int cx -> coin_y c = F32.of_int cy ->
  0 <= Z.quot (coinEffectiveWidth pf) 2 <= cx -> cx < WINDOW_WIDTH ->
  0 <= Z.quot (coinEffectiveHeight pf) 2 <= cy -> cy < WINDOW_HEIGHT ->
  draw_Coin query (F32.to_int (coin_x c)) (F32.to_int (coin_y c)) COIN_DRAW_SCALE
    false currentTime st = RenderCopy texture dstRect ->
  dstRect = coinRect pf c.
Proof.
  intros Hsize Hsame Hx Hy Hcx Hcx' Hcy Hcy' Hdraw.
  unfold draw_Coin, first_texture_size in *.
  destruct (gCoinTextures st) as [|t0 l] eqn:Hg; [discriminate|].
  destruct (nth_error (t0 :: l) _) as [t|] eqn:Hn; [|discriminate].
  apply nth_error_In in Hn.
  assert (Hq : query t = query t0) by (apply Hsame; [exact Hn | now left]).
  destruct (query t) as [w h] eqn:Hqt. injection Hdraw as <- <-.
  assert (Hw : coinEffectiveWidth pf
               = F32.to_int (F32.mul (F32.of_int w) COIN_DRAW_SCALE)).
  { unfold coinEffectiveWidth, getCoinRenderedWidth. now rewrite Hsize, <- Hq. }
  assert (Hh : coinEffectiveHeight pf
               = F32.to_int (F32.mul (F32.of_int h) COIN_DRAW_SCALE)).
  { unfold coinEffectiveHeight, getCoinRenderedHeight. now rewrite Hsize, <- Hq. }
  unfold coinRect. rewrite Hx, Hy, <- Hw, <- Hh.
  unfold WINDOW_WIDTH, WINDOW_HEIGHT in *.
  rewrite !int_float_int by (unfold WINDOW_WIDTH; lia).
  rewrite !box_origin by (unfold WINDOW_WIDTH; lia).
  reflexivity.
Qed.

End CoinDrawing.

(** ** What a paddle hit and a launch do to the ball *)

(** A paddle hit puts the ball on the face of the paddle and turns it away:
    the horizontal direction keeps its size and points away from the paddle,
    height, vertical direction and speed are untouched, and the frame counts
    as reflecting. *)
Theorem paddle_hit_pushes_ball_out (s : State) (r : bool) (side : LastHit) :
  paddle_test s = side ->
  side <> LastHit.None ->
  snd (paddle_collisions s r) = true
  /\ ball_y (fst (paddle_collisions s r)) = ball_y s
  /\ ball_dy (fst (paddle_collisions s r)) = ball_dy s
  /\ current_ball_speed (fst (paddle_collisions s r)) = current_ball_speed s
  /\ match side with
     | LastHit.RightPaddle =>
         ball_x (fst (paddle_collisions s r))
         = F32.of_int (rect_x (rightPaddle s) - BALL_RADIUS)
         /\ ball_dx (fst (paddle_collisions s r)) = F32.opp (F32.abs (ball_dx s))
         /\ F32.ltb (ball_dx (fst (paddle_collisions s r))) (F32.of_int 0) = true
     | _ =>
         ball_x (fst (paddle_collisions s r))
         = F32.of_int (rect_x (leftPaddle s) + PADDLE_WIDTH + BALL_RADIUS)
         /\ ball_dx (fst (paddle_collisions s r)) = F32.abs (ball_dx s)
         /\ F32.ltb (F32.of_int 0) (ball_dx (fst (paddle_collisions s r))) = true
     end.
Proof.
  intros Ht Hside.
  pose proof (paddle_collisions_keeps s r) as Hk. cbv zeta in Hk.
  destruct Hk as (K1 & K2 & K3 & _).
  assert (Hdx : match side with
                | LastHit.RightPaddle => F32.ltb (F32.of_int 0) (ball_dx s) = true
                | _ => F32.ltb (ball_dx s) (F32.of_int 0) = true
                end).
  { unfold paddle_test in Ht.
    destruct (F32.ltb (ball_dx s) (F32.of_int 0)
              && checkCircleRectCollision (ball_x s) (ball_y s) BALL_RADIUS
                   (leftPaddle s)) eqn:Hl.
    - subst side. apply andb_true_iff in Hl. tauto.
    - destruct (F32.ltb (F32.of_int 0) (ball_dx s)
                && checkCircleRectCollision (ball_x s) (ball_y s) BALL_RADIUS
                     (rightPaddle s)) eqn:Hr.
      + subst side. apply andb_true_iff in Hr. tauto.
      + congruence. }
  split.
  { unfold paddle_collisions. rewrite Ht. destruct side; [congruence| |]; reflexivity. }
  split; [exact K1|]. split; [exact K2|]. split; [exact K3|].
  unfold paddle_collisions. rewrite Ht.
  destruct side; [congruence| |]; cbn [fst].
  - assert (Hx : ball_x (left_paddle_hit s)
                 = F32.of_int (rect_x (leftPaddle s) + PADDLE_WIDTH + BALL_RADIUS)
                 /\ ball_dx (left_paddle_hit s) = F32.abs (ball_dx s)).
    { unfold left_paddle_hit, left_hit_rule.
      cbn [last_ball_hit set_ball_x set_ball_dx].
      destruct (last_ball_hit s); cbn; auto.
      destruct (left_consecutive_hits s + 1 >=? 2); auto. }
    destruct Hx as [Hx Hd]. split; [exact Hx|]. split; [exact Hd|].
    rewrite Hd. destruct (moving_left_facts _ Hdx) as (_ & _ & H). exact H.
  - assert (Hx : ball_x (right_paddle_hit s)
                 = F32.of_int (rect_x (rightPaddle s) - BALL_RADIUS)
                 /\ ball_dx (right_paddle_hit s) = F32.opp (F32.abs (ball_dx s))).
    { unfold right_paddle_hit, right_hit_rule.
      cbn [last_ball_hit set_ball_x set_ball_dx].
      destruct (last_ball_hit s); cbn; auto.
      destruct (right_consecutive_hits s + 1 >=? 2); auto. }
    destruct Hx as [Hx Hd]. split; [exact Hx|]. split; [exact Hd|].
    rewrite Hd. destruct (moving_right_facts _ Hdx) as (_ & _ & H). exact H.
Qed.

Section LaunchEffects.

Variable pf : Platform.

(** A launch gives the ball a direction and base speed and clears the
    boost timer; it leaves position, paddles, coins, scores and rally as
    they are, and has drawn from [rand] at least once. *)
Theorem launch_changes_direction_and_speed_only
    (fuel : nat) (e : Event) (s s' : State) :
  handle_event pf fuel e s = Some (s', true) ->
  current_ball_speed s' = INITIAL_BALL_SPEED /\ ball_boost_timer s' = 0
  /\ ball_x s' = ball_x s /\ ball_y s' = ball_y s
  /\ leftPaddle s' = leftPaddle s /\ rightPaddle s' = rightPaddle s
  /\ coins s' = coins s /\ coin_spawn_timer s' = coin_spawn_timer s
  /\ left_score s' = left_score s /\ right_score s' = right_score s
  /\ rally s' = rally s
  /\ (rand_calls s < rand_calls s')%nat.
Proof.
  intros H. unfold handle_event in H.
  destruct e as [|mouseX mouseY|]; try discriminate.
  destruct (launch_test mouseX mouseY s); [|discriminate].
  destruct (launch pf fuel s) as [s1|] eqn:Hl; [|discriminate].
  injection H as <-.
  destruct (launch_keeps pf _ _ _ Hl)
    as (L1 & L2 & L3 & L4 & L5 & L6 & L7 & L8 & L9 & L10 & L11 & L12 & L13).
  assert (Hcalls : (rand_calls s < rand_calls s1)%nat).
  { unfold launch in Hl.
    destruct (pick_angle pf fuel (rand_calls s)) as [[angle n]|] eqn:Hp; [|discriminate].
    injection Hl as <-. cbn.
    destruct (pick_angle_accepts pf _ _ _ _ Hp) as (_ & k & Hk & -> & _). lia. }
  unfold rally. repeat (split; [congruence|]). exact Hcalls.
Qed.

End LaunchEffects.

(** The hit of frame 154 of the run with seed 11. *)
Lemma paddle_hit_witness :
  paddle_test (fst at_first_hit) = LastHit.LeftPaddle
  /\ ball_x (fst (paddle_collisions (fst at_first_hit) (snd at_first_hit)))
     = F32.of_int 35
  /\ F32.ltb (F32.of_int 0)
       (ball_dx (fst (paddle_collisions (fst at_first_hit) (snd at_first_hit)))) = true.
Proof.
  assert (Ht : paddle_test (fst at_first_hit) = LastHit.LeftPaddle)
    by (vm_compute; reflexivity).
  assert (Hside : LastHit.LeftPaddle <> LastHit.None) by discriminate.
  destruct (paddle_hit_pushes_ball_out (fst at_first_hit) (snd at_first_hit)
              LastHit.LeftPaddle Ht Hside) as (_ & _ & _ & _ & Hx & _ & Hd).
  split; [exact Ht|]. split; [|exact Hd].
  rewrite Hx. vm_compute. reflexivity.
Defined.

(** The launch click on the resting ball with seed 1. *)
Lemma launch_witness :
  current_ball_speed (fst (frame_state_events seed_1 10 launch_click initial_state))
  = INITIAL_BALL_SPEED
  /\ ball_x (fst (frame_state_events seed_1 10 launch_click initial_state))
     = ball_x initial_state
  /\ (rand_calls initial_state
      < rand_calls (fst (frame_state_events seed_1 10 launch_click initial_state)))%nat.
Proof.
  assert (Hs : handle_event seed_1 10 (SDL_MOUSEBUTTONDOWN 405 295) initial_state
               = Some (fst (frame_state_events seed_1 10 launch_click initial_state), true))
    by (vm_compute; reflexivity).
  destruct (launch_changes_direction_and_speed_only seed_1 10 _ _ _ Hs)
    as (Hv & _ & Hx & _ & _ & _ & _ & _ & _ & _ & _ & Hc).
  split; [exact Hv|]. split; [exact Hx | exact Hc].
Defined.

(** ** The further statements at concrete inputs *)

(** The ball within the borders after the bounce of [bounce_state]. *)
Lemma ball_within_borders_witness :
  wall_test (frame_state seed_1 10 idle bounce_state) = None
  /\ edge_test (frame_state seed_1 10 idle bounce_state) = None.
Proof.
  assert (Hf : frame seed_1 10 idle bounce_state
               = Some (frame_state seed_1 10 idle bounce_state,
                       frame_log seed_1 10 idle bounce_state))
    by (vm_compute; reflexivity).
  exact (ball_within_borders_after_frame seed_1 10 idle _ _ _ Hf).
Defined.

(** The miss of frame 100 with seed 3: past the left edge, the right player
    scores. *)
Lemma miss_without_reflection_witness :
  edge_crossed (frame_log seed_3 10 idle before_first_miss) = Some LeftEdge
  /\ current_ball_speed (frame_state seed_3 10 idle before_first_miss)
     = INITIAL_BALL_SPEED
  /\ ball_boost_timer (frame_state seed_3 10 idle before_first_miss) = 0
  /\ last_ball_hit (frame_state seed_3 10 idle before_first_miss) = LastHit.None
  /\ right_score (frame_state seed_3 10 idle before_first_miss)
     = right_score before_first_miss + 1.
Proof.
  assert (Hf : frame seed_3 10 idle before_first_miss
               = Some (frame_state seed_3 10 idle before_first_miss,
                       frame_log seed_3 10 idle before_first_miss))
    by (vm_compute; reflexivity).
  assert (Hr : reflected_this_frame (frame_log seed_3 10 idle before_first_miss) = false)
    by (vm_compute; reflexivity).
  assert (He : edge_crossed (frame_log seed_3 10 idle before_first_miss) = Some LeftEdge)
    by (vm_compute; reflexivity).
  destruct (miss_without_reflection_resets seed_3 10 idle _ _ _ LeftEdge Hf Hr He)
    as (_ & _ & Hv & Ht & Hl & _).
  split; [exact He|]. split; [exact Hv|]. split; [exact Ht|]. split; [exact Hl|].
  vm_compute. reflexivity.
Defined.

(** The scores of frame 374 of the run with the coin on the way of the
    ball. *)
Lemma scores_change_witness :
  exists s8 : State,
    frame_state coin_on_path 10 idle before_coin_taken = coin_update coin_on_path s8
    /\ left_score (frame_state coin_on_path 10 idle before_coin_taken)
       = left_score before_coin_taken
         + miss_point_left (frame_log coin_on_path 10 idle before_coin_taken)
         + count_where (left_point coin_on_path s8) (coins s8).
Proof.
  assert (Hrun : run coin_on_path 10 (repeat idle 199 ++ launch_click :: repeat idle 173)
                   initial_state
                 = Some (before_coin_taken,
                         run_logs coin_on_path 10
                           (repeat idle 199 ++ launch_click :: repeat idle 173)
                           initial_state))
    by (vm_compute; reflexivity).
  pose proof (run_reachable coin_on_path 10 _ _ _ _ (reachable_init coin_on_path) Hrun)
    as Hreach.
  assert (Hf : frame coin_on_path 10 idle before_coin_taken
               = Some (frame_state coin_on_path 10 idle before_coin_taken,
                       frame_log coin_on_path 10 idle before_coin_taken))
    by (vm_compute; reflexivity).
  destruct (scores_change_by_miss_and_coins coin_on_path 10 idle _ _ _ Hreach Hf)
    as (s8 & H1 & H2 & _).
  exists s8. split; [exact H1 | exact H2].
Defined.

(** The paddles in frame 154 of the run with seed 11. *)
Lemma paddles_move_witness :
  paddles_in_shape before_first_hit
  /\ Z.abs (rect_y (leftPaddle (frame_state seed_11 10 idle before_first_hit))
            - rect_y (leftPaddle before_first_hit)) <= 6.
Proof.
  assert (Hrun : run seed_11 10 (launch_click :: repeat idle 152) initial_state
                 = Some (before_first_hit,
                         run_logs seed_11 10 (launch_click :: repeat idle 152)
                           initial_state))
    by (vm_compute; reflexivity).
  pose proof (run_reachable seed_11 10 _ _ _ _ (reachable_init seed_11) Hrun) as Hreach.
  assert (Hf : frame seed_11 10 idle before_first_hit
               = Some (frame_state seed_11 10 idle before_first_hit,
                       frame_log seed_11 10 idle before_first_hit))
    by (vm_compute; reflexivity).
  destruct (paddles_move_within_window seed_11 10 idle _ _ _ Hreach Hf)
    as (Hs & _ & Hl & _).
  split; [exact Hs | exact Hl].
Defined.

(** Clicks on the ball in flight, one frame after the launch. *)
Lemma clicks_in_flight_witness :
  event_handling seed_1 10 two_clicks (frame_state seed_1 10 launch_click initial_state)
  = Some (frame_state seed_1 10 launch_click initial_state, false).
Proof.
  apply clicks_launch_resting_ball_only. left. vm_compute. reflexivity.
Defined.

(** The coin list after 700 idle frames. *)
Lemma coins_at_most_two_witness :
  (length (coins after_700_frames) <= 2)%nat
  /\ map coin_timer (coins after_700_frames) = [199; 499].
Proof.
  assert (Hrun : run seed_1 10 (repeat idle 700) initial_state
                 = Some (after_700_frames,
                         run_logs seed_1 10 (repeat idle 700) initial_state))
    by (vm_compute; reflexivity).
  pose proof (run_reachable seed_1 10 _ _ _ _ (reachable_init seed_1) Hrun) as Hreach.
  destruct (coins_at_most_two seed_1 _ Hreach) as (_ & Hlen & _).
  split; [exact Hlen|]. vm_compute. reflexivity.
Defined.

(** The coin of frame 300 with seed 1, one frame later. *)
Lemma paddles_never_reach_coins_witness :
  Forall (fun c => box_in_field (coinRect seed_1 c)
                   /\ left_overlaps seed_1 after_first_coin c = false
                   /\ right_overlaps seed_1 after_first_coin c = false)
         (coins after_first_coin).
Proof.
  assert (Hrand : forall n, 0 <= rand seed_1 n)
    by (intros n; apply lcg_rand_nonneg).
  assert (Hw : 0 < coinEffectiveWidth seed_1 < WINDOW_WIDTH - 2 * PADDLE_WIDTH)
    by (split; vm_compute; reflexivity).
  assert (Hh : 0 < coinEffectiveHeight seed_1 < WINDOW_HEIGHT)
    by (split; vm_compute; reflexivity).
  assert (Hrun : run seed_1 10 (repeat idle 300) initial_state
                 = Some (after_first_coin,
                         run_logs seed_1 10 (repeat idle 300) initial_state))
    by (vm_compute; reflexivity).
  pose proof (run_reachable seed_1 10 _ _ _ _ (reachable_init seed_1) Hrun) as Hreach.
  assert (Hf : frame seed_1 10 idle after_first_coin
               = Some (frame_state seed_1 10 idle after_first_coin,
                       frame_log seed_1 10 idle after_first_coin))
    by (vm_compute; reflexivity).
  destruct (paddles_never_reach_coins seed_1 Hrand Hw Hh 10 idle _ _ _ Hreach Hf)
    as (H & _).
  exact H.
Defined.

(** The ball of radius 15 drawn at the centre of the window: the pixel
    (409, 312), at distance exactly 15, is filled. *)
Lemma drawFilledCircle_witness :
  on_lines (drawFilledCircle 400 300 BALL_RADIUS) 409 312
  /\ length (drawFilledCircle 400 300 BALL_RADIUS) = 31%nat.
Proof.
  assert (Hr : 0 <= BALL_RADIUS <= 100) by (split; vm_compute; discriminate).
  destruct (drawFilledCircle_fills_disc 400 300 BALL_RADIUS 409 312 Hr)
    as (Hdisc & _ & Hlen).
  split; [|exact Hlen].
  apply Hdisc. vm_compute. discriminate.
Defined.

(** Loading stops at the sixth file when only five are there; the five
    textures loaded are destroyed and nothing is drawn. *)
Lemma initCoinSystem_witness :
  fst (CoinSystem.initCoinSystem (CoinSystem.first_frames_only 5)
         (CoinSystem.mkSys [] [])) = false
  /\ CoinSystem.destroyed
       (snd (CoinSystem.initCoinSystem (CoinSystem.first_frames_only 5)
               (CoinSystem.mkSys [] [])))
     = [101; 102; 103; 104; 105]
  /\ CoinSystem.draw_Coin size_32 700 20 COIN_DRAW_SCALE false 1234
       (snd (CoinSystem.initCoinSystem (CoinSystem.first_frames_only 5)
               (CoinSystem.mkSys [] [])))
     <> CoinSystem.PastTheEnd.
Proof.
  assert (Ht : 0 <= 1234 < 2 ^ 32) by (split; vm_compute; [discriminate | reflexivity]).
  destruct (initCoinSystem_all_or_nothing (CoinSystem.first_frames_only 5)
              (CoinSystem.mkSys [] []) size_32 700 20 COIN_DRAW_SCALE false 1234 Ht)
    as (Hok & _ & Hfail & _ & Hdraw & _).
  split; [vm_compute; reflexivity|]. split; [vm_compute; reflexivity | exact Hdraw].
Defined.

(** The first coin of the run with seed 1, drawn at time 0. *)
Lemma coin_drawn_on_its_box_witness :
  CoinSystem.draw_Coin size_32 (F32.to_int (coin_x first_coin))
    (F32.to_int (coin_y first_coin)) COIN_DRAW_SCALE false 0 eight_frames
  = CoinSystem.RenderCopy 101 (mkRect 688 8 25 25)
  /\ mkRect 688 8 25 25 = coinRect seed_1 first_coin.
Proof.
  assert (Hd : CoinSystem.draw_Coin size_32 (F32.to_int (coin_x first_coin))
                 (F32.to_int (coin_y first_coin)) COIN_DRAW_SCALE false 0 eight_frames
               = CoinSystem.RenderCopy 101 (mkRect 688 8 25 25))
    by (vm_compute; reflexivity).
  split; [exact Hd|].
  apply (coin_drawn_on_its_box seed_1 size_32 eight_frames first_coin 700 20 0 101
           (mkRect 688 8 25 25)).
  - vm_compute. reflexivity.
  - intros t t' _ _. reflexivity.
  - reflexivity.
  - reflexivity.
  - vm_compute. split; discriminate.
  - vm_compute. reflexivity.
  - vm_compute. split; discriminate.
  - vm_compute. reflexivity.
  - exact Hd.
Defined.
